(** * funding-scraper: the three-stage pipeline and its relevance rules

    A shallow embedding of [main.py], [ai_analyzer.py], [database_manager.py]
    and the orchestration part of the three scrapers, followed by the
    properties of the pipeline that the specification states.

    Conventions of the embedding:
    - a Python [str] is a Rocq [string] whose characters are read as code
      points below 256; [lower], [strip] and [in] are Python's on that range;
    - a Python [int] is a [Z];
    - a [dict] read with [.get] is a record whose optional keys are [option]s;
      the values of the enrichment answer are decoded JSON, of any type;
    - a call around which the program has no handler either returns or
      raises; the worker's exceptions end in the [except] of the run;
    - the hosted store is not part of the program: every call the program
      issues on the Supabase client is recorded as a [db_call], and the two
      maintenance deletes act on the table as the filters they send;
    - the language model is an oracle: for each prompt and attempt number it
      either raises or answers with a text, of which the model keeps what the
      program looks at (no JSON object, malformed JSON, or the decoded object);
    - the clock ([date.today()], [datetime.now(timezone.utc)]) and the order in
      which a thread pool completes its futures are inputs; the semaphore
      around a worker only delays it and is left out, as are the sleeps and
      the log. *)

From Stdlib Require Import ZArith Bool Ascii String List Lia Permutation.
From stdpp Require Import base decidable option list gmap sets strings.

Open Scope string_scope.
Open Scope Z_scope.

(** ** Python strings *)

Module PyStr.

(** [str.lower()] on one code point below 256: A-Z and the Latin-1 capitals
    (0xC0-0xDE without the multiplication sign 0xD7) move up by 32. *)
Definition lower_char (c : ascii) : ascii :=
  let n := Z.of_N (N_of_ascii c) in
  if ((65 <=? n) && (n <=? 90)) || ((192 <=? n) && (n <=? 222) && negb (n =? 215))
  then ascii_of_N (Z.to_N (n + 32))
  else c.

Fixpoint lower (s : string) : string :=
  match s with
  | EmptyString => EmptyString
  | String c s' => String (lower_char c) (lower s')
  end.

(** [str.isspace()] on one code point below 256. *)
Definition is_space (c : ascii) : bool :=
  let n := Z.of_N (N_of_ascii c) in
  ((9 <=? n) && (n <=? 13)) || ((28 <=? n) && (n <=? 32)) || (n =? 133) || (n =? 160).

Fixpoint lstrip (s : string) : string :=
  match s with
  | EmptyString => EmptyString
  | String c s' => if is_space c then lstrip s' else s
  end.

Fixpoint rstrip (s : string) : string :=
  match s with
  | EmptyString => EmptyString
  | String c s' =>
      match rstrip s' with
      | EmptyString => if is_space c then EmptyString else String c EmptyString
      | r => String c r
      end
  end.

(** [s.strip()] *)
Definition strip (s : string) : string := rstrip (lstrip s).

Fixpoint startswith (p s : string) : bool :=
  match p, s with
  | EmptyString, _ => true
  | String a p', String b s' => if Ascii.eqb a b then startswith p' s' else false
  | String _ _, EmptyString => false
  end.

(** [needle in hay] for two strings *)
Fixpoint str_in (needle hay : string) : bool :=
  startswith needle hay ||
  match hay with
  | EmptyString => false
  | String _ hay' => str_in needle hay'
  end.

(** [sep.join(parts)] *)
Fixpoint join (sep : string) (parts : list string) : string :=
  match parts with
  | [] => EmptyString
  | [p] => p
  | p :: rest => p ++ sep ++ join sep rest
  end.

(** truthiness of a string: [if s:] *)
Definition truthy (s : string) : bool :=
  match s with EmptyString => false | _ => true end.

(** [s[:n]] for [n >= 0] *)
Fixpoint take (n : nat) (s : string) : string :=
  match n, s with
  | S n', String c s' => String c (take n' s')
  | _, _ => EmptyString
  end.

End PyStr.

(** ** Calendar dates ([datetime.date], [datetime.datetime]) *)

Module Dates.

Record date := mk_date { year : Z; month : Z; day : Z }.

(** a UTC [datetime]: the date and the microseconds since midnight *)
Record datetime := mk_datetime { dt_date : date; dt_micros : Z }.

Definition is_leap (y : Z) : bool :=
  ((y mod 4 =? 0) && negb (y mod 100 =? 0)) || (y mod 400 =? 0).

(** [calendar.monthrange(y, m)[1]] *)
Definition days_in_month (y m : Z) : Z :=
  if m =? 2 then (if is_leap y then 29 else 28)
  else if (m =? 4) || (m =? 6) || (m =? 9) || (m =? 11) then 30
  else 31.

(** the values a [date] object can hold: MINYEAR = 1, MAXYEAR = 9999 *)
Definition valid_date (d : date) : bool :=
  (1 <=? year d) && (year d <=? 9999) &&
  (1 <=? month d) && (month d <=? 12) &&
  (1 <=? day d) && (day d <=? days_in_month (year d) (month d)).

(** [a < b] on dates *)
Definition date_ltb (a b : date) : bool :=
  (year a <? year b) ||
  ((year a =? year b) &&
   ((month a <? month b) || ((month a =? month b) && (day a <? day b)))).

Definition date_eqb (a b : date) : bool :=
  (year a =? year b) && (month a =? month b) && (day a =? day b).

(** [a < b] on datetimes *)
Definition datetime_ltb (a b : datetime) : bool :=
  date_ltb (dt_date a) (dt_date b) ||
  (date_eqb (dt_date a) (dt_date b) && (dt_micros a <? dt_micros b)).

Definition digit (n : Z) : ascii := ascii_of_N (Z.to_N (48 + n mod 10)).

Definition pad2 (n : Z) : string :=
  String (digit (n / 10)) (String (digit n) EmptyString).

Definition pad4 (n : Z) : string :=
  String (digit (n / 1000)) (String (digit (n / 100)) (pad2 n)).

(** [%Y] as the C library of a Linux host writes it, which is where the
    pipeline is scheduled: the decimal digits of the year without padding,
    so four digits only from the year 1000 on *)
Definition year_digits (n : Z) : string :=
  if n <? 10 then String (digit n) EmptyString
  else if n <? 100 then pad2 n
  else if n <? 1000 then String (digit (n / 100)) (pad2 n)
  else pad4 n.

(** [d.strftime('%Y-%m-%d')] *)
Definition strftime_ymd (d : date) : string :=
  year_digits (year d) ++ "-" ++ pad2 (month d) ++ "-" ++ pad2 (day d).

Definition digit_val (c : ascii) : option Z :=
  let n := Z.of_N (N_of_ascii c) in
  if (48 <=? n) && (n <=? 57) then Some (n - 48) else None.

Definition is_dash (c : ascii) : bool := Ascii.eqb c "-"%char.

(** [datetime.strptime(s, '%Y-%m-%d').date()] on the strings that
    [strftime_ymd] writes, which are the only ones the pipeline hands to it:
    [%Y] reads exactly four digits, so a shorter year is refused; [None]
    stands for the ValueError of a string that is not a date. *)
Definition strptime_ymd (s : string) : option date :=
  match s with
  | String y1 (String y2 (String y3 (String y4 (String s1
      (String m1 (String m2 (String s2 (String d1 (String d2 EmptyString)))))))))
    =>
      match digit_val y1, digit_val y2, digit_val y3, digit_val y4,
            digit_val m1, digit_val m2, digit_val d1, digit_val d2 with
      | Some a, Some b, Some c, Some e, Some f, Some g, Some h, Some i =>
          let d := mk_date (1000 * a + 100 * b + 10 * c + e) (10 * f + g) (10 * h + i) in
          if is_dash s1 && is_dash s2 && valid_date d then Some d else None
      | _, _, _, _, _, _, _, _ => None
      end
  | _ => None
  end.

(** [d - relativedelta(months=n)] on the date part: dateutil splits [n]
    into whole years and a remainder of the same sign, moves the month,
    carries once into the year and clamps the day to the length of the
    month reached; [None] stands for the ValueError of a year outside
    1..9999. *)
Definition minus_months (d : date) (n : Z) : option date :=
  let years := Z.quot n 12 in
  let months := Z.rem n 12 in
  let y0 := year d - years in
  let m0 := month d - months in
  let '(y, m) :=
    if 12 <? m0 then (y0 + 1, m0 - 12)
    else if m0 <? 1 then (y0 - 1, m0 + 12)
    else (y0, m0) in
  if (1 <=? y) && (y <=? 9999)
  then Some (mk_date y m (Z.min (days_in_month y m) (day d)))
  else None.

Definition datetime_minus_months (t : datetime) (n : Z) : option datetime :=
  match minus_months (dt_date t) n with
  | Some d => Some (mk_datetime d (dt_micros t))
  | None => None
  end.

End Dates.

(** ** Decoded JSON *)

(** A value [json.loads] returns. A number keeps its literal and whether
    Python holds it for non-zero, the one thing a program can ask of it
    without computing. The members of an object are the items of the
    [dict], one for each key. *)
#[warnings="-register-all"] Inductive json :=
| JNull
| JBool (b : bool)
| JNumber (nonzero : bool) (literal : string)
| JString (s : string)
| JArray (items : list json)
| JObject (members : list (string * json)).

(** A call around which the program has no handler: it returns a value, or
    an exception leaves it. *)
Inductive outcome (A : Type) :=
| Returns (a : A)
| Raises.
Arguments Returns {A} a.
Arguments Raises {A}.

Module PyJson.

(** [list(s)]: the characters of a string, each a string *)
Fixpoint chars (s : string) : list string :=
  match s with
  | EmptyString => []
  | String c s' => String c EmptyString :: chars s'
  end.

(** [v == s] for a string [s] *)
Definition eq_str (s : string) (v : json) : bool :=
  match v with
  | JString s' => String.eqb s' s
  | _ => false
  end.

(** the items of a list when every one is a string *)
Fixpoint strings (items : list json) : option (list string) :=
  match items with
  | [] => Some []
  | JString s :: rest =>
      match strings rest with
      | Some l => Some (s :: l)
      | None => None
      end
  | _ :: _ => None
  end.

(** [len(v)]; [None] is the TypeError of a value that has no length *)
Definition len (v : json) : option nat :=
  match v with
  | JString s => Some (String.length s)
  | JArray items => Some (length items)
  | JObject members => Some (length members)
  | JNull => None
  | JBool _ => None
  | JNumber _ _ => None
  end.

(** [v[:n]]; [None] where slicing raises: a [dict] takes no slice *)
Definition slice (n : nat) (v : json) : option json :=
  match v with
  | JString s => Some (JString (PyStr.take n s))
  | JArray items => Some (JArray (firstn n items))
  | _ => None
  end.

(** [needle in v] for a string [needle]: a substring of a string, an item
    of a list, a key of a [dict]; [None] is the TypeError of a value that is
    not iterable *)
Definition contains (needle : string) (v : json) : option bool :=
  match v with
  | JString s => Some (PyStr.str_in needle s)
  | JArray items => Some (existsb (eq_str needle) items)
  | JObject members => Some (existsb (fun member => String.eqb (fst member) needle) members)
  | _ => None
  end.

(** [sep.join(v)]: it joins the characters of a string, the items of a list
    when all are strings, the keys of a [dict]; [None] is its TypeError *)
Definition join (sep : string) (v : json) : option string :=
  match v with
  | JString s => Some (PyStr.join sep (chars s))
  | JArray items =>
      match strings items with
      | Some parts => Some (PyStr.join sep parts)
      | None => None
      end
  | JObject members => Some (PyStr.join sep (map fst members))
  | _ => None
  end.

(** truthiness: [if v:] *)
Definition truthy (v : json) : bool :=
  match v with
  | JNull => false
  | JBool b => b
  | JNumber nonzero _ => nonzero
  | JString s => PyStr.truthy s
  | JArray [] => false
  | JArray (_ :: _) => true
  | JObject [] => false
  | JObject (_ :: _) => true
  end.

(** a list of strings *)
Definition of_strings (l : list string) : json := JArray (map JString l).

End PyJson.

(** [d.get(key)]: [None] for a key that is absent *)
Definition py_get (field : option json) : json :=
  match field with Some v => v | None => JNull end.

(** ** The records that travel through the pipeline *)

(** [status] column of [raw_opportunities] *)
Inductive status :=
| pending_analysis
| processed_relevant
| processed_irrelevant
| processed_ai_error
| processed_expired.

(** A scraped opportunity, and a row of [raw_opportunities]: the dicts with
    keys 'title', 'link', 'source', 'full_text' (rows read back from the
    table also carry 'status'). ['link'] is read with [.get('link')], so a
    missing key and a [None] value are both [None] here. *)
Record Opp := mk_opp {
  opp_title : string;
  opp_link : option string;
  opp_source : string;
  opp_full_text : string;
  opp_status : option status
}.

(** The geo answer of the classifier, [{"eligible": [...], "excluded": [...]}]:
    two lists of strings, as its prompt demands; a key may be absent from the
    decoded object. *)
Record GeoData := mk_geo {
  geo_eligible : option (list string);
  geo_excluded : option (list string)
}.

(** The enrichment answer of the classifier: the decoded object, of which
    the program reads five keys. A key may be absent ([None]), and its value
    is whatever the text holds under it. *)
Record EnrichmentData := mk_enrichment {
  enr_focus_areas : option json;
  enr_summary : option json;
  enr_funding_amount : option json;
  enr_funder : option json;
  enr_deadline : option json
}.

(** [{'link': link, 'status': ...}] *)
Record StatusUpdate := mk_update {
  upd_link : option string;
  upd_status : status
}.

(** [final_record] of [analyze_opportunity]; Python's [None] is [JNull] in
    the fields copied from the enrichment answer *)
Record ProcessedRecord := mk_processed {
  rec_link : option string;
  rec_title : string;
  rec_source : string;
  rec_geographic_scope : string;
  rec_funding_amount : json;
  rec_funder : json;
  rec_deadline : option string;
  rec_raw_deadline_text : json;
  rec_focus_areas : string;
  rec_summary : json
}.

(** A row of [processed_opportunities] as the maintenance queries see it. *)
Record ProcessedRow := mk_row {
  row_link : string;
  row_deadline : option Dates.date;
  row_raw_deadline_text : option string;
  row_processed_at : Dates.datetime
}.

(** A request the program sends through the Supabase client. *)
Inductive db_call :=
| raw_upsert (opportunities : list Opp)
| processed_upsert (opportunity_data : ProcessedRecord)
| rpc_bulk_update_raw_status (status_updates : list StatusUpdate).

(** [d.get(key, default)] *)
Definition get_default {A : Type} (field : option A) (default : A) : A :=
  match field with Some v => v | None => default end.

Module config.
Definition MAX_CONCURRENT_AI_CALLS : Z := 5.
Definition SCRAPER_TEST_LIMIT : Z := 0.
Definition ARTICLE_CUTOFF_MONTHS : Z := 12.
Definition STALE_OPPORTUNITY_MONTHS : Z := 9.
End config.

(** ** ai_analyzer.py *)

Module ai_analyzer.

(** What the program sees of a response text: it is empty, it holds no
    [{...}] span, the span does not decode, or it decodes to an object. *)
Inductive body (A : Type) :=
| EmptyText
| NoJsonObject
| MalformedJson
| JsonObject (data : A).
Arguments EmptyText {A}.
Arguments NoJsonObject {A}.
Arguments MalformedJson {A}.
Arguments JsonObject {A} data.

(** One [ai_model.generate_content(prompt)]: it raises, or returns a text. *)
Inductive attempt (A : Type) :=
| ApiError
| ApiText (text : body A).
Arguments ApiError {A}.
Arguments ApiText {A} text.

(** the [for i in range(retries)] loop, from attempt [i] with [n] tries left *)
Fixpoint retry_loop {A : Type} (generate_content : nat -> attempt A) (i n : nat)
  : option (body A) :=
  match n with
  | O => None
  | S n' =>
      match generate_content i with
      | ApiText text => Some text
      | ApiError => retry_loop generate_content (S i) n'
      end
  end.

Definition retries : nat := 3.

Definition _call_gemini_with_retry {A : Type} (generate_content : nat -> attempt A)
  : option (body A) :=
  retry_loop generate_content 0 retries.

Definition empty_geo : GeoData := mk_geo (Some []) (Some []).

Section Tasks.
(** [ai_model] is not [None] *)
Variable ai_model : bool.
(** the model's behaviour on the two prompts, by title, text snippet and
    attempt number *)
Variable geo_model : string -> string -> nat -> attempt GeoData.
Variable enrichment_model : string -> string -> nat -> attempt EnrichmentData.

Definition get_geographic_scope (title text_content : string) : GeoData :=
  if negb ai_model then empty_geo
  else
    let text_snippet := PyStr.take 3000 text_content in
    match _call_gemini_with_retry (geo_model title text_snippet) with
    | Some (JsonObject data) =>
        match geo_eligible data, geo_excluded data with
        | Some _, Some _ => data
        | _, _ => empty_geo
        end
    | Some MalformedJson => empty_geo
    | Some NoJsonObject => empty_geo
    | Some EmptyText => empty_geo
    | None => empty_geo
    end.

(** [if len(analysis_result.get("focus_areas", [])) > 3:
       analysis_result["focus_areas"] = analysis_result["focus_areas"][:3]];
    the TypeError of [len] or of the slice is not a JSONDecodeError, so the
    [except] of [get_enrichment_data] lets it through *)
Definition trim_focus_areas (analysis_result : EnrichmentData) : outcome EnrichmentData :=
  let focus_areas := get_default (enr_focus_areas analysis_result) (JArray []) in
  match PyJson.len focus_areas with
  | None => Raises
  | Some n =>
      if (3 <? n)%nat
      then match PyJson.slice 3 focus_areas with
           | Some first_three =>
               Returns (mk_enrichment (Some first_three)
                                      (enr_summary analysis_result)
                                      (enr_funding_amount analysis_result)
                                      (enr_funder analysis_result)
                                      (enr_deadline analysis_result))
           | None => Raises
           end
      else Returns analysis_result
  end.

Definition error_enrichment (summary : string) : EnrichmentData :=
  mk_enrichment (Some (JArray [])) (Some (JString summary)) (Some (JString "Error"))
                (Some (JString "Error")) (Some (JString "Error")).

Definition get_enrichment_data (title text_content : string) : outcome EnrichmentData :=
  if negb ai_model
  then Returns (mk_enrichment (Some (JArray [])) (Some (JString "AI is not configured."))
                              (Some (JString "N/A")) (Some (JString "N/A"))
                              (Some (JString "N/A")))
  else
    let text_snippet := PyStr.take 4000 text_content in
    match _call_gemini_with_retry (enrichment_model title text_snippet) with
    | Some (JsonObject analysis_result) => trim_focus_areas analysis_result
    | Some MalformedJson => Returns (error_enrichment "AI returned malformed JSON.")
    | Some NoJsonObject => Returns (error_enrichment "No JSON object in AI response.")
    | Some EmptyText => Returns (error_enrichment "AI call failed after retries.")
    | None => Returns (error_enrichment "AI call failed after retries.")
    end.
End Tasks.

End ai_analyzer.

(** ** database_manager.py *)

Module database_manager.

Section Client.
(** [supabase] is not [None] *)
Variable supabase : bool.

(** the calls [add_raw_opportunities] sends *)
Definition add_raw_opportunities (opportunities : list Opp) : list db_call :=
  if negb supabase then []
  else match opportunities with
       | [] => []
       | _ => [raw_upsert opportunities]
       end.

(** [select('*').eq('status', 'pending_analysis')] on the raw table *)
Definition is_pending (opp : Opp) : bool :=
  match opp_status opp with
  | Some pending_analysis => true
  | _ => false
  end.

Definition get_pending_opportunities (raw_table : list Opp) : list Opp :=
  if negb supabase then [] else filter (fun opp => is_pending opp = true) raw_table.

Definition bulk_update_raw_opportunity_statuses (updates : list StatusUpdate)
  : list db_call :=
  if negb supabase then []
  else match updates with
       | [] => []
       | _ => [rpc_bulk_update_raw_status updates]
       end.

Definition add_processed_opportunity (opportunity_data : ProcessedRecord)
  : list db_call :=
  if negb supabase then [] else [processed_upsert opportunity_data].

(** [.not_.is_('deadline', None).lt('deadline', today_utc)] *)
Definition expired_filter (today_utc : Dates.date) (row : ProcessedRow) : bool :=
  match row_deadline row with
  | Some deadline => Dates.date_ltb deadline today_utc
  | None => false
  end.

Definition stale_keywords : list string := ["Not Specified"; "N/A"].

(** [.is_('deadline', None).in_('raw_deadline_text', stale_keywords)
     .lt('processed_at', cutoff_iso)] *)
Definition stale_filter (cutoff : Dates.datetime) (row : ProcessedRow) : bool :=
  match row_deadline row with
  | None =>
      match row_raw_deadline_text row with
      | Some text =>
          bool_decide (text ∈ stale_keywords) &&
          Dates.datetime_ltb (row_processed_at row) cutoff
      | None => false
      end
  | Some _ => false
  end.

(** [table.delete(count='exact')] with a filter: the rows left and the
    count the response reports *)
Definition delete_where (select : ProcessedRow -> bool) (table : list ProcessedRow)
  : list ProcessedRow * nat :=
  (filter (fun row => select row = false) table,
   length (filter (fun row => select row = true) table)).

(** [now] is [datetime.now(timezone.utc)] *)
Definition delete_expired_opportunities (now : Dates.datetime)
    (table : list ProcessedRow) : list ProcessedRow * nat :=
  if negb supabase then (table, 0%nat)
  else delete_where (expired_filter (Dates.dt_date now)) table.

Definition delete_stale_opportunities (threshold_months : Z) (now : Dates.datetime)
    (table : list ProcessedRow) : list ProcessedRow * nat :=
  if negb supabase then (table, 0%nat)
  else match Dates.datetime_minus_months now threshold_months with
       | Some cutoff_date => delete_where (stale_filter cutoff_date) table
       | None => (table, 0%nat)
       end.
End Client.

End database_manager.

Module db := database_manager.

(** ** utils.py *)

Module utils.

(** the parameters [create_retry_session] declares *)
Definition create_retry_session_params : list string :=
  ["retries"; "backoff_factor"; "status_forcelist"; "session"].

(** A call of [create_retry_session] with the given keyword arguments:
    [None] is the TypeError Python raises for a keyword the function does
    not declare, [Some tt] the session. *)
Definition create_retry_session (kwargs : list string) : option unit :=
  if forallb (fun k => bool_decide (k ∈ create_retry_session_params)) kwargs
  then Some tt else None.

End utils.

(** ** The three scrapers (orchestration only) *)

(** One entry of a listing page: the [href] of its link element ([None] when
    the element, the attribute or the date element is missing) and whether
    its date was read and is not older than the cutoff. *)
Record Post := mk_post { post_href : option string; post_recent : bool }.

(** A site: the entries of the listing pages that were fetched, and for a
    URL the detail page: [None] for a request that failed after its retries,
    otherwise the text of the title element, if any, and the text of the
    content element (EmptyString if none). *)
Record Site := mk_site {
  site_posts : list Post;
  site_page : string -> option (option string * string)
}.

Record Web := mk_web {
  gso_site : Site;
  ofy_nonce : option string;
  ofy_site : Site;
  od_site : Site
}.

Module scraper_common.

(** the listing loop of [get_opportunity_links]/[get_all_ofy_links] *)
Definition get_opportunity_links (site : Site) : list string :=
  flat_map (fun post =>
    match post_href post with
    | Some link => if PyStr.truthy link && post_recent post then [link] else []
    | None => []
    end) (site_posts site).

(** [[link for link in all_recent_links if link not in existing_links]] *)
Definition new_links (all_recent_links : list string) (existing_links : gset string)
  : list string :=
  filter (fun link => link ∉ existing_links) all_recent_links.

Definition apply_test_limit (links_to_scrape : list string) : list string :=
  if 0 <? config.SCRAPER_TEST_LIMIT
  then firstn (Nat.min (length links_to_scrape) (Z.to_nat config.SCRAPER_TEST_LIMIT))
              links_to_scrape
  else links_to_scrape.

(** the [for i, link in enumerate(links_to_scrape)] loop *)
Definition scrape_each (scrape_opportunity_details : string -> option Opp)
    (links_to_scrape : list string) : list Opp :=
  flat_map (fun link =>
    match scrape_opportunity_details link with
    | Some details => [details]
    | None => []
    end) links_to_scrape.

Definition orchestrate (all_recent_links : list string)
    (scrape_opportunity_details : string -> option Opp)
    (existing_links : gset string) : list Opp :=
  scrape_each scrape_opportunity_details
    (apply_test_limit (new_links all_recent_links existing_links)).

(** [scrape_opportunity_details] of gso_scraper.py and ofy_scraper.py *)
Definition details_or_skip (source : string) (site : Site) (url : string) : option Opp :=
  match site_page site url with
  | None => None
  | Some (title_element, full_text) =>
      let title := get_default title_element "Title not found" in
      if String.eqb title "Title not found" then None
      else Some (mk_opp title (Some url) source full_text None)
  end.

End scraper_common.

Module gso_scraper.
Definition scrape_opportunity_details :=
  scraper_common.details_or_skip "Global South Opportunities".

Definition scrape_gso (web : Web) (existing_links : gset string) : option (list Opp) :=
  match utils.create_retry_session [] with
  | None => None
  | Some _ =>
      Some (scraper_common.orchestrate
              (scraper_common.get_opportunity_links (gso_site web))
              (scrape_opportunity_details (gso_site web)) existing_links)
  end.
End gso_scraper.

Module ofy_scraper.
Definition scrape_opportunity_details :=
  scraper_common.details_or_skip "Opportunities For Youth".

Definition scrape_ofy (web : Web) (existing_links : gset string) : option (list Opp) :=
  match utils.create_retry_session [] with
  | None => None
  | Some _ =>
      match ofy_nonce web with
      | None => Some []
      | Some fresh_nonce =>
          if negb (PyStr.truthy fresh_nonce) then Some []
          else
            Some (scraper_common.orchestrate
                    (scraper_common.get_opportunity_links (ofy_site web))
                    (scrape_opportunity_details (ofy_site web)) existing_links)
      end
  end.
End ofy_scraper.

Module od_scraper.
Section Slug.
(** the title built from the last path segment of the URL; [None] when
    building it raises *)
Variable title_from_slug : string -> option string.

Definition scrape_opportunity_details (site : Site) (url : string) : option Opp :=
  match site_page site url with
  | None => None
  | Some (title_element, full_text) =>
      let title :=
        match title_element with
        | Some t => t
        | None => get_default (title_from_slug url) "Title Generation Failed"
        end in
      Some (mk_opp title (Some url) "Opportunity Desk" full_text None)
  end.

Definition scrape_od (web : Web) (existing_links : gset string) : option (list Opp) :=
  match utils.create_retry_session ["use_proxy"] with
  | None => None
  | Some _ =>
      Some (scraper_common.orchestrate
              (scraper_common.get_opportunity_links (od_site web))
              (scrape_opportunity_details (od_site web)) existing_links)
  end.
End Slug.
End od_scraper.

(** ** main.py *)

Module main.

(** the reason [is_relevant_for_ethiopia] returns with its verdict; the
    lists are the ones the message prints *)
Inductive reason :=
| ExplicitlyExcludes
| ExplicitlyIncludes
| SpecificCountryList (specific_countries_found : list string)
| GeneralScope (acceptable_general_scopes : list string)
| NoRelevantScope (eligible : list string).

Definition general_scopes : gset string :=
  {[ "east africa"; "horn of africa"; "africa"; "sub-saharan africa";
     "global"; "international"; "developing countries" ]}.

(** [str(g).lower().strip()] *)
Definition normalize (g : string) : string := PyStr.strip (PyStr.lower g).

Definition is_relevant_for_ethiopia (geo_data : GeoData) : bool * reason :=
  let eligible := map normalize (get_default (geo_eligible geo_data) []) in
  let excluded := map normalize (get_default (geo_excluded geo_data) []) in
  if bool_decide ("ethiopia" ∈ excluded) then (false, ExplicitlyExcludes)
  else if bool_decide ("ethiopia" ∈ eligible) then (true, ExplicitlyIncludes)
  else
    let specific_countries_found := filter (fun loc => loc ∉ general_scopes) eligible in
    match specific_countries_found with
    | _ :: _ => (false, SpecificCountryList specific_countries_found)
    | [] =>
        let acceptable_general_scopes := filter (fun scope => scope ∈ general_scopes) eligible in
        match acceptable_general_scopes with
        | _ :: _ => (true, GeneralScope acceptable_general_scopes)
        | [] => (false, NoRelevantScope eligible)
        end
    end.

Definition non_date_keywords : list string :=
  ["rolling"; "ongoing"; "specified"; "quarterly"; "n/a"].

(** What [dateutil.parser.parse] does with a string: it reads a date; it
    raises a ValueError (its ParserError is one) or a TypeError, which
    [validate_and_clean_deadline] catches; or it raises another exception,
    as the OverflowError of a number too large for the C library, which
    nothing catches before the run. *)
Inductive parse_result :=
| Parsed (parsed_date : Dates.date)
| Rejected
| Escapes.

(** What one call of [analyze_opportunity] does: it returns the pair
    [(is_relevant, status_update)], or it raises. *)
Inductive analysis :=
| Returned (is_relevant : option bool) (status_update : option StatusUpdate)
| Raised.

(** the loop variables of [run_processor_stage] *)
Record processor_state := mk_state {
  processed_count : nat;
  relevant_count : nat;
  status_updates_to_commit : list StatusUpdate
}.

Section Pipeline.
Variable supabase : bool.
Variable ai_model : bool.
Variable geo_model : string -> string -> nat -> ai_analyzer.attempt GeoData.
Variable enrichment_model : string -> string -> nat -> ai_analyzer.attempt EnrichmentData.
(** [dateutil.parser.parse] *)
Variable parse_date : string -> parse_result.
(** [date.today()] *)
Variable today : Dates.date.
(** [concurrent.futures.as_completed]: the futures in the order they finish *)
Variable as_completed : forall A : Type, list A -> list A.
Variable title_from_slug : string -> option string.

(** the argument is the value [.get('deadline')] gave: a string passes the
    [isinstance] test, every other value returns [None] *)
Definition validate_and_clean_deadline (deadline_str : json) : outcome (option string) :=
  match deadline_str with
  | JString deadline_str =>
      if negb (PyStr.truthy deadline_str) then Returns None
      else if existsb (fun keyword => PyStr.str_in keyword (PyStr.lower deadline_str))
                      non_date_keywords
      then Returns None
      else match parse_date deadline_str with
           | Parsed parsed_date => Returns (Some (Dates.strftime_ymd parsed_date))
           | Rejected => Returns None
           | Escapes => Raises
           end
  | _ => Returns None
  end.

(** the locals [geo_data] and [enrichment_data] of [analyze_opportunity] *)
Definition geo_data_of (opportunity : Opp) : GeoData :=
  ai_analyzer.get_geographic_scope ai_model geo_model
    (opp_title opportunity) (opp_full_text opportunity).

Definition enrichment_data_of (opportunity : Opp) : outcome EnrichmentData :=
  ai_analyzer.get_enrichment_data ai_model enrichment_model
    (opp_title opportunity) (opp_full_text opportunity).

(** [if "AI call failed" in summary]; [None] is the TypeError of a summary
    that is not iterable *)
Definition failed_temporarily (enrichment_data : EnrichmentData) : option bool :=
  let summary := get_default (enr_summary enrichment_data) (JString EmptyString) in
  PyJson.contains "AI call failed" summary.

(** [elif funding == "Error" or "malformed JSON" in summary
         or "No JSON object" in summary], with the short cut of [or] *)
Definition failed_permanently (enrichment_data : EnrichmentData) : option bool :=
  let summary := get_default (enr_summary enrichment_data) (JString EmptyString) in
  let funding := get_default (enr_funding_amount enrichment_data) (JString EmptyString) in
  if PyJson.eq_str "Error" funding then Some true
  else match PyJson.contains "malformed JSON" summary with
       | Some true => Some true
       | Some false => PyJson.contains "No JSON object" summary
       | None => None
       end.

(** the [final_record] literal; [None] is the TypeError of the [join] over
    focus areas that are not all strings *)
Definition final_record_of (opportunity : Opp) (geo_data : GeoData)
    (enrichment_data : EnrichmentData) (parsed_deadline_str : option string)
  : option ProcessedRecord :=
  match PyJson.join ", " (get_default (enr_focus_areas enrichment_data) (JArray [])) with
  | Some focus_areas =>
      Some (mk_processed (opp_link opportunity) (opp_title opportunity)
              (opp_source opportunity)
              (PyStr.join ", " (get_default (geo_eligible geo_data) []))
              (py_get (enr_funding_amount enrichment_data))
              (py_get (enr_funder enrichment_data))
              parsed_deadline_str
              (py_get (enr_deadline enrichment_data))
              focus_areas
              (py_get (enr_summary enrichment_data)))
  | None => None
  end.

(** the worker: its outcome and the calls it sends to the store. It raises
    where [get_enrichment_data] does, where [in] meets a summary that is not
    iterable, where the date parser raises what the normalization does not
    catch, where [strptime] refuses what [strftime] wrote, and where the
    focus areas do not join; all of that before the one call to the store. *)
Definition analyze_opportunity (opportunity : Opp) : analysis * list db_call :=
  let link := opp_link opportunity in
  let geo_data := geo_data_of opportunity in
  let '(is_relevant, _) := is_relevant_for_ethiopia geo_data in
  if negb is_relevant
  then (Returned (Some false) (Some (mk_update link processed_irrelevant)), [])
  else
    match enrichment_data_of opportunity with
    | Raises => (Raised, [])
    | Returns enrichment_data =>
        match failed_temporarily enrichment_data with
        | None => (Raised, [])
        | Some true => (Returned None None, [])
        | Some false =>
            match failed_permanently enrichment_data with
            | None => (Raised, [])
            | Some true =>
                (Returned (Some false) (Some (mk_update link processed_ai_error)), [])
            | Some false =>
                let raw_deadline_text := py_get (enr_deadline enrichment_data) in
                match validate_and_clean_deadline raw_deadline_text with
                | Raises => (Raised, [])
                | Returns parsed_deadline_str =>
                    let accept :=
                      match final_record_of opportunity geo_data enrichment_data
                              parsed_deadline_str with
                      | Some final_record =>
                          (Returned (Some true) (Some (mk_update link processed_relevant)),
                           db.add_processed_opportunity supabase final_record)
                      | None => (Raised, [])
                      end in
                    match parsed_deadline_str with
                    | Some str =>
                        if PyStr.truthy str then
                          match Dates.strptime_ymd str with
                          | Some deadline_date =>
                              if Dates.date_ltb deadline_date today
                              then (Returned (Some false)
                                      (Some (mk_update link processed_expired)), [])
                              else accept
                          | None => (Raised, [])
                          end
                        else accept
                    | None => accept
                    end
                end
            end
        end
    end.

(** the body of [for future in as_completed(future_to_opp)] *)
Definition processor_step (st : processor_state) (result : analysis) : processor_state :=
  let processed_count := S (processed_count st) in
  match result with
  | Returned is_relevant status_update =>
      mk_state processed_count
        (match is_relevant with
         | Some true => S (relevant_count st)
         | _ => relevant_count st
         end)
        (match status_update with
         | Some upd => (status_updates_to_commit st ++ [upd])%list
         | None => status_updates_to_commit st
         end)
  | Raised => mk_state processed_count (relevant_count st) (status_updates_to_commit st)
  end.

(** the state when the pool has shut down, and every call sent *)
Definition run_processor_stage (raw_table : list Opp) : processor_state * list db_call :=
  let opportunities_to_process := db.get_pending_opportunities supabase raw_table in
  match opportunities_to_process with
  | [] => (mk_state 0 0 [], [])
  | _ =>
      let futures := as_completed _ (map analyze_opportunity opportunities_to_process) in
      let st := fold_left processor_step (map fst futures) (mk_state 0 0 []) in
      (st,
       (concat (map snd futures) ++
        db.bulk_update_raw_opportunity_statuses supabase (status_updates_to_commit st))%list)
  end.

(** the de-duplication loop of [run_collector_stage] *)
Fixpoint dedup_loop (all_new_raw_opportunities : list Opp)
    (unique_opportunities : list Opp) (seen_links : gset string)
  : list Opp * gset string :=
  match all_new_raw_opportunities with
  | [] => (unique_opportunities, seen_links)
  | opp :: rest =>
      match opp_link opp with
      | Some link =>
          if PyStr.truthy link && bool_decide (link ∉ seen_links)
          then dedup_loop rest (unique_opportunities ++ [opp])%list ({[ link ]} ∪ seen_links)
          else dedup_loop rest unique_opportunities seen_links
      | None => dedup_loop rest unique_opportunities seen_links
      end
  end.

Definition scraper_functions : list (Web -> gset string -> option (list Opp)) :=
  [gso_scraper.scrape_gso; ofy_scraper.scrape_ofy; od_scraper.scrape_od title_from_slug].

(** the [for future in as_completed(future_to_scraper)] loop: a scraper
    that raised ([None]) is logged and adds nothing *)
Definition gather (results : list (option (list Opp))) : list Opp :=
  fold_left (fun all_new_raw_opportunities result =>
               match result with
               | Some [] => all_new_raw_opportunities
               | Some result => (all_new_raw_opportunities ++ result)%list
               | None => all_new_raw_opportunities
               end) results [].

Definition reconcile (results : list (option (list Opp))) : list Opp :=
  fst (dedup_loop (gather results) [] ∅).

(** the part of [run_collector_stage] after the pool: de-duplicate, then
    save unless nothing is left *)
Definition reconcile_and_save (results : list (option (list Opp))) : list db_call :=
  let unique_opportunities := reconcile results in
  match unique_opportunities with
  | [] => []
  | _ => db.add_raw_opportunities supabase unique_opportunities
  end.

(** the results of the three scrapers, in the order they were submitted *)
Definition scraper_results (web : Web) (existing_links : gset string)
  : list (option (list Opp)) :=
  map (fun f => f web existing_links) scraper_functions.

(** [existing_links] is the answer of [db.get_all_scraped_links()] *)
Definition run_collector_stage (web : Web) (existing_links : gset string) : list db_call :=
  reconcile_and_save (as_completed _ (scraper_results web existing_links)).

(** the table after the two passes and the two counts; each pass reads
    the clock itself *)
Definition run_maintenance_stage (now_expired now_stale : Dates.datetime)
    (table : list ProcessedRow) : list ProcessedRow * (nat * nat) :=
  let '(table1, expired) := db.delete_expired_opportunities supabase now_expired table in
  let '(table2, stale) :=
    db.delete_stale_opportunities supabase config.STALE_OPPORTUNITY_MONTHS now_stale table1 in
  (table2, (expired, stale)).
End Pipeline.

End main.

(** ** Reading outcomes and traces *)

#[global] Instance status_eq_dec : EqDecision status.
Proof. solve_decision. Defined.

Definition status_update_of (a : main.analysis) : option StatusUpdate :=
  match a with
  | main.Returned _ status_update => status_update
  | main.Raised => None
  end.

(** an accepted item: its terminal verdict is [processed_relevant] *)
Definition accepted (a : main.analysis) : bool :=
  match status_update_of a with
  | Some upd => bool_decide (upd_status upd = processed_relevant)
  | None => false
  end.

(** a rejected item: any other terminal verdict *)
Definition rejected (a : main.analysis) : bool :=
  match status_update_of a with
  | Some upd => negb (bool_decide (upd_status upd = processed_relevant))
  | None => false
  end.

(** a retry-later item: the run gets no status update for it *)
Definition retry_later (a : main.analysis) : bool :=
  match status_update_of a with
  | Some _ => false
  | None => true
  end.

(** the bulk call for a batch, as the trace shows it: absent for an empty batch *)
Definition bulk_call_for (updates : list StatusUpdate) : list db_call :=
  match updates with
  | [] => []
  | _ => [rpc_bulk_update_raw_status updates]
  end.

(** [opp] carries the link [link] *)
Definition has_link (link : string) (opp : Opp) : bool :=
  bool_decide (opp_link opp = Some link).

(** An enrichment that succeeded, in the words of the specification: its
    summary is a text that carries none of the three failure tokens, and its
    funding amount is not "Error". *)
Definition enrichment_succeeded (data : EnrichmentData) : Prop :=
  exists summary,
    get_default (enr_summary data) (JString EmptyString) = JString summary /\
    PyStr.str_in "AI call failed" summary = false /\
    PyStr.str_in "malformed JSON" summary = false /\
    PyStr.str_in "No JSON object" summary = false /\
    enr_funding_amount data <> Some (JString "Error").

(** ** A small world to run the pipeline on *)

(** a classifier that is down for the item titled "geo-down", names Kenya
    for "kenya" and Ethiopia for every other item *)
Definition sample_geo_model (title text_snippet : string) (attempt : nat)
  : ai_analyzer.attempt GeoData :=
  if String.eqb title "geo-down" then ai_analyzer.ApiError
  else if String.eqb title "kenya"
  then ai_analyzer.ApiText (ai_analyzer.JsonObject (mk_geo (Some ["Kenya"]) (Some [])))
  else ai_analyzer.ApiText
         (ai_analyzer.JsonObject (mk_geo (Some ["East Africa"; " Ethiopia "]) (Some ["Somalia"]))).

(** an answer with all five keys, of the types the prompt asks for *)
Definition sample_answer (focus_areas : list string)
    (summary funding_amount funder deadline : string) : EnrichmentData :=
  mk_enrichment (Some (PyJson.of_strings focus_areas)) (Some (JString summary))
                (Some (JString funding_amount)) (Some (JString funder))
                (Some (JString deadline)).

(** an enrichment that is down for "enr-down", answers a past deadline for
    "old", a deadline in the year 199 for "ancient", a deadline of twenty
    digits for "overflow", null focus areas for "null-areas", a null summary
    for "null-summary", text without JSON for "bad" and a rolling deadline
    otherwise *)
Definition sample_enrichment_model (title text_snippet : string) (attempt : nat)
  : ai_analyzer.attempt EnrichmentData :=
  if String.eqb title "enr-down" then ai_analyzer.ApiError
  else if String.eqb title "old"
  then ai_analyzer.ApiText (ai_analyzer.JsonObject
         (sample_answer ["Health"] "A health grant." "$10,000" "USAID" "2024-01-01"))
  else if String.eqb title "ancient"
  then ai_analyzer.ApiText (ai_analyzer.JsonObject
         (sample_answer ["Health"] "A health grant." "$10,000" "USAID" "0199-01-01"))
  else if String.eqb title "overflow"
  then ai_analyzer.ApiText (ai_analyzer.JsonObject
         (sample_answer ["Health"] "A health grant." "$10,000" "USAID"
                        "99999999999999999999"))
  else if String.eqb title "null-areas"
  then ai_analyzer.ApiText (ai_analyzer.JsonObject
         (mk_enrichment (Some JNull) (Some (JString "A fund.")) (Some (JString "$5"))
                        (Some (JString "USAID")) (Some (JString "Rolling"))))
  else if String.eqb title "null-summary"
  then ai_analyzer.ApiText (ai_analyzer.JsonObject
         (mk_enrichment (Some (PyJson.of_strings ["Health"])) (Some JNull)
                        (Some (JString "$5")) (Some (JString "USAID"))
                        (Some (JString "Rolling"))))
  else if String.eqb title "bad" then ai_analyzer.ApiText ai_analyzer.NoJsonObject
  else ai_analyzer.ApiText (ai_analyzer.JsonObject
         (sample_answer ["Health"; "Education"; "Research"; "Youth Empowerment"]
                        "A rolling fund." "Not Specified" "Ford Foundation" "Rolling")).

(** a parser that reads ISO dates only, and overflows on a number of twenty
    digits *)
Definition sample_parse_date (s : string) : main.parse_result :=
  if String.eqb s "99999999999999999999" then main.Escapes
  else match Dates.strptime_ymd s with
       | Some d => main.Parsed d
       | None => main.Rejected
       end.

Definition sample_today : Dates.date := Dates.mk_date 2025 1 1.

Definition sample_opp (title : string) : Opp :=
  mk_opp title (Some ("https://example.org/" ++ title)) "Opportunity Desk"
         "Grants for organisations." (Some pending_analysis).

Definition sample_raw_table : list Opp :=
  [sample_opp "geo-down"; sample_opp "old"; sample_opp "good";
   mk_opp "done" (Some "https://example.org/done") "Opportunity Desk" "Text."
          (Some processed_relevant);
   sample_opp "kenya"].

(** futures finish in the reverse of the order they were submitted *)
Definition sample_as_completed (A : Type) (futures : list A) : list A := rev futures.

Definition sample_gso : Site :=
  mk_site [mk_post (Some "https://a.org/1") true; mk_post (Some "https://a.org/2") true;
           mk_post (Some EmptyString) true; mk_post None true;
           mk_post (Some "https://a.org/old") false; mk_post (Some "https://a.org/known") true]
          (fun url => if String.eqb url "https://a.org/2" then None
                      else Some (Some "A call", "Body of the call.")).

Definition sample_ofy : Site :=
  mk_site [mk_post (Some "https://a.org/1") true; mk_post (Some "https://b.org/7") true]
          (fun url => Some (Some "Cross-posted call", "Body.")).

Definition sample_web : Web := mk_web sample_gso (Some "nonce") sample_ofy sample_ofy.

Definition sample_existing_links : gset string := {[ "https://a.org/known" ]}.

Definition sample_title_from_slug (url : string) : option string := None.

(** scraper outputs with candidates whose link is missing or empty *)
Definition sample_results : list (option (list Opp)) :=
  [Some [mk_opp "No link" None "Opportunity Desk" "Text." None;
         mk_opp "Empty link" (Some EmptyString) "Opportunity Desk" "Text." None;
         mk_opp "First" (Some "https://c.org/1") "Opportunity Desk" "Text." None];
   None;
   Some [];
   Some [mk_opp "Second" (Some "https://c.org/1") "Opportunities For Youth" "Text." None]].

Definition sample_now : Dates.datetime := Dates.mk_datetime (Dates.mk_date 2025 6 15) 1000.

Definition sample_processed_table : list ProcessedRow :=
  [mk_row "https://a.org/1" (Some (Dates.mk_date 2025 6 14)) (Some "2025-06-14")
          (Dates.mk_datetime (Dates.mk_date 2025 1 1) 0);
   mk_row "https://a.org/2" (Some (Dates.mk_date 2025 6 15)) (Some "2025-06-15")
          (Dates.mk_datetime (Dates.mk_date 2025 1 1) 0);
   mk_row "https://a.org/3" None (Some "Not Specified")
          (Dates.mk_datetime (Dates.mk_date 2024 9 15) 999);
   mk_row "https://a.org/4" None (Some "Not Specified")
          (Dates.mk_datetime (Dates.mk_date 2024 9 15) 1000);
   mk_row "https://a.org/5" None (Some "Rolling")
          (Dates.mk_datetime (Dates.mk_date 2020 9 15) 1000)].

(** ** ai_analyzer.py: the retry loop with its waits *)

Module backoff.

(** What the [except] branch of [_call_gemini_with_retry] tells apart: a
    rate-limit error ("429" or "RESOURCE_EXHAUSTED" in its text), with the
    seconds of a [retry_delay] the server may suggest, and any other error. *)
Inductive failure :=
| RateLimited (retry_delay : option N)
| OtherError.

(** One pass through the [try] block: [generate_content] raises; or it
    returns and, after the one-second sleep, reading [response.text] raises;
    or the text is returned. *)
Inductive attempt (A : Type) :=
| Fails (e : failure)
| Unreadable (e : failure)
| Answers (text : ai_analyzer.body A).
Arguments Fails {A} e.
Arguments Unreadable {A} e.
Arguments Answers {A} text.

Definition base_delay : Z := 5.

(** the [except] branch: the seconds it sleeps and the delay it leaves *)
Definition handle (e : failure) (delay : Z) : Z * Z :=
  match e with
  | RateLimited (Some seconds) => (Z.of_N seconds + 1, delay)
  | RateLimited None => (delay, delay * 2)
  | OtherError => (delay, delay)
  end.

(** the loop from attempt [i] with [n] tries left and the current [delay]:
    the result and the seconds handed to [time.sleep], in order *)
Fixpoint retry_loop {A : Type} (generate_content : nat -> attempt A) (i n : nat) (delay : Z)
  : option (ai_analyzer.body A) * list Z :=
  match n with
  | O => (None, [])
  | S n' =>
      match generate_content i with
      | Answers text => (Some text, [1])
      | Fails e =>
          let '(wait, delay') := handle e delay in
          let '(result, sleeps) := retry_loop generate_content (S i) n' delay' in
          (result, wait :: sleeps)
      | Unreadable e =>
          let '(wait, delay') := handle e delay in
          let '(result, sleeps) := retry_loop generate_content (S i) n' delay' in
          (result, 1 :: wait :: sleeps)
      end
  end.

Definition _call_gemini_with_retry {A : Type} (generate_content : nat -> attempt A)
  : option (ai_analyzer.body A) * list Z :=
  retry_loop generate_content 0 ai_analyzer.retries base_delay.

(** the same attempt without its sleeps and the kind of its error *)
Definition forget {A : Type} (a : attempt A) : ai_analyzer.attempt A :=
  match a with
  | Fails _ => ai_analyzer.ApiError
  | Unreadable _ => ai_analyzer.ApiError
  | Answers text => ai_analyzer.ApiText text
  end.

(** [sum(sleeps)] *)
Definition total (sleeps : list Z) : Z := fold_right Z.add 0 sleeps.

End backoff.

(** ** database_manager.py: the scan of all links *)

Module link_scan.

Definition page_size : nat := 1000.

(** [select('link').range(first, last)]: the links of the rows [first] to
    [last], both included *)
Definition select_range (links : list string) (first last : nat) : list string :=
  firstn (last + 1 - first) (skipn first links).

Section Scan.
Variable supabase : bool.
(** the number of the page request that raises, if one does *)
Variable failing_page : option nat.

(** the [while True] loop from [page] on, with [fuel] requests allowed;
    [None] when the fuel ran out before the loop ended *)
Fixpoint scan (fuel page : nat) (links : list string) (all_links : gset string)
  : option (gset string) :=
  match fuel with
  | O => None
  | S fuel' =>
      if bool_decide (failing_page = Some page) then Some all_links
      else
        let data := select_range links (page * page_size) ((page + 1) * page_size - 1) in
        match data with
        | [] => Some all_links
        | _ => scan fuel' (S page) links (list_to_set data ∪ all_links)
        end
  end.

(** [links] is the [link] column of [raw_opportunities], in the order the
    store pages it *)
Definition get_all_scraped_links (fuel : nat) (links : list string) : option (gset string) :=
  if negb supabase then Some ∅ else scan fuel 0 links ∅.
End Scan.

End link_scan.

(** ** fix_focus_areas_format.py and fix_existing_focus_areas.py *)

(** the [focus_areas] column: null, an array, or a text *)
Inductive focus_value :=
| FocusNull
| FocusList (areas : list string)
| FocusText (text : string).

(** a row of [processed_opportunities] as the two scripts see it; a summary
    that is null in the table is [None] *)
Record FocusRow := mk_focus_row {
  fr_link : string;
  fr_title : string;
  fr_summary : option string;
  fr_focus_areas : focus_value
}.

(** [table.update({'focus_areas': value}).eq('link', link)] *)
Definition update_focus_areas (link : string) (value : focus_value) (table : list FocusRow)
  : list FocusRow :=
  map (fun row => if String.eqb (fr_link row) link
                  then mk_focus_row (fr_link row) (fr_title row) (fr_summary row) value
                  else row) table.


Module fix_focus_areas_format.



End fix_focus_areas_format.

Module fix_existing_focus_areas.

Section Script.
Variable ai_model : bool.
Variable enrichment_model : string -> string -> nat -> ai_analyzer.attempt EnrichmentData.

(** the loop over the rows read at the start, and the updates it sends:
    for each the link and the value written to [focus_areas]. It ends early,
    in the [except] around it, at a row whose summary is null once the model
    is configured, where slicing the text raises, and at a row for which
    [get_enrichment_data] raises. *)
Fixpoint loop (opportunities : list FocusRow) (updates : list (string * json))
  : list (string * json) :=
  match opportunities with
  | [] => updates
  | opp :: rest =>
      match (if ai_model then fr_summary opp else Some EmptyString) with
      | None => updates
      | Some _ =>
          match ai_analyzer.get_enrichment_data ai_model enrichment_model (fr_title opp)
                  (get_default (fr_summary opp) EmptyString) with
          | Raises => updates
          | Returns enrichment =>
              let new_focus_areas :=
                get_default (enr_focus_areas enrichment) (JArray []) in
              if PyJson.truthy new_focus_areas
              then loop rest (updates ++ [(fr_link opp, new_focus_areas)])%list
              else loop rest updates
          end
      end
  end.

Definition fix_existing_focus_areas (supabase : bool) (table : list FocusRow)
  : list (string * json) :=
  if negb supabase then [] else loop table [].
End Script.

End fix_existing_focus_areas.

(** ** More of the small world *)

(** a model that is rate-limited, then returns an unreadable response, and
    then answers *)
Definition sample_limited_model (k : nat) : backoff.attempt GeoData :=
  match k with
  | O => backoff.Fails (backoff.RateLimited None)
  | S O => backoff.Unreadable backoff.OtherError
  | _ => backoff.Answers (ai_analyzer.JsonObject (mk_geo (Some ["Global"]) (Some [])))
  end.

Definition sample_focus_table : list FocusRow :=
  [mk_focus_row "https://a.org/1" "old" (Some "A health grant.")
                (FocusList ["Health"; "Education"]);
   mk_focus_row "https://a.org/2" "good" (Some "A rolling fund.") (FocusText "Research");
   mk_focus_row "https://a.org/3" "bad" (Some "No answer.") (FocusList []);
   mk_focus_row "https://a.org/4" "good" (Some "Another fund.") FocusNull].

(** * Properties *)

(** ** Strings *)

Lemma lower_char_space (c : ascii) : PyStr.is_space (PyStr.lower_char c) = PyStr.is_space c.
Proof. destruct c as [[] [] [] [] [] [] [] []]; reflexivity. Qed.

Lemma lower_empty (s : string) : PyStr.lower s = EmptyString <-> s = EmptyString.
Proof. destruct s; simpl; split; intros H; congruence. Qed.

Lemma lower_lstrip (s : string) : PyStr.lstrip (PyStr.lower s) = PyStr.lower (PyStr.lstrip s).
Proof.
  induction s as [|c s IH]; simpl; [reflexivity|].
  rewrite lower_char_space. destruct (PyStr.is_space c); [exact IH | reflexivity].
Qed.

Lemma lower_rstrip (s : string) : PyStr.rstrip (PyStr.lower s) = PyStr.lower (PyStr.rstrip s).
Proof.
  induction s as [|c s IH]; simpl; [reflexivity|].
  rewrite IH, lower_char_space.
  destruct (PyStr.rstrip s) as [|c' r]; simpl; [|reflexivity].
  destruct (PyStr.is_space c); reflexivity.
Qed.

(** Lowering and stripping commute, so "lowercase, then trim" in the code is
    "trim, then compare without case". *)
Lemma lower_strip (s : string) : PyStr.strip (PyStr.lower s) = PyStr.lower (PyStr.strip s).
Proof. unfold PyStr.strip. now rewrite lower_lstrip, lower_rstrip. Qed.

Lemma lower_app (a b : string) : PyStr.lower (a ++ b) = PyStr.lower a ++ PyStr.lower b.
Proof. induction a as [|c a IH]; simpl; [reflexivity | now rewrite IH]. Qed.

Lemma lower_app_inv (s a b : string) :
  PyStr.lower s = a ++ b ->
  exists a' b', s = a' ++ b' /\ PyStr.lower a' = a /\ PyStr.lower b' = b.
Proof.
  revert s. induction a as [|c a IH]; intros s H; simpl in H.
  - exists EmptyString, s. auto.
  - destruct s as [|c' s]; simpl in H; [discriminate|].
    injection H as Hc Hs. destruct (IH _ Hs) as (a' & b' & -> & Ha & Hb).
    exists (String c' a'), b'. simpl. now rewrite Hc, Ha.
Qed.

Lemma append_cons (c : ascii) (a b : string) : String c a ++ b = String c (a ++ b).
Proof. reflexivity. Qed.

Lemma append_empty (b : string) : EmptyString ++ b = b.
Proof. reflexivity. Qed.

Lemma startswith_spec (p s : string) :
  PyStr.startswith p s = true <-> exists post, s = p ++ post.
Proof.
  revert s. induction p as [|a p IH]; intros s; simpl.
  - split; [intros _; now exists s | reflexivity].
  - destruct s as [|b s].
    + split; [discriminate | intros [post H]; rewrite append_cons in H; discriminate].
    + destruct (Ascii.eqb_spec a b) as [->|Hne].
      * rewrite IH. split; intros [post H]; exists post.
        -- rewrite append_cons. now f_equal.
        -- rewrite append_cons in H. now injection H.
      * split; [discriminate | intros [post H]; rewrite append_cons in H; injection H as Hb _; congruence].
Qed.

(** [needle in hay] holds exactly when [hay] is [pre ++ needle ++ post]. *)
Lemma str_in_spec (needle hay : string) :
  PyStr.str_in needle hay = true <-> exists pre post, hay = pre ++ needle ++ post.
Proof.
  induction hay as [|c hay IH].
  - simpl. rewrite orb_false_r, startswith_spec. split.
    + intros [post H]. now exists EmptyString, post.
    + intros (pre & post & H). destruct pre; [now exists post | rewrite append_cons in H; discriminate].
  - simpl. rewrite orb_true_iff, startswith_spec, IH. split.
    + intros [[post H] | (pre & post & H)].
      * now exists EmptyString, post.
      * exists (String c pre), post. rewrite append_cons. now f_equal.
    + intros (pre & post & H). destruct pre as [|c' pre].
      * left. now exists post.
      * right. rewrite append_cons in H. injection H as _ H. now exists pre, post.
Qed.

(** ** Dates *)

Lemma digit_val_digit (n : Z) : Dates.digit_val (Dates.digit n) = Some (n mod 10).
Proof.
  unfold Dates.digit_val, Dates.digit.
  assert (H : 0 <= n mod 10 < 10) by (apply Z.mod_pos_bound; lia).
  rewrite N_ascii_embedding by lia.
  rewrite Z2N.id by lia.
  replace ((48 <=? 48 + n mod 10) && (48 + n mod 10 <=? 57)) with true
    by (symmetry; apply andb_true_iff; split; apply Z.leb_le; lia).
  f_equal. lia.
Qed.

Lemma valid_date_bounds (d : Dates.date) :
  Dates.valid_date d = true ->
  1 <= Dates.year d <= 9999 /\ 1 <= Dates.month d <= 12 /\ 1 <= Dates.day d <= 31.
Proof.
  unfold Dates.valid_date, Dates.days_in_month. intros H.
  repeat (apply andb_true_iff in H; destruct H as [H ?]).
  repeat match goal with
         | H : (_ <=? _) = true |- _ => apply Z.leb_le in H
         end.
  repeat split; try lia.
  repeat match goal with
         | H : context [if ?b then _ else _] |- _ => destruct b
         end; lia.
Qed.

(** From the year 1000 on, reading back what [strftime] wrote gives the
    date again. *)
Lemma strptime_strftime (d : Dates.date) :
  Dates.valid_date d = true -> 1000 <= Dates.year d ->
  Dates.strptime_ymd (Dates.strftime_ymd d) = Some d.
Proof.
  intros Hv Hlate. destruct (valid_date_bounds d Hv) as (Hy & Hm & Hd).
  destruct d as [y m dd]. simpl in Hy, Hm, Hd, Hlate.
  unfold Dates.strftime_ymd, Dates.year_digits. simpl Dates.year. simpl Dates.month.
  simpl Dates.day.
  rewrite !(proj2 (Z.ltb_ge _ _)) by lia.
  unfold Dates.pad4, Dates.pad2. repeat (rewrite ?append_cons, ?append_empty).
  unfold Dates.strptime_ymd. rewrite !digit_val_digit.
  replace (y / 1000) with (y / 10 / 10 / 10) by (rewrite !Z.div_div by lia; reflexivity).
  replace (y / 100) with (y / 10 / 10) by (rewrite !Z.div_div by lia; reflexivity).
  replace (1000 * ((y / 10 / 10 / 10) mod 10) + 100 * ((y / 10 / 10) mod 10)
           + 10 * ((y / 10) mod 10) + y mod 10) with y by (Z.div_mod_to_equations; lia).
  replace (10 * ((m / 10) mod 10) + m mod 10) with m by (Z.div_mod_to_equations; lia).
  replace (10 * ((dd / 10) mod 10) + dd mod 10) with dd by (Z.div_mod_to_equations; lia).
  rewrite Hv. reflexivity.
Qed.

(** Before the year 1000 [strftime] writes fewer than four digits of year,
    and [strptime] refuses the string. *)
Lemma strptime_strftime_early (d : Dates.date) :
  Dates.year d < 1000 -> Dates.strptime_ymd (Dates.strftime_ymd d) = None.
Proof.
  intros Hearly. unfold Dates.strftime_ymd, Dates.year_digits.
  rewrite (proj2 (Z.ltb_lt _ _) Hearly).
  unfold Dates.pad2.
  destruct (Dates.year d <? 10); [|destruct (Dates.year d <? 100)];
    repeat (rewrite ?append_cons, ?append_empty); reflexivity.
Qed.

Lemma strftime_truthy (d : Dates.date) : PyStr.truthy (Dates.strftime_ymd d) = true.
Proof.
  unfold Dates.strftime_ymd, Dates.year_digits, Dates.pad4, Dates.pad2.
  repeat match goal with |- context [if ?b then _ else _] => destruct b end;
    reflexivity.
Qed.

Lemma strptime_valid (s : string) (d : Dates.date) :
  Dates.strptime_ymd s = Some d -> Dates.valid_date d = true.
Proof.
  intros H. unfold Dates.strptime_ymd in H.
  do 10 (destruct s as [|? s]; [discriminate|]). destruct s; [|discriminate].
  repeat match type of H with
         | context [match Dates.digit_val ?c with _ => _ end] =>
             destruct (Dates.digit_val c); [|discriminate]
         end.
  match type of H with
  | (if ?c then _ else _) = _ => destruct c eqn:Hcheck; [|discriminate]
  end.
  injection H as <-. now apply andb_true_iff in Hcheck as [_ Hcheck].
Qed.

(** ** The geography rule *)

Lemma normalize_trim_lower (g : string) : main.normalize g = PyStr.lower (PyStr.strip g).
Proof. apply lower_strip. Qed.

Lemma target_in_normalized (locations : list string) :
  "ethiopia" ∈ map main.normalize locations <->
  Exists (fun g => PyStr.lower (PyStr.strip g) = "ethiopia") locations.
Proof.
  rewrite Exists_exists, list_elem_of_In, in_map_iff.
  split; intros (g & H1 & H2); exists g.
  - rewrite <- normalize_trim_lower, list_elem_of_In. split; [exact H2 | exact H1].
  - rewrite normalize_trim_lower, <- list_elem_of_In. split; [exact H2 | exact H1].
Qed.

Lemma filter_nil_Forall {A} (P : A -> Prop) `{!forall x, Decision (P x)} (l : list A) :
  filter P l = [] <-> Forall (fun x => ~ P x) l.
Proof.
  induction l as [|x l IH]; [split; constructor|].
  rewrite filter_cons, Forall_cons. destruct (decide (P x)) as [HP|HP].
  - split; [discriminate | intros [Hn _]; contradiction].
  - rewrite IH. tauto.
Qed.

(** C1. If the excluded list names Ethiopia (any case, surrounding
    whitespace ignored) the verdict is "not relevant", whatever the eligible
    list holds; if it does not and the eligible list names Ethiopia, the
    verdict is "relevant", whatever else the excluded list names. *)
Theorem explicit_mention_decides (geo_data : GeoData) :
  let eligible := get_default (geo_eligible geo_data) [] in
  let excluded := get_default (geo_excluded geo_data) [] in
  (Exists (fun g => PyStr.lower (PyStr.strip g) = "ethiopia") excluded ->
   fst (main.is_relevant_for_ethiopia geo_data) = false) /\
  (~ Exists (fun g => PyStr.lower (PyStr.strip g) = "ethiopia") excluded ->
   Exists (fun g => PyStr.lower (PyStr.strip g) = "ethiopia") eligible ->
   fst (main.is_relevant_for_ethiopia geo_data) = true).
Proof.
  intros eligible excluded. unfold main.is_relevant_for_ethiopia.
  fold eligible. fold excluded. split.
  - intros H. apply target_in_normalized in H.
    now rewrite (bool_decide_eq_true_2 _ H).
  - intros Hex Hel. rewrite <- target_in_normalized in Hex, Hel.
    now rewrite (bool_decide_eq_false_2 _ Hex), (bool_decide_eq_true_2 _ Hel).
Qed.

Lemma general_scopes_spelled (loc : string) :
  loc ∈ main.general_scopes <->
  loc ∈ ["east africa"; "horn of africa"; "africa"; "sub-saharan africa";
         "global"; "international"; "developing countries"].
Proof.
  unfold main.general_scopes.
  rewrite !elem_of_union, !elem_of_singleton, !elem_of_cons, elem_of_nil. tauto.
Qed.

(** C2. When neither list names Ethiopia: one eligible entry that, trimmed
    and lowered, is none of "east africa", "horn of africa", "africa",
    "sub-saharan africa", "global", "international", "developing countries"
    makes the verdict "not relevant", even next to a broad scope; a non-empty
    eligible list whose entries all are among them makes it "relevant"; an
    empty eligible list makes it "not relevant". *)
Theorem scope_rule_without_target (geo_data : GeoData) :
  let eligible := get_default (geo_eligible geo_data) [] in
  let excluded := get_default (geo_excluded geo_data) [] in
  let broad g :=
    PyStr.lower (PyStr.strip g)
    ∈ ["east africa"; "horn of africa"; "africa"; "sub-saharan africa";
       "global"; "international"; "developing countries"] in
  ~ Exists (fun g => PyStr.lower (PyStr.strip g) = "ethiopia") excluded ->
  ~ Exists (fun g => PyStr.lower (PyStr.strip g) = "ethiopia") eligible ->
  (Exists (fun g => ~ broad g) eligible ->
   fst (main.is_relevant_for_ethiopia geo_data) = false) /\
  (eligible <> [] -> Forall broad eligible ->
   fst (main.is_relevant_for_ethiopia geo_data) = true) /\
  (eligible = [] -> fst (main.is_relevant_for_ethiopia geo_data) = false).
Proof.
  intros eligible excluded broad Hex Hel.
  assert (Hbroad : forall g, broad g <-> main.normalize g ∈ main.general_scopes).
  { intros g. unfold broad. now rewrite general_scopes_spelled, normalize_trim_lower. }
  unfold main.is_relevant_for_ethiopia.
  fold eligible. fold excluded. rewrite <- target_in_normalized in Hex, Hel.
  rewrite (bool_decide_eq_false_2 _ Hex), (bool_decide_eq_false_2 _ Hel).
  repeat split.
  - intros Hout.
    destruct (filter (fun loc => loc ∉ main.general_scopes) (map main.normalize eligible))
      as [|loc locs] eqn:Hf; [|reflexivity].
    exfalso. apply filter_nil_Forall in Hf.
    rewrite Forall_map in Hf. rewrite Forall_forall in Hf.
    apply Exists_exists in Hout as (g & Hg & Hn). apply (Hf g Hg).
    intros Hin. apply Hn, Hbroad, Hin.
  - intros Hne Hall.
    assert (Hall' : Forall (fun g => main.normalize g ∈ main.general_scopes) eligible).
    { eapply Forall_impl; [exact Hall|]. intros g Hg. now apply Hbroad. }
    assert (Hspec : filter (fun loc => loc ∉ main.general_scopes)
                      (map main.normalize eligible) = []).
    { apply filter_nil_Forall. rewrite Forall_map.
      eapply Forall_impl; [exact Hall'|]. intros g Hg Hn. exact (Hn Hg). }
    rewrite Hspec.
    destruct (filter (fun scope => scope ∈ main.general_scopes)
                (map main.normalize eligible)) as [|s ss] eqn:Hf; [|reflexivity].
    exfalso. apply filter_nil_Forall in Hf. rewrite Forall_map in Hf.
    destruct eligible as [|g rest]; [now apply Hne|].
    inversion Hf; subst. inversion Hall'; subst. contradiction.
  - intros ->. reflexivity.
Qed.

(** ** The worker *)

(** the geography rule let the item through: take the other branch *)
Ltac past_geography Hgeo :=
  match goal with
  | |- context [main.is_relevant_for_ethiopia ?g] =>
      let rel := fresh "rel" in
      let why := fresh "why" in
      destruct (main.is_relevant_for_ethiopia g) as [rel why];
      simpl in Hgeo; subst rel; simpl
  end.

Section Worker.
Variable supabase : bool.
Variable ai_model : bool.
Variable geo_model : string -> string -> nat -> ai_analyzer.attempt GeoData.
Variable enrichment_model : string -> string -> nat -> ai_analyzer.attempt EnrichmentData.
Variable parse_date : string -> main.parse_result.
Variable today : Dates.date.

Local Abbreviation analyze_opportunity :=
  (main.analyze_opportunity supabase ai_model geo_model enrichment_model parse_date today).
Local Abbreviation geo_data_of := (main.geo_data_of ai_model geo_model).
Local Abbreviation enrichment_data_of := (main.enrichment_data_of ai_model enrichment_model).
Local Abbreviation validate_and_clean_deadline := (main.validate_and_clean_deadline parse_date).

(** Every way [analyze_opportunity] can end. *)
Lemma analyze_outcomes (opp : Opp) :
  let link := opp_link opp in
  analyze_opportunity opp
    = (main.Returned (Some false) (Some (mk_update link processed_irrelevant)), []) \/
  analyze_opportunity opp = (main.Returned None None, []) \/
  analyze_opportunity opp
    = (main.Returned (Some false) (Some (mk_update link processed_ai_error)), []) \/
  analyze_opportunity opp
    = (main.Returned (Some false) (Some (mk_update link processed_expired)), []) \/
  analyze_opportunity opp = (main.Raised, []) \/
  exists final_record,
    analyze_opportunity opp
    = (main.Returned (Some true) (Some (mk_update link processed_relevant)),
       db.add_processed_opportunity supabase final_record).
Proof.
  intros link. unfold main.analyze_opportunity. fold link.
  destruct (main.is_relevant_for_ethiopia (geo_data_of opp)) as [[] why]; simpl; [|tauto].
  destruct (enrichment_data_of opp) as [data|]; [|tauto].
  destruct (main.failed_temporarily data) as [[]|]; [tauto | | tauto].
  destruct (main.failed_permanently data) as [[]|]; [tauto | | tauto].
  destruct (validate_and_clean_deadline (py_get (enr_deadline data))) as [parsed|];
    [|tauto].
  destruct (main.final_record_of opp (geo_data_of opp) data parsed) as [final_record|];
    destruct parsed as [str|]; try tauto; eauto 10;
    destruct (PyStr.truthy str); try tauto; eauto 10;
    destruct (Dates.strptime_ymd str) as [deadline_date|]; try tauto;
    destruct (Dates.date_ltb deadline_date today); try tauto; eauto 10.
Qed.

Lemma retries_exhausted_geo (title text_content : string) :
  ai_analyzer._call_gemini_with_retry (geo_model title (PyStr.take 3000 text_content)) = None ->
  ai_analyzer.get_geographic_scope ai_model geo_model title text_content
  = ai_analyzer.empty_geo.
Proof.
  intros H. unfold ai_analyzer.get_geographic_scope. rewrite H.
  now destruct ai_model.
Qed.


Lemma retry_loop_all_fail {A : Type} (generate_content : nat -> ai_analyzer.attempt A)
    (i n : nat) :
  (forall k, (i <= k < i + n)%nat -> generate_content k = ai_analyzer.ApiError) ->
  ai_analyzer.retry_loop generate_content i n = None.
Proof.
  revert i. induction n as [|n IH]; intros i H; simpl; [reflexivity|].
  rewrite H by lia. apply IH. intros k Hk. apply H. lia.
Qed.

(** C3 (what the code does). When every attempt of the geographic-scope
    call fails, the item is not left pending: the worker returns the status
    update [processed_irrelevant] for it. *)
Theorem geo_failure_marks_irrelevant (opp : Opp) :
  (forall k, (k < ai_analyzer.retries)%nat ->
     geo_model (opp_title opp) (PyStr.take 3000 (opp_full_text opp)) k
     = ai_analyzer.ApiError) ->
  analyze_opportunity opp
  = (main.Returned (Some false) (Some (mk_update (opp_link opp) processed_irrelevant)), []).
Proof.
  intros Hfail. unfold main.analyze_opportunity, main.geo_data_of.
  rewrite retries_exhausted_geo; [reflexivity|].
  apply retry_loop_all_fail. intros k Hk. apply Hfail. lia.
Qed.

Lemma keyword_found (s keyword pre mid post : string) :
  keyword ∈ main.non_date_keywords ->
  s = pre ++ mid ++ post ->
  PyStr.lower mid = keyword ->
  existsb (fun keyword => PyStr.str_in keyword (PyStr.lower s)) main.non_date_keywords = true.
Proof.
  intros Hk -> Hmid. apply existsb_exists. exists keyword. split.
  - now apply list_elem_of_In.
  - apply str_in_spec. exists (PyStr.lower pre), (PyStr.lower post).
    now rewrite !lower_app, Hmid.
Qed.

Lemma keyword_absent (s : string) :
  (forall keyword, keyword ∈ main.non_date_keywords ->
     PyStr.str_in keyword (PyStr.lower s) = false) ->
  existsb (fun keyword => PyStr.str_in keyword (PyStr.lower s)) main.non_date_keywords = false.
Proof.
  intros Hno. apply not_true_is_false. intros Hex.
  apply existsb_exists in Hex as (keyword & Hin & Hfound).
  apply list_elem_of_In in Hin. rewrite (Hno keyword Hin) in Hfound. discriminate.
Qed.

(** What the normalization rule lets through: a non-empty string without a
    non-date keyword that the parser reads as a date. *)
Lemma validate_some (s out : string) :
  validate_and_clean_deadline (JString s) = Returns (Some out) <->
  PyStr.truthy s = true /\
  existsb (fun keyword => PyStr.str_in keyword (PyStr.lower s)) main.non_date_keywords = false /\
  exists d, parse_date s = main.Parsed d /\ out = Dates.strftime_ymd d.
Proof.
  unfold main.validate_and_clean_deadline.
  destruct (PyStr.truthy s); cbn [negb].
  2: { split; [discriminate | intros (H & _); discriminate]. }
  match goal with |- context [existsb ?f ?l] => destruct (existsb f l) end.
  1: { split; [discriminate | intros (_ & H & _); discriminate]. }
  destruct (parse_date s) as [d| |].
  - split.
    + intros H. injection H as <-. eauto.
    + intros (_ & _ & d' & Hd & ->). now injection Hd as ->.
  - split; [discriminate | intros (_ & _ & d' & Hd & _); discriminate].
  - split; [discriminate | intros (_ & _ & d' & Hd & _); discriminate].
Qed.

(** The normalization raises only where the parser raises what it does not
    catch. *)
Lemma validate_raises (v : json) :
  validate_and_clean_deadline v = Raises <->
  exists s,
    v = JString s /\ PyStr.truthy s = true /\
    existsb (fun keyword => PyStr.str_in keyword (PyStr.lower s)) main.non_date_keywords = false /\
    parse_date s = main.Escapes.
Proof.
  unfold main.validate_and_clean_deadline. split.
  - destruct v as [| | | s | |]; try discriminate.
    destruct (PyStr.truthy s) eqn:Htruthy; cbn [negb]; [|discriminate].
    match goal with |- context [existsb ?f ?l] => destruct (existsb f l) eqn:Hkey end;
      [discriminate|].
    destruct (parse_date s) eqn:Hparse; try discriminate.
    intros _. exists s. auto.
  - intros (s & -> & Htruthy & Hkey & Hparse). now rewrite Htruthy, Hkey, Hparse.
Qed.

Lemma upsert_is_accept (opp : Opp) (r : ProcessedRecord) :
  processed_upsert r ∈ snd (analyze_opportunity opp) ->
  fst (main.is_relevant_for_ethiopia (geo_data_of opp)) = true /\
  exists data parsed,
    enrichment_data_of opp = Returns data /\
    main.failed_temporarily data = Some false /\
    main.failed_permanently data = Some false /\
    validate_and_clean_deadline (py_get (enr_deadline data)) = Returns parsed /\
    main.final_record_of opp (geo_data_of opp) data parsed = Some r.
Proof.
  unfold main.analyze_opportunity.
  destruct (main.is_relevant_for_ethiopia (geo_data_of opp)) as [[] why]; simpl;
    [|intros H; inversion H].
  destruct (enrichment_data_of opp) as [data|]; [|intros H; inversion H].
  destruct (main.failed_temporarily data) as [[]|] eqn:Htmp;
    try (intros H; inversion H; fail).
  destruct (main.failed_permanently data) as [[]|] eqn:Hperm;
    try (intros H; inversion H; fail).
  destruct (validate_and_clean_deadline (py_get (enr_deadline data))) as [parsed|] eqn:Hnorm;
    [|intros H; inversion H].
  assert (Hacc :
    processed_upsert r
      ∈ snd (match main.final_record_of opp (geo_data_of opp) data parsed with
             | Some final_record =>
                 (main.Returned (Some true)
                    (Some (mk_update (opp_link opp) processed_relevant)),
                  db.add_processed_opportunity supabase final_record)
             | None => (main.Raised, [])
             end) ->
    main.final_record_of opp (geo_data_of opp) data parsed = Some r).
  { destruct (main.final_record_of opp (geo_data_of opp) data parsed) as [r0|];
      [|intros H; inversion H].
    unfold db.add_processed_opportunity. destruct supabase; simpl.
    - intros H. apply list_elem_of_singleton in H. now injection H as ->.
    - intros H. inversion H. }
  intros H. split; [reflexivity|]. exists data, parsed.
  split; [reflexivity|]. split; [exact Htmp|]. split; [exact Hperm|].
  split; [exact Hnorm|]. apply Hacc.
  destruct parsed as [str|]; [|exact H].
  destruct (PyStr.truthy str); [|exact H].
  destruct (Dates.strptime_ymd str) as [deadline_date|]; [|inversion H].
  destruct (Dates.date_ltb deadline_date today); [inversion H | exact H].
Qed.

(** What the trimming changes is the focus areas, nothing else. *)
Lemma trim_keeps_fields (data trimmed : EnrichmentData) :
  ai_analyzer.trim_focus_areas data = Returns trimmed ->
  enr_summary trimmed = enr_summary data /\
  enr_funding_amount trimmed = enr_funding_amount data /\
  enr_funder trimmed = enr_funder data /\
  enr_deadline trimmed = enr_deadline data.
Proof.
  unfold ai_analyzer.trim_focus_areas.
  destruct (PyJson.len (get_default (enr_focus_areas data) (JArray []))) as [n|];
    [|discriminate].
  destruct (3 <? n)%nat.
  - destruct (PyJson.slice 3 (get_default (enr_focus_areas data) (JArray [])));
      [|discriminate].
    intros [= <-]. auto.
  - intros [= <-]. auto.
Qed.

(** An enrichment that is neither a temporary nor a permanent failure is the
    object the classifier answered, with at most its focus areas cut. *)
Lemma enrichment_passed_is_answer (opp : Opp) (enrichment_data : EnrichmentData) :
  ai_model = true ->
  enrichment_data_of opp = Returns enrichment_data ->
  main.failed_temporarily enrichment_data = Some false ->
  main.failed_permanently enrichment_data = Some false ->
  exists data,
    ai_analyzer._call_gemini_with_retry
      (enrichment_model (opp_title opp) (PyStr.take 4000 (opp_full_text opp)))
    = Some (ai_analyzer.JsonObject data) /\
    ai_analyzer.trim_focus_areas data = Returns enrichment_data.
Proof.
  intros Hai. unfold main.enrichment_data_of, ai_analyzer.get_enrichment_data.
  rewrite Hai. cbn [negb].
  match goal with
  | |- context [ai_analyzer._call_gemini_with_retry ?g] =>
      destruct (ai_analyzer._call_gemini_with_retry g) as [[| | |data]|]
  end;
    try (intros [= <-] H; discriminate H); try (intros [= <-] _ H; discriminate H).
  intros Htrim _ _. now exists data.
Qed.

Lemma relevant_needs_model (opp : Opp) :
  fst (main.is_relevant_for_ethiopia (geo_data_of opp)) = true -> ai_model = true.
Proof.
  unfold main.geo_data_of, ai_analyzer.get_geographic_scope.
  destruct ai_model; [reflexivity | discriminate].
Qed.

(** A succeeded enrichment passes the classification. *)
Lemma succeeded_passes (data : EnrichmentData) :
  enrichment_succeeded data ->
  main.failed_temporarily data = Some false /\ main.failed_permanently data = Some false.
Proof.
  intros (summary & Hsummary & Htmp & Hmalformed & Hnone & Hfunding).
  unfold main.failed_temporarily, main.failed_permanently.
  rewrite Hsummary. cbn [PyJson.contains]. rewrite Htmp, Hmalformed, Hnone.
  split; [reflexivity|].
  destruct (enr_funding_amount data) as [[| | |funding| |]|]; try reflexivity.
  cbn [get_default PyJson.eq_str].
  destruct (String.eqb_spec funding "Error") as [->|Hne]; [|reflexivity].
  now contradiction Hfunding.
Qed.



(** The non-date keywords, spelled out. *)
Lemma non_date_keywords_spelled :
  main.non_date_keywords = ["rolling"; "ongoing"; "specified"; "quarterly"; "n/a"].
Proof. reflexivity. Qed.

(** C7 (what the code does). A deadline string that contains one of the
    keywords rolling, ongoing, specified, quarterly, n/a in any case
    normalizes to "no deadline", and so does a string for which the parser
    raises a ValueError. A string for which the parser raises another
    exception does not: the normalization raises, and the worker with it,
    before anything is written. A record that is written carries in
    [raw_deadline_text] the very value the classifier answered, next to the
    normalized deadline. *)
Theorem deadline_normalization_outcomes :
  (forall s keyword pre mid post,
     keyword ∈ ["rolling"; "ongoing"; "specified"; "quarterly"; "n/a"] ->
     s = pre ++ mid ++ post -> PyStr.lower mid = keyword ->
     validate_and_clean_deadline (JString s) = Returns None) /\
  (forall s, parse_date s = main.Rejected ->
     validate_and_clean_deadline (JString s) = Returns None) /\
  (forall s,
     s <> EmptyString ->
     (forall keyword, keyword ∈ ["rolling"; "ongoing"; "specified"; "quarterly"; "n/a"] ->
        PyStr.str_in keyword (PyStr.lower s) = false) ->
     parse_date s = main.Escapes ->
     validate_and_clean_deadline (JString s) = Raises /\
     forall opp data,
       fst (main.is_relevant_for_ethiopia (geo_data_of opp)) = true ->
       enrichment_data_of opp = Returns data ->
       enrichment_succeeded data ->
       enr_deadline data = Some (JString s) ->
       analyze_opportunity opp = (main.Raised, [])) /\
  (forall opp r,
     processed_upsert r ∈ snd (analyze_opportunity opp) ->
     exists data,
       ai_analyzer._call_gemini_with_retry
         (enrichment_model (opp_title opp) (PyStr.take 4000 (opp_full_text opp)))
       = Some (ai_analyzer.JsonObject data) /\
       rec_raw_deadline_text r = py_get (enr_deadline data) /\
       validate_and_clean_deadline (py_get (enr_deadline data)) = Returns (rec_deadline r)).
Proof.
  rewrite <- non_date_keywords_spelled. split; [|split; [|split]].
  - intros s keyword pre mid post Hk Hs Hmid.
    unfold main.validate_and_clean_deadline.
    rewrite (keyword_found s keyword pre mid post Hk Hs Hmid).
    now destruct (PyStr.truthy s).
  - intros s Hs. unfold main.validate_and_clean_deadline. rewrite Hs.
    destruct (PyStr.truthy s); cbn [negb]; [|reflexivity].
    now match goal with |- context [existsb ?f ?l] => destruct (existsb f l) end.
  - intros s Hne Hno Hparse.
    assert (Hraise : validate_and_clean_deadline (JString s) = Raises).
    { apply validate_raises. exists s. split; [reflexivity|].
      split; [destruct s; [congruence | reflexivity]|]. split; [now apply keyword_absent | exact Hparse]. }
    split; [exact Hraise|].
    intros opp data Hgeo Hdata Hok Hdeadline.
    destruct (succeeded_passes data Hok) as [Htmp Hperm]. unfold main.analyze_opportunity.
    past_geography Hgeo. rewrite Hdata, Htmp, Hperm, Hdeadline.
    cbn [py_get]. now rewrite Hraise.
  - intros opp r Hr.
    apply upsert_is_accept in Hr as (Hgeo & e & parsed & He & Htmp & Hperm & Hnorm & Hrec).
    apply relevant_needs_model in Hgeo.
    destruct (enrichment_passed_is_answer opp e Hgeo He Htmp Hperm) as (data & Hcall & Htrim).
    destruct (trim_keeps_fields data e Htrim) as (_ & _ & _ & Hdeadline).
    exists data. split; [exact Hcall|]. rewrite <- Hdeadline.
    unfold main.final_record_of in Hrec.
    destruct (PyJson.join ", " (get_default (enr_focus_areas e) (JArray []))) as [joined|];
      [|discriminate].
    injection Hrec as <-. cbn [rec_raw_deadline_text rec_deadline].
    split; [reflexivity | exact Hnorm].
Qed.

(** C6 (what the code does). An item that passed the geography rule and
    whose enrichment succeeded, with a deadline that holds none of the
    non-date keywords and that the parser reads as a date before today: from
    the year 1000 on it gets the status update [processed_expired] and
    nothing is sent to the processed store; before the year 1000 the worker
    raises instead, since [strptime] refuses the year [strftime] wrote, and
    the item gets no status update. *)
Theorem past_deadline_needs_four_digit_year (opp : Opp) (data : EnrichmentData)
    (s : string) (d : Dates.date) :
  fst (main.is_relevant_for_ethiopia (geo_data_of opp)) = true ->
  enrichment_data_of opp = Returns data ->
  enrichment_succeeded data ->
  enr_deadline data = Some (JString s) ->
  s <> EmptyString ->
  (forall keyword, keyword ∈ ["rolling"; "ongoing"; "specified"; "quarterly"; "n/a"] ->
     PyStr.str_in keyword (PyStr.lower s) = false) ->
  parse_date s = main.Parsed d ->
  Dates.valid_date d = true ->
  Dates.date_ltb d today = true ->
  (1000 <= Dates.year d ->
   analyze_opportunity opp
   = (main.Returned (Some false) (Some (mk_update (opp_link opp) processed_expired)), [])) /\
  (Dates.year d < 1000 -> analyze_opportunity opp = (main.Raised, [])).
Proof.
  intros Hgeo Hdata Hok Hs Hne Hfree Hparse Hvalid Hpast.
  destruct (succeeded_passes data Hok) as [Htmp Hperm].
  assert (Hnorm : validate_and_clean_deadline (JString s)
                  = Returns (Some (Dates.strftime_ymd d))).
  { apply validate_some. split; [destruct s; [congruence | reflexivity]|].
    split; [apply keyword_absent; rewrite non_date_keywords_spelled; exact Hfree|].
    now exists d. }
  split; intros Hyear; unfold main.analyze_opportunity; past_geography Hgeo;
    rewrite Hdata, Htmp, Hperm, Hs; cbn [py_get]; rewrite Hnorm, strftime_truthy.
  - rewrite (strptime_strftime d Hvalid Hyear), Hpast. reflexivity.
  - rewrite (strptime_strftime_early d Hyear). reflexivity.
Qed.

End Worker.

(** ** The processor run *)

Lemma count_map {A B : Type} (P : B -> Prop) `{!forall y, Decision (P y)} (g : A -> B)
    (l : list A) :
  length (filter P (map g l)) = length (filter (fun x => P (g x)) l).
Proof.
  induction l as [|x l IH]; [reflexivity|].
  cbn [map]. rewrite !filter_cons. destruct (decide (P (g x))); simpl; now rewrite IH.
Qed.

Lemma count_perm {A : Type} (P : A -> Prop) `{!forall x, Decision (P x)} (l k : list A) :
  l ≡ₚ k -> length (filter P l) = length (filter P k).
Proof. intros Hp. now rewrite Hp. Qed.

Section Processor.
Variable supabase : bool.
Variable ai_model : bool.
Variable geo_model : string -> string -> nat -> ai_analyzer.attempt GeoData.
Variable enrichment_model : string -> string -> nat -> ai_analyzer.attempt EnrichmentData.
Variable parse_date : string -> main.parse_result.
Variable today : Dates.date.
Variable as_completed : forall A : Type, list A -> list A.
Hypothesis as_completed_perm : forall (A : Type) (l : list A), as_completed A l ≡ₚ l.

Local Abbreviation analyze_opportunity :=
  (main.analyze_opportunity supabase ai_model geo_model enrichment_model parse_date today).
Local Abbreviation run_processor_stage :=
  (main.run_processor_stage supabase ai_model geo_model enrichment_model parse_date today
     as_completed).

Lemma pending_needs_client (raw_table : list Opp) :
  db.get_pending_opportunities supabase raw_table <> [] -> supabase = true.
Proof. unfold db.get_pending_opportunities. now destruct supabase. Qed.

(** The loop over finished futures, when none of them is a retry-later:
    one status update per future, one upsert per accepted one. *)
Lemma processor_loop (fs : list (main.analysis * list db_call)) (st : main.processor_state) :
  supabase = true ->
  Forall (fun f => retry_later (fst f) = false /\ exists opp, f = analyze_opportunity opp) fs ->
  exists records updates,
    fold_left main.processor_step (map fst fs) st
    = main.mk_state (main.processed_count st + length fs)
                    (main.relevant_count st + length records)
                    (main.status_updates_to_commit st ++ updates) /\
    concat (map snd fs) = map processed_upsert records /\
    length records = length (filter (fun f => accepted (fst f) = true) fs) /\
    length updates = length fs /\
    length fs = (length (filter (fun f => accepted (fst f) = true) fs)
                 + length (filter (fun f => rejected (fst f) = true) fs))%nat.
Proof.
  intros Hdb Hall. revert st.
  induction Hall as [|f fs [Hretry [opp Hf]] _ IH]; intros st.
  - exists [], []. simpl. rewrite !Nat.add_0_r, app_nil_r. now destruct st.
  - destruct (analyze_outcomes supabase ai_model geo_model enrichment_model parse_date
                today opp) as [H|[H|[H|[H|[H|[r H]]]]]];
      rewrite <- Hf in H; rewrite H in Hretry |- *; try discriminate Hretry;
      cbn [map fst snd fold_left concat main.processor_step];
      match goal with
      | |- context [fold_left _ _ ?st'] =>
          destruct (IH st') as (records & updates & Hfold & Hcalls & Hrec & Hupd & Hlen)
      end;
      rewrite Hfold, Hcalls, !filter_cons; simpl.
    1: exists records, (mk_update (opp_link opp) processed_irrelevant :: updates).
    2: exists records, (mk_update (opp_link opp) processed_ai_error :: updates).
    3: exists records, (mk_update (opp_link opp) processed_expired :: updates).
    4: exists (r :: records), (mk_update (opp_link opp) processed_relevant :: updates).
    all: rewrite <- ?app_assoc; simpl; repeat split; try (f_equal; lia); try lia.
    unfold db.add_processed_opportunity. now rewrite Hdb.
Qed.

Lemma processor_updates (outcomes : list main.analysis) (st : main.processor_state) :
  main.status_updates_to_commit (fold_left main.processor_step outcomes st)
  = (main.status_updates_to_commit st ++ omap status_update_of outcomes)%list.
Proof.
  revert st. induction outcomes as [|a outcomes IH]; intros st; simpl.
  - now rewrite app_nil_r.
  - rewrite IH. destruct a as [is_relevant [upd|]|]; simpl;
      rewrite <- ?app_assoc; reflexivity.
Qed.

Lemma omap_map {A B C : Type} (f : B -> option C) (g : A -> B) (l : list A) :
  omap f (map g l) = omap (fun x => f (g x)) l.
Proof.
  induction l as [|x l IH]; [reflexivity|].
  simpl. destruct (f (g x)); [f_equal|]; exact IH.
Qed.

(** Whatever the completion order, the batch of a run holds the status
    updates the workers returned for the pending items, and nothing else. *)
Lemma run_commits_what_workers_return (raw_table : list Opp) :
  main.status_updates_to_commit (fst (run_processor_stage raw_table))
  ≡ₚ omap (fun opp => status_update_of (fst (analyze_opportunity opp)))
          (db.get_pending_opportunities supabase raw_table).
Proof.
  unfold main.run_processor_stage.
  destruct (db.get_pending_opportunities supabase raw_table) as [|opp0 opps];
    [reflexivity|].
  set (pending := opp0 :: opps). cbn [fst].
  rewrite processor_updates. cbn [main.status_updates_to_commit app].
  rewrite omap_map, (omap_Permutation _ _ _ (as_completed_perm _ _)), omap_map.
  reflexivity.
Qed.

(** C5. In a run without retry-later items, with [N] accepted and [M]
    rejected items among the pending ones: the calls sent are [N] upserts
    into the processed store followed by the bulk status update, which
    carries [N + M] entries and is absent exactly when the batch is empty. *)
Theorem one_bulk_update_per_run (raw_table : list Opp) (N M : nat) :
  N = length (filter (fun opp => accepted (fst (analyze_opportunity opp)) = true)
                     (db.get_pending_opportunities supabase raw_table)) ->
  M = length (filter (fun opp => rejected (fst (analyze_opportunity opp)) = true)
                     (db.get_pending_opportunities supabase raw_table)) ->
  Forall (fun opp => retry_later (fst (analyze_opportunity opp)) = false)
         (db.get_pending_opportunities supabase raw_table) ->
  exists records updates,
    run_processor_stage raw_table
    = (main.mk_state (N + M) N updates,
       (map processed_upsert records ++ bulk_call_for updates)%list) /\
    length records = N /\
    length updates = (N + M)%nat.
Proof.
  intros HN HM Hall. unfold main.run_processor_stage.
  destruct (db.get_pending_opportunities supabase raw_table) as [|opp0 opps] eqn:Hpending.
  - exists [], []. subst N M. now simpl.
  - assert (Hdb : supabase = true).
    { apply (pending_needs_client raw_table). now rewrite Hpending. }
    set (pending := opp0 :: opps) in *.
    set (fs := as_completed _ (map analyze_opportunity pending)).
    assert (Hperm : fs ≡ₚ map analyze_opportunity pending) by apply as_completed_perm.
    assert (Hgood : Forall (fun f => retry_later (fst f) = false /\
                                     exists opp, f = analyze_opportunity opp) fs).
    { apply Forall_forall. intros f Hf. rewrite Hperm in Hf.
      apply list_elem_of_In, in_map_iff in Hf as (opp & <- & Hin).
      split; [|now exists opp].
      rewrite Forall_forall in Hall. apply Hall. now apply list_elem_of_In. }
    destruct (processor_loop fs (main.mk_state 0 0 []) Hdb Hgood)
      as (records & updates & Hfold & Hcalls & Hrec & Hupd & Hlen).
    assert (HcountA : length (filter (fun f => accepted (fst f) = true) fs) = N).
    { rewrite (count_perm _ _ _ Hperm), count_map. now rewrite HN. }
    assert (HcountR : length (filter (fun f => rejected (fst f) = true) fs) = M).
    { rewrite (count_perm _ _ _ Hperm), count_map. now rewrite HM. }
    exists records, updates.
    rewrite Hfold, Hcalls. simpl.
    unfold db.bulk_update_raw_opportunity_statuses, bulk_call_for. rewrite Hdb. simpl.
    repeat split; try lia. f_equal. f_equal; lia.
Qed.

End Processor.

(** ** The collector *)

Lemma truthy_nonempty (s : string) : PyStr.truthy s = true <-> s <> EmptyString.
Proof. destruct s; simpl; split; intros H; congruence. Qed.

Lemma has_link_true (link : string) (opp : Opp) :
  has_link link opp = true <-> opp_link opp = Some link.
Proof. unfold has_link. apply bool_decide_eq_true. Qed.

Lemma find_has_link (link : string) (opps : list Opp) (o : Opp) :
  o ∈ opps -> opp_link o = Some link ->
  exists first, find (has_link link) opps = Some first.
Proof.
  intros Hin Hlink. destruct (find (has_link link) opps) as [first|] eqn:Hfind; [eauto|].
  apply list_elem_of_In in Hin. pose proof (find_none _ _ Hfind o Hin) as Hno.
  apply has_link_true in Hlink. congruence.
Qed.

(** The de-duplication loop appends to [unique] a list [kept] of records of
    [opps]: each has a non-empty link that was not seen before, and of the
    records that carry such a link exactly the first one is kept. *)
Lemma dedup_loop_spec (opps unique : list Opp) (seen : gset string) :
  exists kept,
    fst (main.dedup_loop opps unique seen) = (unique ++ kept)%list /\
    (forall o, o ∈ kept ->
       o ∈ opps /\ exists link, opp_link o = Some link /\ link <> EmptyString /\ link ∉ seen) /\
    (forall link, link <> EmptyString -> link ∉ seen ->
       filter (fun o => opp_link o = Some link) kept
       = match find (has_link link) opps with
         | Some first => [first]
         | None => []
         end).
Proof.
  revert unique seen. induction opps as [|opp rest IH]; intros unique seen.
  - exists []. simpl. rewrite app_nil_r. split; [reflexivity|]. split.
    + intros o Ho. inversion Ho.
    + reflexivity.
  - assert (Hskip :
      (forall link, opp_link opp = Some link -> link = EmptyString \/ link ∈ seen) ->
      exists kept,
        fst (main.dedup_loop rest unique seen) = (unique ++ kept)%list /\
        (forall o, o ∈ kept ->
           o ∈ opp :: rest /\
           exists link, opp_link o = Some link /\ link <> EmptyString /\ link ∉ seen) /\
        (forall link, link <> EmptyString -> link ∉ seen ->
           filter (fun o => opp_link o = Some link) kept
           = match find (has_link link) (opp :: rest) with
             | Some first => [first]
             | None => []
             end)).
    { intros Hdrop. destruct (IH unique seen) as (kept & Hfst & Hin & Hone).
      exists kept. split; [exact Hfst|]. split.
      - intros o Ho. destruct (Hin o Ho) as [Hrest Hl]. split; [now right | exact Hl].
      - intros link Hne Hnew. rewrite (Hone link Hne Hnew). simpl.
        destruct (has_link link opp) eqn:Hhas; [|reflexivity].
        apply has_link_true in Hhas. destruct (Hdrop link Hhas); contradiction. }
    simpl. destruct (opp_link opp) as [l|] eqn:Hl.
    2: { apply Hskip. intros link Hlink. discriminate. }
    destruct (PyStr.truthy l) eqn:Htruthy; simpl.
    2: { apply Hskip. intros link Hlink. injection Hlink as <-. left.
         destruct l; [reflexivity | discriminate]. }
    destruct (bool_decide (l ∉ seen)) eqn:Hseen.
    2: { apply Hskip. intros link Hlink. injection Hlink as <-. right.
         apply bool_decide_eq_false in Hseen. now apply dec_stable. }
    apply bool_decide_eq_true in Hseen. apply truthy_nonempty in Htruthy.
    destruct (IH (unique ++ [opp])%list ({[ l ]} ∪ seen)) as (kept & Hfst & Hin & Hone).
    exists (opp :: kept). split; [now rewrite Hfst, <- app_assoc|]. split.
    + intros o Ho. apply elem_of_cons in Ho as [->|Ho].
      * split; [now left | eauto].
      * destruct (Hin o Ho) as (Hrest & link & Hlink & Hne & Hnew).
        split; [now right|]. exists link.
        split; [exact Hlink|]. split; [exact Hne|].
        intros Hs. apply Hnew. apply elem_of_union. now right.
    + intros link Hne Hnew. rewrite filter_cons. simpl.
      destruct (decide (opp_link opp = Some link)) as [Heq|Hneq].
      * rewrite (proj2 (has_link_true link opp) Heq). f_equal.
        apply filter_nil_Forall, Forall_forall. intros o Ho Hlink.
        destruct (Hin o Ho) as (_ & link' & Hlink' & _ & Hnew').
        assert (link' = l) by congruence. subst link'.
        apply Hnew'. apply elem_of_union. left. now apply elem_of_singleton.
      * assert (Hhas : has_link link opp = false).
        { apply not_true_is_false. intros Hhas. now apply has_link_true in Hhas. }
        rewrite Hhas. apply Hone; [exact Hne|].
        assert (Hother : link <> l) by congruence.
        intros Hu. apply elem_of_union in Hu as [Hu|Hu]; [|contradiction].
        now apply elem_of_singleton in Hu.
Qed.

Lemma gather_from (results : list (option (list Opp))) (acc : list Opp) (o : Opp) :
  o ∈ fold_left (fun all_new_raw_opportunities result =>
                   match result with
                   | Some [] => all_new_raw_opportunities
                   | Some result => (all_new_raw_opportunities ++ result)%list
                   | None => all_new_raw_opportunities
                   end) results acc
  <-> o ∈ acc \/ exists out, Some out ∈ results /\ o ∈ out.
Proof.
  revert acc. induction results as [|result results IH]; intros acc; simpl.
  - split; [now left | intros [H|(out & H & _)]; [exact H | inversion H]].
  - rewrite IH. split.
    + intros [H|(out & Hout & Ho)].
      * destruct result as [[|x out]|]; try (now left).
        apply elem_of_app in H as [H|H]; [now left|].
        right. exists (x :: out). split; [now left | exact H].
      * right. exists out. split; [now right | exact Ho].
    + intros [H|(out & Hout & Ho)].
      * left. destruct result as [[|x out]|]; try exact H.
        apply elem_of_app. now left.
      * apply elem_of_cons in Hout as [<-|Hout].
        -- left. destruct out as [|x out]; [inversion Ho|].
           apply elem_of_app. now right.
        -- right. now exists out.
Qed.

Lemma gather_elem (results : list (option (list Opp))) (o : Opp) :
  o ∈ main.gather results <-> exists out, Some out ∈ results /\ o ∈ out.
Proof.
  unfold main.gather. rewrite gather_from. split; [|now right].
  intros [H|H]; [inversion H | exact H].
Qed.

Lemma reconcile_spec (results : list (option (list Opp))) :
  (forall o, o ∈ main.reconcile results ->
     o ∈ main.gather results /\
     exists link, opp_link o = Some link /\ link <> EmptyString) /\
  (forall link, link <> EmptyString ->
     filter (fun o => opp_link o = Some link) (main.reconcile results)
     = match find (has_link link) (main.gather results) with
       | Some first => [first]
       | None => []
       end).
Proof.
  unfold main.reconcile.
  destruct (dedup_loop_spec (main.gather results) [] ∅) as (kept & -> & Hin & Hone).
  simpl. split.
  - intros o Ho. destruct (Hin o Ho) as (Hg & link & Hlink & Hne & _). eauto.
  - intros link Hne. apply Hone; [exact Hne | apply not_elem_of_empty].
Qed.

Lemma listed_links_nonempty (site : Site) (link : string) :
  In link (scraper_common.get_opportunity_links site) -> link <> EmptyString.
Proof.
  unfold scraper_common.get_opportunity_links. intros H.
  apply in_flat_map in H as (post & _ & H).
  destruct (post_href post) as [l|]; [|inversion H].
  destruct (PyStr.truthy l) eqn:Ht; simpl in H; [|inversion H].
  destruct (post_recent post); [|inversion H].
  destruct H as [<-|[]]. now apply truthy_nonempty.
Qed.

(** What an orchestrator returns: records of listed links that are not
    known yet. *)
Lemma orchestrate_new (all_recent_links : list string)
    (scrape_opportunity_details : string -> option Opp) (existing_links : gset string)
    (o : Opp) :
  (forall url details, scrape_opportunity_details url = Some details ->
                       opp_link details = Some url) ->
  o ∈ scraper_common.orchestrate all_recent_links scrape_opportunity_details existing_links ->
  exists link, opp_link o = Some link /\ In link all_recent_links /\ link ∉ existing_links.
Proof.
  intros Hdetails Ho. unfold scraper_common.orchestrate, scraper_common.scrape_each in Ho.
  apply list_elem_of_In, in_flat_map in Ho as (link & Hlink & Ho).
  destruct (scrape_opportunity_details link) as [details|] eqn:Hd; [|inversion Ho].
  destruct Ho as [<-|[]]. exists link. split; [now apply Hdetails|].
  unfold scraper_common.apply_test_limit in Hlink. simpl in Hlink.
  unfold scraper_common.new_links in Hlink.
  apply list_elem_of_In, list_elem_of_filter in Hlink as [Hnew Hin].
  split; [now apply list_elem_of_In | exact Hnew].
Qed.

Lemma details_or_skip_link (source : string) (site : Site) (url : string) (details : Opp) :
  scraper_common.details_or_skip source site url = Some details ->
  opp_link details = Some url.
Proof.
  unfold scraper_common.details_or_skip.
  destruct (site_page site url) as [[title_element full_text]|]; [|discriminate].
  destruct (String.eqb _ _); [discriminate|]. now intros [= <-].
Qed.

Section Collector.
Variable supabase : bool.
Variable as_completed : forall A : Type, list A -> list A.
Variable title_from_slug : string -> option string.
Hypothesis as_completed_perm : forall (A : Type) (l : list A), as_completed A l ≡ₚ l.

Local Abbreviation scraper_results := (main.scraper_results title_from_slug).
Local Abbreviation run_collector_stage :=
  (main.run_collector_stage supabase as_completed title_from_slug).

(** Every record a scraper returns has a non-empty link that is not among
    the known links it was given. *)
Lemma scraped_is_new (web : Web) (existing_links : gset string) (out : list Opp) (o : Opp) :
  Some out ∈ scraper_results web existing_links ->
  o ∈ out ->
  exists link, opp_link o = Some link /\ link <> EmptyString /\ link ∉ existing_links.
Proof.
  unfold main.scraper_results, main.scraper_functions. cbn [map].
  intros Hout Ho.
  repeat (apply elem_of_cons in Hout as [Hout|Hout]); [| | |inversion Hout].
  - unfold gso_scraper.scrape_gso in Hout. simpl in Hout. injection Hout as ->.
    apply orchestrate_new in Ho as (link & Hl & Hin & Hnew);
      [|apply details_or_skip_link].
    exists link. split; [exact Hl|]. split; [|exact Hnew].
    now apply (listed_links_nonempty (gso_site web)).
  - unfold ofy_scraper.scrape_ofy in Hout. simpl in Hout.
    destruct (ofy_nonce web) as [fresh_nonce|]; [|injection Hout as ->; inversion Ho].
    destruct (PyStr.truthy fresh_nonce); simpl in Hout;
      [|injection Hout as ->; inversion Ho].
    injection Hout as ->.
    apply orchestrate_new in Ho as (link & Hl & Hin & Hnew);
      [|apply details_or_skip_link].
    exists link. split; [exact Hl|]. split; [|exact Hnew].
    now apply (listed_links_nonempty (ofy_site web)).
  - unfold od_scraper.scrape_od in Hout. simpl in Hout. discriminate Hout.
Qed.

(** C8. A link that occurs in the scrapers' outputs (in one of them or in
    several) survives in exactly one record, the first one carrying it in
    completion order; no saved record carries a link of the known-link set;
    the saved records are the reconciled ones, sent in one upsert, and
    nothing is sent when none is left. *)
Theorem reconciliation_keeps_first_new (web : Web) (existing_links : gset string) :
  (forall link out o,
     Some out ∈ scraper_results web existing_links -> o ∈ out -> opp_link o = Some link ->
     exists first,
       find (has_link link) (main.gather (as_completed _ (scraper_results web existing_links)))
       = Some first /\
       filter (fun o => opp_link o = Some link)
              (main.reconcile (as_completed _ (scraper_results web existing_links)))
       = [first]) /\
  (forall opps, raw_upsert opps ∈ run_collector_stage web existing_links ->
     opps = main.reconcile (as_completed _ (scraper_results web existing_links)) /\
     run_collector_stage web existing_links = [raw_upsert opps] /\
     forall o link, o ∈ opps -> opp_link o = Some link -> link ∉ existing_links) /\
  (main.reconcile (as_completed _ (scraper_results web existing_links)) = [] ->
   run_collector_stage web existing_links = []).
Proof.
  set (completed := as_completed _ (scraper_results web existing_links)).
  assert (Hperm : completed ≡ₚ scraper_results web existing_links)
    by apply as_completed_perm.
  destruct (reconcile_spec completed) as [Hkept Hone].
  split; [|split].
  - intros link out o Hout Ho Hlink.
    destruct (scraped_is_new web existing_links out o Hout Ho) as (l & Hl & Hne & _).
    assert (l = link) by congruence. subst l.
    assert (Hg : o ∈ main.gather completed).
    { apply gather_elem. exists out. split; [now rewrite Hperm | exact Ho]. }
    destruct (find_has_link link _ o Hg Hlink) as [first Hfirst].
    exists first. split; [exact Hfirst|]. now rewrite (Hone link Hne), Hfirst.
  - intros opps Hcall.
    unfold main.run_collector_stage, main.reconcile_and_save in *. fold completed in Hcall |- *.
    destruct (main.reconcile completed) as [|o0 rest] eqn:Hrec; [inversion Hcall|].
    unfold db.add_raw_opportunities in *. destruct supabase; simpl in *; [|inversion Hcall].
    apply list_elem_of_singleton in Hcall. injection Hcall as ->.
    split; [reflexivity|]. split; [reflexivity|].
    intros o link Ho Hlink. destruct (Hkept o Ho) as [Hg _].
    apply gather_elem in Hg as (out & Hout & Hin). rewrite Hperm in Hout.
    destruct (scraped_is_new web existing_links out o Hout Hin) as (l & Hl & _ & Hnew).
    congruence.
  - intros Hempty. unfold main.run_collector_stage, main.reconcile_and_save.
    fold completed. now rewrite Hempty.
Qed.

End Collector.

(** C10. Whatever the scrapers returned, the list handed to
    [add_raw_opportunities] is the reconciled one, each of its records has a
    non-empty link, and a candidate whose link is missing or empty is not in
    it. *)
Theorem saved_records_have_links (supabase : bool) (results : list (option (list Opp)))
    (opps : list Opp) :
  raw_upsert opps ∈ main.reconcile_and_save supabase results ->
  opps = main.reconcile results /\
  (forall o, o ∈ opps -> exists link, opp_link o = Some link /\ link <> EmptyString) /\
  (forall o, o ∈ main.gather results ->
     opp_link o = None \/ opp_link o = Some EmptyString -> o ∉ opps).
Proof.
  intros Hcall. destruct (reconcile_spec results) as [Hkept _].
  assert (Hopps : opps = main.reconcile results).
  { unfold main.reconcile_and_save in Hcall.
    destruct (main.reconcile results) as [|o0 rest]; [inversion Hcall|].
    unfold db.add_raw_opportunities in Hcall. destruct supabase; simpl in Hcall;
      [|inversion Hcall].
    apply list_elem_of_singleton in Hcall. now injection Hcall. }
  subst opps. split; [reflexivity|]. split.
  - intros o Ho. now destruct (Hkept o Ho).
  - intros o _ Hbad Ho. destruct (Hkept o Ho) as (_ & link & Hlink & Hne).
    destruct Hbad as [Hbad|Hbad]; congruence.
Qed.

(** ** The maintenance sweeper *)

Lemma delete_where_left (select : ProcessedRow -> bool) (table : list ProcessedRow) :
  Forall (fun row => select row = false) (fst (db.delete_where select table)).
Proof.
  unfold db.delete_where. simpl. apply Forall_forall. intros row Hrow.
  now apply list_elem_of_filter in Hrow as [Hsel _].
Qed.

Lemma delete_where_keeps (select : ProcessedRow -> bool) (Q : ProcessedRow -> Prop)
    (table : list ProcessedRow) :
  Forall Q table -> Forall Q (fst (db.delete_where select table)).
Proof.
  unfold db.delete_where. simpl. rewrite !Forall_forall. intros H row Hrow.
  apply list_elem_of_filter in Hrow as [_ Hin]. now apply H.
Qed.

(** A delete whose filter matches no row changes nothing and reports 0. *)
Lemma delete_where_nothing (select : ProcessedRow -> bool) (table : list ProcessedRow) :
  Forall (fun row => select row = false) table ->
  db.delete_where select table = (table, 0%nat).
Proof.
  unfold db.delete_where. induction 1 as [|row table Hrow _ IH]; [reflexivity|].
  rewrite !filter_cons. injection IH as IH1 IH2.
  destruct (decide (select row = false)) as [_|Hn]; [|contradiction].
  destruct (decide (select row = true)) as [Ht|_]; [congruence|].
  rewrite IH1. f_equal. exact IH2.
Qed.

Lemma delete_expired_left (supabase : bool) (now : Dates.datetime)
    (table : list ProcessedRow) :
  supabase = true ->
  Forall (fun row => db.expired_filter (Dates.dt_date now) row = false)
         (fst (db.delete_expired_opportunities supabase now table)).
Proof. intros ->. apply delete_where_left. Qed.

Lemma delete_stale_keeps (supabase : bool) (months : Z) (now : Dates.datetime)
    (Q : ProcessedRow -> Prop) (table : list ProcessedRow) :
  Forall Q table -> Forall Q (fst (db.delete_stale_opportunities supabase months now table)).
Proof.
  intros H. unfold db.delete_stale_opportunities.
  destruct supabase; simpl; [|exact H].
  destruct (Dates.datetime_minus_months now months); [|exact H].
  now apply delete_where_keeps.
Qed.

Lemma delete_expired_twice (supabase : bool) (now : Dates.datetime)
    (table : list ProcessedRow) :
  Forall (fun row => db.expired_filter (Dates.dt_date now) row = false) table ->
  db.delete_expired_opportunities supabase now table = (table, 0%nat).
Proof.
  intros H. unfold db.delete_expired_opportunities.
  destruct supabase; simpl; [|reflexivity]. now apply delete_where_nothing.
Qed.

(** C9. Running the two passes again on the table they left, with the same
    clock readings, deletes nothing; and when the client is there, no row that
    is left has a deadline before today, nor is one left that has no deadline,
    a raw deadline text among the stale keywords and a processing time before
    the cutoff. *)
Theorem sweeper_twice_deletes_nothing (supabase : bool) (now_expired now_stale : Dates.datetime)
    (table : list ProcessedRow) :
  main.run_maintenance_stage supabase now_expired now_stale
    (fst (main.run_maintenance_stage supabase now_expired now_stale table))
  = (fst (main.run_maintenance_stage supabase now_expired now_stale table), (0%nat, 0%nat)) /\
  (supabase = true ->
   forall row, row ∈ fst (main.run_maintenance_stage supabase now_expired now_stale table) ->
     (forall deadline, row_deadline row = Some deadline ->
        Dates.date_ltb deadline (Dates.dt_date now_expired) = false) /\
     (forall cutoff text,
        Dates.datetime_minus_months now_stale config.STALE_OPPORTUNITY_MONTHS = Some cutoff ->
        row_deadline row = None ->
        row_raw_deadline_text row = Some text ->
        In text db.stale_keywords ->
        Dates.datetime_ltb (row_processed_at row) cutoff = false)).
Proof.
  unfold main.run_maintenance_stage.
  destruct (db.delete_expired_opportunities supabase now_expired table)
    as [table1 expired] eqn:H1.
  destruct (db.delete_stale_opportunities supabase config.STALE_OPPORTUNITY_MONTHS
              now_stale table1) as [table2 stale] eqn:H2.
  cbn [fst].
  assert (Hsub : forall Q : ProcessedRow -> Prop, Forall Q table1 -> Forall Q table2).
  { intros Q HQ. replace table2 with
      (fst (db.delete_stale_opportunities supabase config.STALE_OPPORTUNITY_MONTHS
              now_stale table1)) by now rewrite H2.
    now apply delete_stale_keeps. }
  split.
  - assert (Hfirst : db.delete_expired_opportunities supabase now_expired table2
                     = (table2, 0%nat)).
    { destruct supabase eqn:Hdb; [|reflexivity].
      apply delete_expired_twice, Hsub.
      replace table1 with (fst (db.delete_expired_opportunities true now_expired table))
        by now rewrite H1.
      now apply delete_expired_left. }
    rewrite Hfirst.
    assert (Hsecond : db.delete_stale_opportunities supabase config.STALE_OPPORTUNITY_MONTHS
                        now_stale table2 = (table2, 0%nat)).
    { unfold db.delete_stale_opportunities in *.
      destruct supabase; simpl in *; [|reflexivity].
      destruct (Dates.datetime_minus_months now_stale config.STALE_OPPORTUNITY_MONTHS)
        as [cutoff|]; [|reflexivity].
      apply delete_where_nothing.
      replace table2 with (fst (db.delete_where (db.stale_filter cutoff) table1))
        by now rewrite H2.
      apply delete_where_left. }
    now rewrite Hsecond.
  - intros Hdb row Hrow. subst supabase. split.
    + intros deadline Hdeadline.
      assert (Hclean : Forall (fun row => db.expired_filter (Dates.dt_date now_expired) row
                                          = false) table2).
      { apply Hsub.
        replace table1 with (fst (db.delete_expired_opportunities true now_expired table))
          by now rewrite H1.
        now apply delete_expired_left. }
      rewrite Forall_forall in Hclean. specialize (Hclean row Hrow).
      unfold db.expired_filter in Hclean. now rewrite Hdeadline in Hclean.
    + intros cutoff text Hcutoff Hnone Htext Hkw.
      unfold db.delete_stale_opportunities in H2. simpl in H2. rewrite Hcutoff in H2.
      assert (Hclean : Forall (fun row => db.stale_filter cutoff row = false) table2).
      { replace table2 with (fst (db.delete_where (db.stale_filter cutoff) table1))
          by now rewrite H2.
        apply delete_where_left. }
      rewrite Forall_forall in Hclean. specialize (Hclean row Hrow).
      unfold db.stale_filter in Hclean. rewrite Hnone, Htext in Hclean.
      apply andb_false_iff in Hclean as [Hclean|Hclean]; [|exact Hclean].
      apply bool_decide_eq_false in Hclean. exfalso. apply Hclean.
      now apply list_elem_of_In.
Qed.

(** ** The theorems at work on the small world *)

(** a decidable fact about concrete data, settled by evaluation *)
Ltac computed := apply (bool_decide_unpack _); vm_compute; exact I.

Lemma sample_as_completed_perm (A : Type) (l : list A) : sample_as_completed A l ≡ₚ l.
Proof. unfold sample_as_completed. symmetry. apply Permutation_rev. Qed.

Lemma scope_rule_without_target_witness :
  fst (main.is_relevant_for_ethiopia (mk_geo (Some ["Global"; "Kenya"]) (Some ["Somalia"])))
  = false /\
  fst (main.is_relevant_for_ethiopia
         (mk_geo (Some [" GLOBAL"; "East Africa "]) (Some ["Somalia"])))
  = true /\
  fst (main.is_relevant_for_ethiopia (mk_geo (Some []) (Some ["Somalia"]))) = false.
Proof.
  split; [|split].
  - refine (proj1 (scope_rule_without_target
                     (mk_geo (Some ["Global"; "Kenya"]) (Some ["Somalia"])) _ _) _).
    + computed.
    + computed.
    + apply Exists_cons_tl, Exists_cons_hd. computed.
  - refine (proj1 (proj2 (scope_rule_without_target
                            (mk_geo (Some [" GLOBAL"; "East Africa "]) (Some ["Somalia"]))
                            _ _)) _ _).
    + computed.
    + computed.
    + discriminate.
    + repeat constructor; computed.
  - refine (proj2 (proj2 (scope_rule_without_target
                            (mk_geo (Some []) (Some ["Somalia"])) _ _)) _).
    + computed.
    + computed.
    + reflexivity.
Defined.

Lemma geo_failure_marks_irrelevant_witness :
  main.analyze_opportunity true true sample_geo_model sample_enrichment_model
    sample_parse_date sample_today (sample_opp "geo-down")
  = (main.Returned (Some false)
       (Some (mk_update (Some "https://example.org/geo-down") processed_irrelevant)), []).
Proof.
  apply (geo_failure_marks_irrelevant true true sample_geo_model sample_enrichment_model
           sample_parse_date sample_today (sample_opp "geo-down")).
  intros k Hk. reflexivity.
Defined.


(** a string of the small world holds none of the non-date keywords *)
Ltac keyword_free :=
  let keyword := fresh "keyword" in
  let Hin := fresh "Hin" in
  intros keyword Hin;
  repeat (apply elem_of_cons in Hin as [->|Hin]; [vm_compute; reflexivity|]);
  inversion Hin.

Lemma sample_answer_succeeded (focus_areas : list string) (funder deadline : string) :
  enrichment_succeeded
    (sample_answer focus_areas "A health grant." "$10,000" funder deadline).
Proof. exists "A health grant.". repeat split; try reflexivity. discriminate. Qed.

Lemma past_deadline_needs_four_digit_year_witness :
  main.analyze_opportunity true true sample_geo_model sample_enrichment_model
    sample_parse_date sample_today (sample_opp "old")
  = (main.Returned (Some false)
       (Some (mk_update (Some "https://example.org/old") processed_expired)), []) /\
  main.analyze_opportunity true true sample_geo_model sample_enrichment_model
    sample_parse_date sample_today (sample_opp "ancient")
  = (main.Raised, []).
Proof.
  split.
  - refine (proj1 (past_deadline_needs_four_digit_year true true sample_geo_model
                     sample_enrichment_model sample_parse_date sample_today
                     (sample_opp "old")
                     (sample_answer ["Health"] "A health grant." "$10,000" "USAID"
                                    "2024-01-01")
                     "2024-01-01" (Dates.mk_date 2024 1 1) _ _ _ _ _ _ _ _ _) _);
      first [apply sample_answer_succeeded | keyword_free | discriminate
            | vm_compute; reflexivity | simpl; lia].
  - refine (proj2 (past_deadline_needs_four_digit_year true true sample_geo_model
                     sample_enrichment_model sample_parse_date sample_today
                     (sample_opp "ancient")
                     (sample_answer ["Health"] "A health grant." "$10,000" "USAID"
                                    "0199-01-01")
                     "0199-01-01" (Dates.mk_date 199 1 1) _ _ _ _ _ _ _ _ _) _);
      first [apply sample_answer_succeeded | keyword_free | discriminate
            | vm_compute; reflexivity | simpl; lia].
Defined.

Lemma deadline_normalization_outcomes_witness :
  main.validate_and_clean_deadline sample_parse_date (JString "Rolling basis")
  = Returns None /\
  main.validate_and_clean_deadline sample_parse_date (JString "next week") = Returns None /\
  main.validate_and_clean_deadline sample_parse_date (JString "99999999999999999999")
  = Raises /\
  main.analyze_opportunity true true sample_geo_model sample_enrichment_model
    sample_parse_date sample_today (sample_opp "overflow")
  = (main.Raised, []).
Proof.
  pose proof (deadline_normalization_outcomes true true sample_geo_model
                sample_enrichment_model sample_parse_date sample_today)
    as (Hkeyword & Hrejected & Hescapes & _).
  split; [|split].
  - apply (Hkeyword "Rolling basis" "rolling" EmptyString "Rolling" " basis");
      [left | reflexivity | reflexivity].
  - apply Hrejected. vm_compute. reflexivity.
  - assert (Hparse : sample_parse_date "99999999999999999999" = main.Escapes)
      by (vm_compute; reflexivity).
    destruct (Hescapes "99999999999999999999" ltac:(discriminate) ltac:(keyword_free)
                Hparse) as [Hraise Hworker].
    split; [exact Hraise|].
    apply (Hworker (sample_opp "overflow")
             (sample_answer ["Health"] "A health grant." "$10,000" "USAID"
                            "99999999999999999999"));
      first [apply sample_answer_succeeded | vm_compute; reflexivity].
Defined.

Lemma one_bulk_update_per_run_witness :
  exists records updates,
    main.run_processor_stage true true sample_geo_model sample_enrichment_model
      sample_parse_date sample_today sample_as_completed sample_raw_table
    = (main.mk_state 4 1 updates,
       (map processed_upsert records ++ bulk_call_for updates)%list) /\
    length records = 1%nat /\ length updates = 4%nat.
Proof.
  apply (one_bulk_update_per_run true true sample_geo_model sample_enrichment_model
           sample_parse_date sample_today sample_as_completed sample_as_completed_perm
           sample_raw_table 1 3).
  - vm_compute. reflexivity.
  - vm_compute. reflexivity.
  - repeat constructor.
Defined.

Lemma reconciliation_keeps_first_new_witness :
  main.run_collector_stage true sample_as_completed sample_title_from_slug
    sample_web sample_existing_links
  = [raw_upsert
       [mk_opp "Cross-posted call" (Some "https://a.org/1") "Opportunities For Youth"
               "Body." None;
        mk_opp "Cross-posted call" (Some "https://b.org/7") "Opportunities For Youth"
               "Body." None]] /\
  forall o link,
    o ∈ main.reconcile (sample_as_completed _
          (main.scraper_results sample_title_from_slug sample_web sample_existing_links)) ->
    opp_link o = Some link -> link ∉ sample_existing_links.
Proof.
  split; [vm_compute; reflexivity|].
  refine (proj2 (proj2 (proj1 (proj2
            (reconciliation_keeps_first_new true sample_as_completed
               sample_title_from_slug sample_as_completed_perm sample_web
               sample_existing_links)) _ _))).
  vm_compute. left.
Defined.

Lemma saved_records_have_links_witness :
  raw_upsert [mk_opp "First" (Some "https://c.org/1") "Opportunity Desk" "Text." None]
    ∈ main.reconcile_and_save true sample_results /\
  Forall (fun o => exists link, opp_link o = Some link /\ link <> EmptyString)
    [mk_opp "First" (Some "https://c.org/1") "Opportunity Desk" "Text." None].
Proof.
  assert (Hcall : raw_upsert
                    [mk_opp "First" (Some "https://c.org/1") "Opportunity Desk" "Text." None]
                  ∈ main.reconcile_and_save true sample_results)
    by (vm_compute; left).
  split; [exact Hcall|]. apply Forall_forall.
  exact (proj1 (proj2 (saved_records_have_links true sample_results _ Hcall))).
Defined.

(** The batch of a run over the item whose geographic-scope call is down:
    the item is marked irrelevant in the raw store. *)
Example geo_failure_is_committed :
  main.run_processor_stage true true sample_geo_model sample_enrichment_model
    sample_parse_date sample_today sample_as_completed [sample_opp "geo-down"]
  = (main.mk_state 1 0
       [mk_update (Some "https://example.org/geo-down") processed_irrelevant],
     [rpc_bulk_update_raw_status
        [mk_update (Some "https://example.org/geo-down") processed_irrelevant]]).
Proof. vm_compute. reflexivity. Qed.

(** The same run over the item whose enrichment call is down: nothing is
    sent, the item stays pending. *)
Example enrichment_failure_is_retried :
  main.run_processor_stage true true sample_geo_model sample_enrichment_model
    sample_parse_date sample_today sample_as_completed [sample_opp "enr-down"]
  = (main.mk_state 1 0 [], []).
Proof. vm_compute. reflexivity. Qed.

(** The scenario of the specification: East Africa eligible, Somalia excluded. *)
Example east_africa_is_relevant :
  main.is_relevant_for_ethiopia (mk_geo (Some ["East Africa"]) (Some ["Somalia"]))
  = (true, main.GeneralScope ["east africa"]).
Proof. vm_compute. reflexivity. Qed.

Example keywords_have_no_deadline :
  map (fun s => main.validate_and_clean_deadline sample_parse_date (JString s))
      ["2025-03-31"; "Rolling"; "Not Specified"; "N/A"; "Error"; "2025-02-30";
       "0199-01-01"; "99999999999999999999"]
  = [Returns (Some "2025-03-31"); Returns None; Returns None; Returns None; Returns None;
     Returns None; Returns (Some "199-01-01"); Raises].
Proof. vm_compute. reflexivity. Qed.

(** A run over the items whose deadline lies in the year 199, is a number
    of twenty digits, or comes with null focus areas or a null summary: each
    worker raises, nothing is sent, the items stay pending. *)
Example raising_workers_leave_items_pending :
  main.run_processor_stage true true sample_geo_model sample_enrichment_model
    sample_parse_date sample_today sample_as_completed
    [sample_opp "ancient"; sample_opp "overflow"; sample_opp "null-areas";
     sample_opp "null-summary"]
  = (main.mk_state 4 0 [], []).
Proof. vm_compute. reflexivity. Qed.

Example sweep_then_sweep :
  main.run_maintenance_stage true sample_now sample_now sample_processed_table
  = ([mk_row "https://a.org/2" (Some (Dates.mk_date 2025 6 15)) (Some "2025-06-15")
             (Dates.mk_datetime (Dates.mk_date 2025 1 1) 0);
      mk_row "https://a.org/4" None (Some "Not Specified")
             (Dates.mk_datetime (Dates.mk_date 2024 9 15) 1000);
      mk_row "https://a.org/5" None (Some "Rolling")
             (Dates.mk_datetime (Dates.mk_date 2020 9 15) 1000)],
     (1%nat, 1%nat)).
Proof. vm_compute. reflexivity. Qed.

(** * More properties of the code *)

(** ** The retry loop *)

Lemma retry_loop_some {A : Type} (g : nat -> ai_analyzer.attempt A) (i n : nat)
    (text : ai_analyzer.body A) :
  ai_analyzer.retry_loop g i n = Some text <->
  exists k, (i <= k < i + n)%nat /\ g k = ai_analyzer.ApiText text /\
            forall j, (i <= j < k)%nat -> g j = ai_analyzer.ApiError.
Proof.
  revert i. induction n as [|n IH]; intros i; simpl.
  - split; [discriminate | intros (k & Hk & _); lia].
  - destruct (g i) as [|t] eqn:Hi.
    + rewrite IH. split; intros (k & Hk & Hans & Hbefore); exists k.
      * split; [lia|]. split; [exact Hans|]. intros j Hj.
        destruct (decide (j = i)) as [->|Hne]; [exact Hi | apply Hbefore; lia].
      * assert (k <> i) by congruence.
        split; [lia|]. split; [exact Hans|]. intros j Hj. apply Hbefore. lia.
    + split.
      * intros [= <-]. exists i. split; [lia|]. split; [exact Hi|]. intros j Hj. lia.
      * intros (k & Hk & Hans & Hbefore). destruct (decide (k = i)) as [->|Hne].
        -- congruence.
        -- assert (Hfail : g i = ai_analyzer.ApiError) by (apply Hbefore; lia). congruence.
Qed.

Lemma retry_loop_none {A : Type} (g : nat -> ai_analyzer.attempt A) (i n : nat) :
  ai_analyzer.retry_loop g i n = None <->
  forall k, (i <= k < i + n)%nat -> g k = ai_analyzer.ApiError.
Proof.
  split; [|apply retry_loop_all_fail].
  revert i. induction n as [|n IH]; intros i; simpl; [intros _ k Hk; lia|].
  destruct (g i) as [|t] eqn:Hi; [|discriminate].
  intros H k Hk. destruct (decide (k = i)) as [->|Hne]; [exact Hi|].
  apply (IH (S i) H). lia.
Qed.

(** X1. [_call_gemini_with_retry] returns the text of the first attempt
    that succeeds among the first three, returns [None] exactly when all
    three fail, and never makes a fourth attempt. *)
Theorem call_returns_first_answer {A : Type} (g : nat -> ai_analyzer.attempt A) :
  (forall text,
     ai_analyzer._call_gemini_with_retry g = Some text <->
     exists k, (k < 3)%nat /\ g k = ai_analyzer.ApiText text /\
               forall j, (j < k)%nat -> g j = ai_analyzer.ApiError) /\
  (ai_analyzer._call_gemini_with_retry g = None <->
   forall k, (k < 3)%nat -> g k = ai_analyzer.ApiError) /\
  (forall g' : nat -> ai_analyzer.attempt A,
     (forall k, (k < 3)%nat -> g' k = g k) ->
     ai_analyzer._call_gemini_with_retry g' = ai_analyzer._call_gemini_with_retry g).
Proof.
  unfold ai_analyzer._call_gemini_with_retry, ai_analyzer.retries. split; [|split].
  - intros text. rewrite retry_loop_some. split; intros (k & Hk & Hans & Hbefore); exists k.
    + split; [lia|]. split; [exact Hans|]. intros j Hj. apply Hbefore. lia.
    + split; [lia|]. split; [exact Hans|]. intros j Hj. apply Hbefore. lia.
  - rewrite retry_loop_none. split; intros H k Hk; apply H; lia.
  - intros g' Hsame. simpl. rewrite !Hsame by lia.
    destruct (g 0%nat); [|reflexivity]. destruct (g 1%nat); [|reflexivity]. reflexivity.
Qed.

Lemma backoff_loop_result {A : Type} (g : nat -> backoff.attempt A) (i n : nat) (delay : Z) :
  fst (backoff.retry_loop g i n delay)
  = ai_analyzer.retry_loop (fun k => backoff.forget (g k)) i n.
Proof.
  revert i delay. induction n as [|n IH]; intros i delay; simpl; [reflexivity|].
  destruct (g i) as [e|e|text]; simpl; [| |reflexivity].
  - destruct (backoff.handle e delay) as [wait delay'].
    specialize (IH (S i) delay').
    destruct (backoff.retry_loop g (S i) n delay') as [result sleeps]. exact IH.
  - destruct (backoff.handle e delay) as [wait delay'].
    specialize (IH (S i) delay').
    destruct (backoff.retry_loop g (S i) n delay') as [result sleeps]. exact IH.
Qed.

(** one failure kind is not a server-suggested wait *)
Ltac no_suggestion Hno k :=
  match goal with
  | H : ?g k = backoff.Fails (backoff.RateLimited (Some ?s)) |- _ =>
      exfalso; apply (Hno k s); [lia | left; exact H]
  | H : ?g k = backoff.Unreadable (backoff.RateLimited (Some ?s)) |- _ =>
      exfalso; apply (Hno k s); [lia | right; exact H]
  end.

(** X2. The loop with its waits returns what the loop without them returns;
    and when the server suggests no wait, a call sleeps between 1 and 20
    seconds at a time and at most 38 seconds in all (5, 10 and 20 between the
    attempts, one second after each response). *)
Theorem backoff_is_bounded {A : Type} (g : nat -> backoff.attempt A) :
  (forall k seconds, (k < 3)%nat ->
     ~ (g k = backoff.Fails (backoff.RateLimited (Some seconds)) \/
        g k = backoff.Unreadable (backoff.RateLimited (Some seconds)))) ->
  fst (backoff._call_gemini_with_retry g)
  = ai_analyzer._call_gemini_with_retry (fun k => backoff.forget (g k)) /\
  Forall (fun seconds => 1 <= seconds <= 20) (snd (backoff._call_gemini_with_retry g)) /\
  backoff.total (snd (backoff._call_gemini_with_retry g)) <= 38.
Proof.
  intros Hno. split; [apply backoff_loop_result|].
  unfold backoff._call_gemini_with_retry, ai_analyzer.retries, backoff.base_delay.
  simpl.
  destruct (g 0%nat) as [[[s0|]|]|[[s0|]|]|t0] eqn:H0; try no_suggestion Hno 0%nat;
    simpl;
    try (destruct (g 1%nat) as [[[s1|]|]|[[s1|]|]|t1] eqn:H1; try no_suggestion Hno 1%nat;
         simpl;
         try (destruct (g 2%nat) as [[[s2|]|]|[[s2|]|]|t2] eqn:H2;
              try no_suggestion Hno 2%nat; simpl));
    (split; [repeat constructor; lia | unfold backoff.total; simpl; lia]).
Qed.

(** ** The two classifier tasks *)

(** X3. [get_geographic_scope] always returns both lists: the object the
    classifier answered when it has both keys, and two empty lists in every
    other case (no model, failed call, empty text, no JSON, malformed JSON, a
    missing key). *)
Theorem geographic_scope_has_both_keys (ai_model : bool)
    (geo_model : string -> string -> nat -> ai_analyzer.attempt GeoData)
    (title text_content : string) :
  (exists eligible excluded,
     ai_analyzer.get_geographic_scope ai_model geo_model title text_content
     = mk_geo (Some eligible) (Some excluded)) /\
  (ai_analyzer.get_geographic_scope ai_model geo_model title text_content
   = ai_analyzer.empty_geo \/
   ai_model = true /\
   ai_analyzer._call_gemini_with_retry (geo_model title (PyStr.take 3000 text_content))
   = Some (ai_analyzer.JsonObject
             (ai_analyzer.get_geographic_scope ai_model geo_model title text_content))).
Proof.
  unfold ai_analyzer.get_geographic_scope. destruct ai_model; simpl.
  2: { split; [now exists [], [] | now left]. }
  destruct (ai_analyzer._call_gemini_with_retry _) as [[| | |[[el|] [ex|]]]|];
    simpl; try (split; [now exists [], [] | now left]).
  split; [now exists el, ex | right; now split].
Qed.

Lemma take_all (n : nat) (s : string) :
  (String.length s <= n)%nat -> PyStr.take n s = s.
Proof.
  revert n. induction s as [|c s IH]; intros n Hlen.
  - now destruct n.
  - destruct n as [|n]; simpl in *; [lia|]. rewrite IH by lia. reflexivity.
Qed.

Lemma length_take (n : nat) (s : string) : (String.length (PyStr.take n s) <= n)%nat.
Proof.
  revert s. induction n as [|n IH]; intros s; [reflexivity|].
  destruct s as [|c s]; simpl; [lia|]. specialize (IH s). lia.
Qed.

(** What [trim_focus_areas] returns has at most three focus areas. *)
Lemma trim_at_most_three (data trimmed : EnrichmentData) :
  ai_analyzer.trim_focus_areas data = Returns trimmed ->
  exists n,
    PyJson.len (get_default (enr_focus_areas trimmed) (JArray [])) = Some n /\ (n <= 3)%nat.
Proof.
  unfold ai_analyzer.trim_focus_areas.
  destruct (PyJson.len (get_default (enr_focus_areas data) (JArray []))) as [n|] eqn:Hlen;
    [|discriminate].
  destruct (3 <? n)%nat eqn:Hmany.
  - destruct (get_default (enr_focus_areas data) (JArray [])) as [| | |s|items|members];
      try discriminate; cbn [PyJson.slice]; intros [= <-]; cbn [enr_focus_areas get_default PyJson.len].
    + eexists. split; [reflexivity | exact (length_take 3 s)].
    + eexists. split; [reflexivity|]. rewrite length_firstn. lia.
  - intros [= <-]. exists n. split; [exact Hlen|]. now apply Nat.ltb_ge in Hmany.
Qed.

(** X4. What [get_enrichment_data] returns never holds more than three
    focus areas, as [len] counts them. Of an answered object whose focus
    areas are a list it keeps the first three in their order, of a string the
    first three characters, and every other field as answered; an object
    without the key, or with at most three members under it, is returned as
    answered. For focus areas that are null, a truth value, a number or an
    object of more than three members the function raises: the TypeError is
    not the JSONDecodeError its handler catches. *)
Theorem enrichment_keeps_three_focus_areas (ai_model : bool)
    (enrichment_model : string -> string -> nat -> ai_analyzer.attempt EnrichmentData)
    (title text_content : string) :
  (forall result,
     ai_analyzer.get_enrichment_data ai_model enrichment_model title text_content
     = Returns result ->
     exists n,
       PyJson.len (get_default (enr_focus_areas result) (JArray [])) = Some n /\
       (n <= 3)%nat) /\
  (forall data,
     ai_model = true ->
     ai_analyzer._call_gemini_with_retry (enrichment_model title (PyStr.take 4000 text_content))
     = Some (ai_analyzer.JsonObject data) ->
     (forall items,
        enr_focus_areas data = Some (JArray items) ->
        ai_analyzer.get_enrichment_data ai_model enrichment_model title text_content
        = Returns (mk_enrichment (Some (JArray (firstn 3 items))) (enr_summary data)
                     (enr_funding_amount data) (enr_funder data) (enr_deadline data))) /\
     (forall s,
        enr_focus_areas data = Some (JString s) ->
        ai_analyzer.get_enrichment_data ai_model enrichment_model title text_content
        = Returns (mk_enrichment (Some (JString (PyStr.take 3 s))) (enr_summary data)
                     (enr_funding_amount data) (enr_funder data) (enr_deadline data))) /\
     (enr_focus_areas data = None ->
      ai_analyzer.get_enrichment_data ai_model enrichment_model title text_content
      = Returns data) /\
     (forall members,
        enr_focus_areas data = Some (JObject members) ->
        ai_analyzer.get_enrichment_data ai_model enrichment_model title text_content
        = if (3 <? length members)%nat then Raises else Returns data) /\
     (enr_focus_areas data = Some JNull \/
      (exists b, enr_focus_areas data = Some (JBool b)) \/
      (exists nonzero literal, enr_focus_areas data = Some (JNumber nonzero literal)) ->
      ai_analyzer.get_enrichment_data ai_model enrichment_model title text_content
      = Raises)).
Proof.
  split.
  - intros result. unfold ai_analyzer.get_enrichment_data.
    destruct ai_model; cbn [negb].
    2: { intros [= <-]. exists 0%nat. split; [reflexivity | lia]. }
    destruct (ai_analyzer._call_gemini_with_retry _) as [[| | |data]|];
      try (intros [= <-]; exists 0%nat; split; [reflexivity | lia]).
    apply trim_at_most_three.
  - intros data -> Hcall. unfold ai_analyzer.get_enrichment_data. cbn [negb].
    rewrite Hcall. unfold ai_analyzer.trim_focus_areas.
    destruct data as [focus summary funding funder deadline]. cbn [enr_focus_areas
      enr_summary enr_funding_amount enr_funder enr_deadline].
    split; [|split; [|split; [|split]]].
    + intros items ->. cbn [get_default PyJson.len PyJson.slice].
      destruct (3 <? length items)%nat eqn:Hmany; [reflexivity|].
      apply Nat.ltb_ge in Hmany. now rewrite firstn_all2.
    + intros s ->. cbn [get_default PyJson.len PyJson.slice].
      destruct (3 <? String.length s)%nat eqn:Hmany; [reflexivity|].
      apply Nat.ltb_ge in Hmany. now rewrite take_all.
    + intros ->. reflexivity.
    + intros members ->. cbn [get_default PyJson.len PyJson.slice].
      now destruct (3 <? length members)%nat.
    + intros [->|[[b ->]|(nonzero & literal & ->)]]; reflexivity.
Qed.

(** ** The worker and the run, whatever the outcomes *)

Lemma bulk_update_with_client (client : bool) (updates : list StatusUpdate) :
  client = true ->
  db.bulk_update_raw_opportunity_statuses client updates = bulk_call_for updates.
Proof. now intros ->. Qed.


Section WorkerMore.
Variable supabase : bool.
Variable ai_model : bool.
Variable geo_model : string -> string -> nat -> ai_analyzer.attempt GeoData.
Variable enrichment_model : string -> string -> nat -> ai_analyzer.attempt EnrichmentData.
Variable parse_date : string -> main.parse_result.
Variable today : Dates.date.

Local Abbreviation analyze_opportunity :=
  (main.analyze_opportunity supabase ai_model geo_model enrichment_model parse_date today).
Local Abbreviation geo_data_of := (main.geo_data_of ai_model geo_model).
Local Abbreviation enrichment_data_of := (main.enrichment_data_of ai_model enrichment_model).
Local Abbreviation validate_and_clean_deadline := (main.validate_and_clean_deadline parse_date).

(** what a status update of the worker looks like *)
Lemma returned_update (opp : Opp) (upd : StatusUpdate) :
  status_update_of (fst (analyze_opportunity opp)) = Some upd ->
  upd_link upd = opp_link opp /\ upd_status upd <> pending_analysis.
Proof.
  destruct (analyze_outcomes supabase ai_model geo_model enrichment_model parse_date today opp)
    as [H|[H|[H|[H|[H|[r H]]]]]]; rewrite H; simpl; intros [= <-]; split;
    try reflexivity; discriminate.
Qed.

Lemma calls_need_acceptance (opp : Opp) :
  snd (analyze_opportunity opp) <> [] ->
  fst (analyze_opportunity opp)
  = main.Returned (Some true) (Some (mk_update (opp_link opp) processed_relevant)).
Proof.
  destruct (analyze_outcomes supabase ai_model geo_model enrichment_model parse_date today opp)
    as [H|[H|[H|[H|[H|[r H]]]]]]; rewrite H; simpl; intros Hcalls;
    try contradiction; reflexivity.
Qed.

(** X5. The worker writes last. A status update it returns is for the link
    of its item and never sets [pending_analysis]; it sends a call to the
    processed store only when it returns the acceptance; and when it raises
    it has sent nothing. Past the geography rule it does raise when
    [get_enrichment_data] raises, and when the summary of the answer is null,
    a truth value or a number, which [in] cannot search. *)
Theorem worker_raises_before_it_writes (opp : Opp) :
  (forall upd,
     status_update_of (fst (analyze_opportunity opp)) = Some upd ->
     upd_link upd = opp_link opp /\ upd_status upd <> pending_analysis) /\
  (snd (analyze_opportunity opp) <> [] ->
   fst (analyze_opportunity opp)
   = main.Returned (Some true) (Some (mk_update (opp_link opp) processed_relevant))) /\
  (fst (analyze_opportunity opp) = main.Raised -> snd (analyze_opportunity opp) = []) /\
  (fst (main.is_relevant_for_ethiopia (geo_data_of opp)) = true ->
   (enrichment_data_of opp = Raises -> analyze_opportunity opp = (main.Raised, [])) /\
   (forall data,
      enrichment_data_of opp = Returns data ->
      enr_summary data = Some JNull \/
      (exists b, enr_summary data = Some (JBool b)) \/
      (exists nonzero literal, enr_summary data = Some (JNumber nonzero literal)) ->
      analyze_opportunity opp = (main.Raised, []))).
Proof.
  split; [apply returned_update|]. split; [apply calls_need_acceptance|]. split.
  - destruct (analyze_outcomes supabase ai_model geo_model enrichment_model parse_date
                today opp) as [H|[H|[H|[H|[H|[r H]]]]]]; rewrite H; cbn [fst snd];
      first [discriminate | reflexivity].
  - intros Hgeo. split.
    + intros Hraises. unfold main.analyze_opportunity. past_geography Hgeo.
      now rewrite Hraises.
    + intros data Hdata Hsummary. unfold main.analyze_opportunity. past_geography Hgeo.
      rewrite Hdata. unfold main.failed_temporarily.
      destruct Hsummary as [->|[[b ->]|(nonzero & literal & ->)]]; reflexivity.
Qed.

(** X6. For an item the geography rule let through, what the enrichment
    call brought back decides the outcome: exhausted retries and an empty
    text leave the item for the next run; a text without a JSON object or
    with malformed JSON ends in [processed_ai_error]; in all four cases
    nothing is written. *)
Theorem enrichment_answer_decides (opp : Opp) :
  fst (main.is_relevant_for_ethiopia (geo_data_of opp)) = true ->
  ((ai_analyzer._call_gemini_with_retry
      (enrichment_model (opp_title opp) (PyStr.take 4000 (opp_full_text opp))) = None \/
    ai_analyzer._call_gemini_with_retry
      (enrichment_model (opp_title opp) (PyStr.take 4000 (opp_full_text opp)))
    = Some ai_analyzer.EmptyText) ->
   analyze_opportunity opp = (main.Returned None None, [])) /\
  ((ai_analyzer._call_gemini_with_retry
      (enrichment_model (opp_title opp) (PyStr.take 4000 (opp_full_text opp)))
    = Some ai_analyzer.NoJsonObject \/
    ai_analyzer._call_gemini_with_retry
      (enrichment_model (opp_title opp) (PyStr.take 4000 (opp_full_text opp)))
    = Some ai_analyzer.MalformedJson) ->
   analyze_opportunity opp
   = (main.Returned (Some false) (Some (mk_update (opp_link opp) processed_ai_error)), [])).
Proof.
  intros Hgeo. pose proof (relevant_needs_model ai_model geo_model opp Hgeo) as Hai.
  split; intros Hcall; unfold main.analyze_opportunity; past_geography Hgeo;
    unfold main.enrichment_data_of, ai_analyzer.get_enrichment_data;
    rewrite Hai; cbn [negb]; destruct Hcall as [Hcall|Hcall]; rewrite Hcall; reflexivity.
Qed.

End WorkerMore.

Section ProcessorMore.
Variable supabase : bool.
Variable ai_model : bool.
Variable geo_model : string -> string -> nat -> ai_analyzer.attempt GeoData.
Variable enrichment_model : string -> string -> nat -> ai_analyzer.attempt EnrichmentData.
Variable parse_date : string -> main.parse_result.
Variable today : Dates.date.
Variable as_completed : forall A : Type, list A -> list A.
Hypothesis as_completed_perm : forall (A : Type) (l : list A), as_completed A l ≡ₚ l.

Local Abbreviation analyze_opportunity :=
  (main.analyze_opportunity supabase ai_model geo_model enrichment_model parse_date today).
Local Abbreviation run_processor_stage :=
  (main.run_processor_stage supabase ai_model geo_model enrichment_model parse_date today
     as_completed).

(** The loop over finished futures, whatever they returned. *)
Lemma processor_loop_any (fs : list (main.analysis * list db_call))
    (st : main.processor_state) :
  supabase = true ->
  Forall (fun f => exists opp, f = analyze_opportunity opp) fs ->
  exists records,
    fold_left main.processor_step (map fst fs) st
    = main.mk_state (main.processed_count st + length fs)
                    (main.relevant_count st + length records)
                    (main.status_updates_to_commit st
                     ++ omap status_update_of (map fst fs)) /\
    concat (map snd fs) = map processed_upsert records /\
    length records = length (filter (fun f => accepted (fst f) = true) fs).
Proof.
  intros Hdb Hall. revert st.
  induction Hall as [|f fs [opp Hf] _ IH]; intros st.
  - exists []. simpl. rewrite !Nat.add_0_r, app_nil_r. now destruct st.
  - destruct (analyze_outcomes supabase ai_model geo_model enrichment_model parse_date
                today opp) as [H|[H|[H|[H|[H|[r H]]]]]];
      rewrite <- Hf in H; rewrite H;
      cbn [map fst snd fold_left concat main.processor_step];
      match goal with
      | |- context [fold_left _ _ ?st'] =>
          destruct (IH st') as (records & Hfold & Hcalls & Hrec)
      end;
      rewrite Hfold, Hcalls, !filter_cons; simpl.
    1-5: exists records.
    6: exists (r :: records).
    all: rewrite <- ?app_assoc; simpl; repeat split; try (f_equal; lia); try lia.
    unfold db.add_processed_opportunity. now rewrite Hdb.
Qed.

Lemma futures_are_analyses (pending : list Opp) :
  Forall (fun f => exists opp, f = analyze_opportunity opp)
         (as_completed _ (map analyze_opportunity pending)).
Proof.
  apply Forall_forall. intros f Hf. rewrite as_completed_perm in Hf.
  apply list_elem_of_In, in_map_iff in Hf as (opp & <- & _). now exists opp.
Qed.

(** X7. Every run, whatever its items end in and in whatever order they
    finish: [processed_count] is the number of pending items,
    [relevant_count] the number of accepted ones, the store gets one upsert
    per accepted item and then the bulk update, absent for an empty batch;
    the batch holds the status updates the workers returned, no other. *)
Theorem run_has_one_shape (raw_table : list Opp) :
  exists records updates,
    run_processor_stage raw_table
    = (main.mk_state (length (db.get_pending_opportunities supabase raw_table))
                     (length records) updates,
       (map processed_upsert records ++ bulk_call_for updates)%list) /\
    length records
    = length (filter (fun opp => accepted (fst (analyze_opportunity opp)) = true)
                     (db.get_pending_opportunities supabase raw_table)) /\
    updates ≡ₚ omap (fun opp => status_update_of (fst (analyze_opportunity opp)))
                    (db.get_pending_opportunities supabase raw_table).
Proof.
  unfold main.run_processor_stage.
  destruct (db.get_pending_opportunities supabase raw_table) as [|opp0 opps] eqn:Hpending.
  - exists [], []. now simpl.
  - assert (Hdb : supabase = true).
    { apply (pending_needs_client supabase raw_table). now rewrite Hpending. }
    set (pending := opp0 :: opps) in *.
    set (fs := as_completed _ (map analyze_opportunity pending)).
    assert (Hperm : fs ≡ₚ map analyze_opportunity pending) by apply as_completed_perm.
    destruct (processor_loop_any fs (main.mk_state 0 0 []) Hdb (futures_are_analyses pending))
      as (records & Hfold & Hcalls & Hrec).
    exists records, (omap status_update_of (map fst fs)).
    rewrite Hfold, Hcalls, (bulk_update_with_client _ _ Hdb). simpl.
    split; [|split].
    + f_equal. f_equal. rewrite (Permutation_length Hperm). now rewrite length_map.
    + rewrite Hrec, (count_perm _ _ _ Hperm). apply count_map.
    + rewrite omap_map, (omap_Permutation _ _ _ Hperm), omap_map. reflexivity.
Qed.

(** X8. A run only touches rows that were pending: every entry of its batch
    carries the link of a row of the raw table whose status was
    [pending_analysis], and sets a status other than [pending_analysis]. *)
Theorem batch_touches_only_pending (raw_table : list Opp) (upd : StatusUpdate) :
  upd ∈ main.status_updates_to_commit (fst (run_processor_stage raw_table)) ->
  exists opp,
    opp ∈ raw_table /\ opp_status opp = Some pending_analysis /\
    upd_link upd = opp_link opp /\ upd_status upd <> pending_analysis.
Proof.
  intros Hin.
  rewrite (run_commits_what_workers_return supabase ai_model geo_model enrichment_model
             parse_date today as_completed as_completed_perm raw_table) in Hin.
  apply list_elem_of_omap in Hin as (opp & Hopp & Hupd).
  exists opp. apply returned_update in Hupd as [Hlink Hstatus].
  unfold db.get_pending_opportunities in Hopp.
  destruct supabase; simpl in Hopp; [|inversion Hopp].
  apply list_elem_of_filter in Hopp as [Hpending Hopp].
  repeat split; try assumption.
  unfold db.is_pending in Hpending.
  destruct (opp_status opp) as [[]|]; try discriminate. reflexivity.
Qed.

End ProcessorMore.

(** X9. Without a configured model ([ai_model] is [None]) a run asks the
    classifier nothing and still empties the queue: every pending item is
    committed as [processed_irrelevant] and nothing is written to the
    processed store. *)
Theorem no_model_discards_the_queue (supabase : bool)
    (geo_model : string -> string -> nat -> ai_analyzer.attempt GeoData)
    (enrichment_model : string -> string -> nat -> ai_analyzer.attempt EnrichmentData)
    (parse_date : string -> main.parse_result) (today : Dates.date)
    (as_completed : forall A : Type, list A -> list A) (raw_table : list Opp) :
  (forall (A : Type) (l : list A), as_completed A l ≡ₚ l) ->
  exists updates,
    main.run_processor_stage supabase false geo_model enrichment_model parse_date today
      as_completed raw_table
    = (main.mk_state (length (db.get_pending_opportunities supabase raw_table)) 0 updates,
       bulk_call_for updates) /\
    updates ≡ₚ map (fun opp => mk_update (opp_link opp) processed_irrelevant)
                   (db.get_pending_opportunities supabase raw_table).
Proof.
  intros Hperm.
  assert (Hworker : forall opp,
    main.analyze_opportunity supabase false geo_model enrichment_model parse_date today opp
    = (main.Returned (Some false) (Some (mk_update (opp_link opp) processed_irrelevant)), []))
    by reflexivity.
  unfold main.run_processor_stage.
  destruct (db.get_pending_opportunities supabase raw_table) as [|opp0 opps] eqn:Hpending.
  - exists []. now simpl.
  - assert (Hdb : supabase = true).
    { apply (pending_needs_client supabase raw_table). now rewrite Hpending. }
    set (pending := opp0 :: opps) in *.
    set (fs := as_completed _
                 (map (main.analyze_opportunity supabase false geo_model enrichment_model
                         parse_date today) pending)).
    assert (Hfs : fs ≡ₚ map (fun opp =>
                    (main.Returned (Some false)
                       (Some (mk_update (opp_link opp) processed_irrelevant)),
                     @nil db_call)) pending).
    { unfold fs. rewrite Hperm.
      rewrite (List.map_ext _ (fun opp =>
                 (main.Returned (Some false)
                    (Some (mk_update (opp_link opp) processed_irrelevant)),
                  @nil db_call)) Hworker).
      reflexivity. }
    assert (Hshape : forall gs st,
      Forall (fun f => exists opp,
                f = (main.Returned (Some false)
                       (Some (mk_update (opp_link opp) processed_irrelevant)),
                     @nil db_call)) gs ->
      fold_left main.processor_step (map fst gs) st
      = main.mk_state (main.processed_count st + length gs) (main.relevant_count st)
          (main.status_updates_to_commit st ++ omap status_update_of (map fst gs)) /\
      concat (map snd gs) = []).
    { induction gs as [|g gs IH]; intros st Hall.
      - simpl. rewrite Nat.add_0_r, app_nil_r. now destruct st.
      - inversion Hall as [|? ? [opp ->] Hrest]; subst. simpl.
        destruct (IH (main.mk_state (S (main.processed_count st)) (main.relevant_count st)
                        (main.status_updates_to_commit st
                         ++ [mk_update (opp_link opp) processed_irrelevant])) Hrest)
          as [Hfold Hcalls].
        rewrite Hfold, Hcalls. simpl. rewrite <- app_assoc. split; [|reflexivity].
        f_equal. lia. }
    assert (Hall : Forall (fun f => exists opp,
                f = (main.Returned (Some false)
                       (Some (mk_update (opp_link opp) processed_irrelevant)),
                     @nil db_call)) fs).
    { apply Forall_forall. intros f Hf. rewrite Hfs in Hf.
      apply list_elem_of_In, in_map_iff in Hf as (opp & <- & _). now exists opp. }
    destruct (Hshape fs (main.mk_state 0 0 []) Hall) as [Hfold Hcalls].
    exists (omap status_update_of (map fst fs)).
    rewrite Hfold, Hcalls, (bulk_update_with_client _ _ Hdb). simpl.
    split.
    + f_equal. f_equal. rewrite (Permutation_length Hfs). now rewrite length_map.
    + rewrite omap_map, (omap_Permutation _ _ _ Hfs), omap_map. simpl.
      generalize pending. intros l.
      induction l as [|opp l IH]; [reflexivity|]. simpl. now rewrite IH.
Qed.

(** ** The collector, once more *)

(** The loop keeps a sublist of what it is given, with pairwise distinct
    links. *)
Lemma dedup_loop_distinct (opps unique : list Opp) (seen : gset string) :
  exists kept,
    fst (main.dedup_loop opps unique seen) = (unique ++ kept)%list /\
    sublist kept opps /\
    NoDup (map opp_link kept) /\
    (forall o, o ∈ kept -> exists link, opp_link o = Some link /\ link ∉ seen).
Proof.
  revert unique seen. induction opps as [|opp rest IH]; intros unique seen.
  - exists []. simpl. rewrite app_nil_r. split; [reflexivity|]. split; [constructor|].
    split; [constructor|]. intros o Ho. inversion Ho.
  - assert (Hskip : exists kept,
              fst (main.dedup_loop rest unique seen) = (unique ++ kept)%list /\
              sublist kept (opp :: rest) /\
              NoDup (map opp_link kept) /\
              (forall o, o ∈ kept -> exists link, opp_link o = Some link /\ link ∉ seen)).
    { destruct (IH unique seen) as (kept & Hfst & Hsub & Hnd & Hnew).
      exists kept. split; [exact Hfst|]. split; [now apply sublist_cons|]. now split. }
    simpl. destruct (opp_link opp) as [l|] eqn:Hl; [|exact Hskip].
    destruct (PyStr.truthy l); simpl; [|exact Hskip].
    destruct (bool_decide (l ∉ seen)) eqn:Hseen; [|exact Hskip].
    apply bool_decide_eq_true in Hseen.
    destruct (IH (unique ++ [opp])%list ({[ l ]} ∪ seen)) as (kept & Hfst & Hsub & Hnd & Hnew).
    exists (opp :: kept). split; [now rewrite Hfst, <- app_assoc|].
    split; [now apply sublist_skip|]. split.
    + cbn [map]. apply NoDup_cons. split; [|exact Hnd].
      intros Hin. apply list_elem_of_In, in_map_iff in Hin as (o & Ho & Hin).
      apply list_elem_of_In in Hin. destruct (Hnew o Hin) as (link & Hlink & Hnot).
      apply Hnot. apply elem_of_union. left. apply elem_of_singleton. congruence.
    + intros o Ho. apply elem_of_cons in Ho as [->|Ho]; [eauto|].
      destruct (Hnew o Ho) as (link & Hlink & Hnot). exists link. split; [exact Hlink|].
      intros Hs. apply Hnot. apply elem_of_union. now right.
Qed.

(** On records with distinct, non-empty, unseen links the loop drops nothing. *)
Lemma dedup_loop_fixed (opps unique : list Opp) (seen : gset string) :
  NoDup (map opp_link opps) ->
  (forall o, o ∈ opps ->
     exists link, opp_link o = Some link /\ link <> EmptyString /\ link ∉ seen) ->
  fst (main.dedup_loop opps unique seen) = (unique ++ opps)%list.
Proof.
  revert unique seen. induction opps as [|opp rest IH]; intros unique seen Hnd Hall.
  - simpl. now rewrite app_nil_r.
  - cbn [map] in Hnd. apply NoDup_cons in Hnd as [Hfresh Hnd].
    destruct (Hall opp) as (l & Hl & Hne & Hnew); [now left|].
    simpl. rewrite Hl. simpl.
    rewrite (proj2 (truthy_nonempty l) Hne), (bool_decide_eq_true_2 _ Hnew).
    simpl. rewrite IH; [now rewrite <- app_assoc | exact Hnd |].
    intros o Ho. destruct (Hall o) as (link & Hlink & Hne' & Hnew'); [now right|].
    exists link. split; [exact Hlink|]. split; [exact Hne'|].
    intros Hu. apply elem_of_union in Hu as [Hu|Hu]; [|contradiction].
    apply elem_of_singleton in Hu. subst link.
    apply Hfresh. rewrite Hl, <- Hlink. apply list_elem_of_In, in_map.
    now apply list_elem_of_In.
Qed.

Lemma gather_single (opps : list Opp) : main.gather [Some opps] = opps.
Proof. unfold main.gather. simpl. now destruct opps. Qed.

(** X10. Whatever the scrapers returned, no two records of the list handed
    to the raw store carry the same link, and the records keep the order in
    which they were gathered. *)
Theorem reconciled_links_are_distinct (results : list (option (list Opp))) :
  NoDup (map opp_link (main.reconcile results)) /\
  sublist (main.reconcile results) (main.gather results).
Proof.
  unfold main.reconcile.
  destruct (dedup_loop_distinct (main.gather results) [] ∅) as (kept & -> & Hsub & Hnd & _).
  simpl. now split.
Qed.

(** X11. Reconciling is idempotent: a reconciled list, fed to the
    reconciliation again as the output of one scraper, comes back unchanged. *)
Theorem reconcile_is_idempotent (results : list (option (list Opp))) :
  main.reconcile [Some (main.reconcile results)] = main.reconcile results.
Proof.
  destruct (reconcile_spec results) as [Hkept _].
  unfold main.reconcile at 1. rewrite gather_single.
  rewrite dedup_loop_fixed; [reflexivity | |].
  - unfold main.reconcile.
    destruct (dedup_loop_distinct (main.gather results) [] ∅) as (kept & -> & _ & Hnd & _).
    exact Hnd.
  - intros o Ho. destruct (Hkept o Ho) as (_ & link & Hlink & Hne).
    exists link. split; [exact Hlink|]. split; [exact Hne | apply not_elem_of_empty].
Qed.

(** X12. Reconciling loses no link: a non-empty link is carried by a
    reconciled record exactly when a gathered record carries it. *)
Theorem reconcile_loses_no_link (results : list (option (list Opp))) (link : string) :
  link <> EmptyString ->
  (exists o, o ∈ main.reconcile results /\ opp_link o = Some link) <->
  (exists o, o ∈ main.gather results /\ opp_link o = Some link).
Proof.
  intros Hne. destruct (reconcile_spec results) as [Hkept Hone]. split.
  - intros (o & Ho & Hlink). exists o. split; [now destruct (Hkept o Ho) | exact Hlink].
  - intros (o & Ho & Hlink).
    destruct (find_has_link link _ o Ho Hlink) as [first Hfirst].
    exists first. specialize (Hone link Hne). rewrite Hfirst in Hone.
    assert (Hin : first ∈ filter (fun o => opp_link o = Some link) (main.reconcile results))
      by (rewrite Hone; now left).
    apply list_elem_of_filter in Hin as [Hl Hin]. now split.
Qed.

Lemma orchestrate_member (all_recent_links : list string)
    (scrape_opportunity_details : string -> option Opp) (existing_links : gset string)
    (o : Opp) :
  o ∈ scraper_common.orchestrate all_recent_links scrape_opportunity_details existing_links <->
  exists link, In link all_recent_links /\ (link ∉ existing_links) /\
               scrape_opportunity_details link = Some o.
Proof.
  unfold scraper_common.orchestrate, scraper_common.scrape_each,
    scraper_common.apply_test_limit, scraper_common.new_links.
  simpl. rewrite list_elem_of_In, in_flat_map. split.
  - intros (link & Hlink & Ho).
    apply list_elem_of_In, list_elem_of_filter in Hlink as [Hnew Hin].
    destruct (scrape_opportunity_details link) as [details|] eqn:Hd; [|inversion Ho].
    destruct Ho as [<-|[]]. exists link. split; [now apply list_elem_of_In|]. now split.
  - intros (link & Hin & Hnew & Hd). exists link. split.
    + apply list_elem_of_In, list_elem_of_filter. split; [exact Hnew|].
      now apply list_elem_of_In.
    + rewrite Hd. now left.
Qed.

Lemma listed_link (site : Site) (link : string) :
  In link (scraper_common.get_opportunity_links site) <->
  link <> EmptyString /\ In (mk_post (Some link) true) (site_posts site).
Proof.
  unfold scraper_common.get_opportunity_links. rewrite in_flat_map. split.
  - intros (post & Hpost & H). destruct post as [[l|] recent]; simpl in H; [|inversion H].
    destruct (PyStr.truthy l) eqn:Ht; simpl in H; [|inversion H].
    destruct recent; [|inversion H]. destruct H as [<-|[]].
    split; [now apply truthy_nonempty | exact Hpost].
  - intros [Hne Hpost]. exists (mk_post (Some link) true). split; [exact Hpost|].
    simpl. rewrite (proj2 (truthy_nonempty link) Hne). now left.
Qed.

(** X13. What [scrape_gso] returns, exactly: one record for each listed post
    that has a non-empty link, a recent date and a link not yet known, and
    whose page was fetched and has a title other than "Title not found"; the
    record carries that link, the title, the text and the source name. *)
Theorem scrape_gso_returns (web : Web) (existing_links : gset string) (o : Opp) :
  (exists out, gso_scraper.scrape_gso web existing_links = Some out /\ o ∈ out) <->
  exists link title full_text,
    o = mk_opp title (Some link) "Global South Opportunities" full_text None /\
    link <> EmptyString /\ (link ∉ existing_links) /\
    In (mk_post (Some link) true) (site_posts (gso_site web)) /\
    site_page (gso_site web) link = Some (Some title, full_text) /\
    title <> "Title not found".
Proof.
  unfold gso_scraper.scrape_gso. simpl. split.
  - intros (out & [= <-] & Ho). apply orchestrate_member in Ho as (link & Hin & Hnew & Hd).
    apply listed_link in Hin as [Hne Hpost].
    unfold gso_scraper.scrape_opportunity_details, scraper_common.details_or_skip in Hd.
    destruct (site_page (gso_site web) link) as [[[title|] full_text]|] eqn:Hpage;
      simpl in Hd; try discriminate.
    destruct (String.eqb_spec title "Title not found") as [Heq|Hneq]; [discriminate|].
    injection Hd as <-. exists link, title, full_text. repeat split; assumption.
  - intros (link & title & full_text & -> & Hne & Hnew & Hpost & Hpage & Htitle).
    eexists. split; [reflexivity|]. apply orchestrate_member. exists link.
    split; [apply listed_link; now split|]. split; [exact Hnew|].
    unfold gso_scraper.scrape_opportunity_details, scraper_common.details_or_skip.
    rewrite Hpage. simpl.
    destruct (String.eqb_spec title "Title not found") as [Heq|Hneq]; [contradiction|].
    reflexivity.
Qed.

Lemma saved_records_origin (supabase : bool) (results : list (option (list Opp)))
    (opps : list Opp) :
  raw_upsert opps ∈ main.reconcile_and_save supabase results -> opps = main.reconcile results.
Proof.
  unfold main.reconcile_and_save. intros Hcall.
  destruct (main.reconcile results) as [|o0 rest]; [inversion Hcall|].
  unfold db.add_raw_opportunities in Hcall. destruct supabase; simpl in Hcall;
    [|inversion Hcall].
  apply list_elem_of_singleton in Hcall. now injection Hcall.
Qed.

(** X14. [scrape_od] raises on every call: it passes [use_proxy] to
    [create_retry_session], which declares no such parameter. So the
    collector, which logs the error and goes on, saves records of the other
    two sources only. *)
Theorem opportunity_desk_never_arrives (supabase : bool)
    (as_completed : forall A : Type, list A -> list A)
    (title_from_slug : string -> option string) (web : Web) (existing_links : gset string) :
  (forall (A : Type) (l : list A), as_completed A l ≡ₚ l) ->
  od_scraper.scrape_od title_from_slug web existing_links = None /\
  forall opps o,
    raw_upsert opps
      ∈ main.run_collector_stage supabase as_completed title_from_slug web existing_links ->
    o ∈ opps ->
    opp_source o = "Global South Opportunities" \/ opp_source o = "Opportunities For Youth".
Proof.
  intros Hperm. split; [reflexivity|]. intros opps o Hcall Ho.
  unfold main.run_collector_stage in Hcall.
  apply saved_records_origin in Hcall as Hopps. subst opps.
  destruct (reconcile_spec
              (as_completed _ (main.scraper_results title_from_slug web existing_links)))
    as [Hkept _].
  destruct (Hkept o Ho) as [Hg _]. apply gather_elem in Hg as (out & Hout & Hin).
  rewrite Hperm in Hout. unfold main.scraper_results, main.scraper_functions in Hout.
  cbn [map] in Hout.
  repeat (apply elem_of_cons in Hout as [Hout|Hout]); [| | |inversion Hout].
  - left. unfold gso_scraper.scrape_gso in Hout. simpl in Hout. injection Hout as ->.
    apply orchestrate_member in Hin as (link & _ & _ & Hd).
    unfold gso_scraper.scrape_opportunity_details, scraper_common.details_or_skip in Hd.
    destruct (site_page (gso_site web) link) as [[t x]|]; [|discriminate].
    destruct (String.eqb _ _); [discriminate|]. now injection Hd as <-.
  - right. unfold ofy_scraper.scrape_ofy in Hout. simpl in Hout.
    destruct (ofy_nonce web) as [fresh_nonce|]; [|injection Hout as ->; inversion Hin].
    destruct (PyStr.truthy fresh_nonce); simpl in Hout;
      [|injection Hout as ->; inversion Hin].
    injection Hout as ->.
    apply orchestrate_member in Hin as (link & _ & _ & Hd).
    unfold ofy_scraper.scrape_opportunity_details, scraper_common.details_or_skip in Hd.
    destruct (site_page (ofy_site web) link) as [[t x]|]; [|discriminate].
    destruct (String.eqb _ _); [discriminate|]. now injection Hd as <-.
  - discriminate Hout.
Qed.

(** ** The scan of all links *)

Lemma page_size_pos : (0 < link_scan.page_size)%nat.
Proof. unfold link_scan.page_size. lia. Qed.

Lemma select_page (links : list string) (page : nat) :
  link_scan.select_range links (page * link_scan.page_size)
    ((page + 1) * link_scan.page_size - 1)
  = firstn link_scan.page_size (skipn (page * link_scan.page_size) links).
Proof.
  unfold link_scan.select_range. f_equal.
  pose proof page_size_pos. nia.
Qed.

Lemma firstn_nil_inv {A : Type} (n : nat) (l : list A) :
  (0 < n)%nat -> firstn n l = [] -> l = [].
Proof. intros Hn H. destruct n; [lia|]. now destruct l. Qed.

Lemma page_has_rows (links : list string) (start : nat) (x : string) (data : list string) :
  firstn link_scan.page_size (skipn start links) = x :: data ->
  (start < length links)%nat.
Proof.
  intros Hdata. destruct (Nat.lt_ge_cases start (length links)) as [Hlt|Hge]; [exact Hlt|].
  rewrite skipn_all2 in Hdata by exact Hge. now rewrite firstn_nil in Hdata.
Qed.

(** When no request fails, the loop from [page] on adds every link from row
    [page * page_size] on. *)
Lemma scan_rest (fuel page : nat) (links : list string) (all_links : gset string) :
  (length links - page * link_scan.page_size < fuel)%nat ->
  link_scan.scan None fuel page links all_links
  = Some (list_to_set (skipn (page * link_scan.page_size) links) ∪ all_links).
Proof.
  revert page all_links. induction fuel as [|fuel IH]; intros page all_links Hfuel; [lia|].
  cbn [link_scan.scan]. rewrite bool_decide_eq_false_2 by discriminate.
  rewrite select_page.
  remember (page * link_scan.page_size)%nat as start eqn:Hstart.
  destruct (firstn link_scan.page_size (skipn start links)) as [|x data] eqn:Hdata.
  - apply (firstn_nil_inv _ _ page_size_pos) in Hdata. rewrite Hdata. simpl.
    f_equal. now rewrite union_empty_l_L.
  - pose proof (page_has_rows _ _ _ _ Hdata) as Hlen. rewrite <- Hdata.
    assert (Hnext : (S page * link_scan.page_size = link_scan.page_size + start)%nat)
      by (rewrite Hstart; reflexivity).
    rewrite IH by (rewrite Hnext; pose proof page_size_pos; lia).
    f_equal. rewrite Hnext, <- skipn_skipn.
    rewrite <- (firstn_skipn link_scan.page_size (skipn start links)) at 3.
    rewrite list_to_set_app_L. apply set_eq. intros link. rewrite !elem_of_union. tauto.
Qed.

(** When the request for page [p] fails, the loop from [page] on adds the
    links of the pages before [p]. *)
Lemma scan_until (p fuel page : nat) (links : list string) (all_links : gset string) :
  (page <= p)%nat ->
  (length links - page * link_scan.page_size < fuel)%nat ->
  link_scan.scan (Some p) fuel page links all_links
  = Some (list_to_set (firstn ((p - page) * link_scan.page_size)
                              (skipn (page * link_scan.page_size) links)) ∪ all_links).
Proof.
  revert page all_links. induction fuel as [|fuel IH]; intros page all_links Hle Hfuel; [lia|].
  cbn [link_scan.scan]. destruct (bool_decide (Some p = Some page)) eqn:Hhere.
  - apply bool_decide_eq_true in Hhere. injection Hhere as ->.
    rewrite Nat.sub_diag. simpl. f_equal. now rewrite union_empty_l_L.
  - apply bool_decide_eq_false in Hhere. assert (Hne : p <> page) by congruence.
    rewrite select_page.
    remember (page * link_scan.page_size)%nat as start eqn:Hstart.
    destruct (firstn link_scan.page_size (skipn start links)) as [|x data] eqn:Hdata.
    + apply (firstn_nil_inv _ _ page_size_pos) in Hdata. rewrite Hdata, firstn_nil. simpl.
      f_equal. now rewrite union_empty_l_L.
    + pose proof (page_has_rows _ _ _ _ Hdata) as Hlen. rewrite <- Hdata.
      assert (Hnext : (S page * link_scan.page_size = link_scan.page_size + start)%nat)
        by (rewrite Hstart; reflexivity).
      rewrite IH; [|lia|rewrite Hnext; pose proof page_size_pos; lia].
      f_equal. rewrite Hnext, <- skipn_skipn.
      replace ((p - page) * link_scan.page_size)%nat
        with (link_scan.page_size + (p - S page) * link_scan.page_size)%nat.
      2: { replace (p - page)%nat with (S (p - S page)) by lia. reflexivity. }
      rewrite <- take_take_drop, list_to_set_app_L.
      apply set_eq. intros link. rewrite !elem_of_union. tauto.
Qed.

(** X15. When no request fails and the loop is given more requests than
    there are rows, [get_all_scraped_links] ends and returns the set of all
    links of the table; without a client it returns the empty set. *)
Theorem scan_returns_every_link (fuel : nat) (links : list string) :
  (length links < fuel)%nat ->
  link_scan.get_all_scraped_links true None fuel links = Some (list_to_set links) /\
  link_scan.get_all_scraped_links false None fuel links = Some ∅.
Proof.
  intros Hfuel. split; [|reflexivity].
  unfold link_scan.get_all_scraped_links. cbn [negb].
  rewrite scan_rest by (simpl; lia). simpl. f_equal. now rewrite union_empty_r_L.
Qed.

(** X16. When the request for page [p] fails, [get_all_scraped_links] does
    not fail: it returns the links of the first [p] pages, a part of the
    set it would have returned. *)
Theorem failed_page_gives_partial_set (p fuel : nat) (links : list string) :
  (length links < fuel)%nat ->
  link_scan.get_all_scraped_links true (Some p) fuel links
  = Some (list_to_set (firstn (p * link_scan.page_size) links)) /\
  forall known partial,
    link_scan.get_all_scraped_links true None fuel links = Some known ->
    link_scan.get_all_scraped_links true (Some p) fuel links = Some partial ->
    partial ⊆ known.
Proof.
  intros Hfuel.
  assert (Hpart : link_scan.get_all_scraped_links true (Some p) fuel links
                  = Some (list_to_set (firstn (p * link_scan.page_size) links))).
  { unfold link_scan.get_all_scraped_links. cbn [negb].
    rewrite scan_until by (simpl; lia). simpl. rewrite Nat.sub_0_r. f_equal.
    now rewrite union_empty_r_L. }
  split; [exact Hpart|]. intros known partial Hknown Hpartial.
  rewrite Hpart in Hpartial. injection Hpartial as <-.
  unfold link_scan.get_all_scraped_links in Hknown. cbn [negb] in Hknown.
  rewrite scan_rest in Hknown by (simpl; lia). simpl in Hknown.
  rewrite union_empty_r_L in Hknown. injection Hknown as <-.
  intros link Hlink. apply elem_of_list_to_set in Hlink. apply elem_of_list_to_set.
  exact (subseteq_take _ _ _ Hlink).
Qed.

(** ** The maintenance sweeper, exactly *)





Lemma stale_is_not_expired (today : Dates.date) (cutoff : Dates.datetime)
    (row : ProcessedRow) :
  db.stale_filter cutoff row = true -> db.expired_filter today row = false.
Proof.
  unfold db.stale_filter, db.expired_filter.
  destruct (row_deadline row); [discriminate | reflexivity].
Qed.

(** X17. With a client and a cutoff, the two passes delete exactly the rows
    that are expired or stale and leave the others in their order; the two
    counts are the numbers of expired and of stale rows of the table. *)
Theorem maintenance_deletes_exactly (now_expired now_stale cutoff : Dates.datetime)
    (table : list ProcessedRow) :
  Dates.datetime_minus_months now_stale config.STALE_OPPORTUNITY_MONTHS = Some cutoff ->
  main.run_maintenance_stage true now_expired now_stale table
  = (filter (fun row => db.stale_filter cutoff row = false /\
                        db.expired_filter (Dates.dt_date now_expired) row = false) table,
     (length (filter (fun row => db.expired_filter (Dates.dt_date now_expired) row = true)
                     table),
      length (filter (fun row => db.stale_filter cutoff row = true) table))).
Proof.
  intros Hcutoff. unfold main.run_maintenance_stage, db.delete_expired_opportunities,
    db.delete_stale_opportunities, db.delete_where. cbn [negb]. rewrite Hcutoff.
  f_equal; [apply list_filter_filter|]. f_equal.
  rewrite list_filter_filter. f_equal. apply list_filter_iff.
  intros row. split; [tauto|]. intros Hstale. split; [exact Hstale|].
  now apply (stale_is_not_expired _ cutoff).
Qed.



(** ** The geography rule reads its lists as sets *)

Lemma verdict_true_iff (geo_data : GeoData) :
  fst (main.is_relevant_for_ethiopia geo_data) = true <->
  ("ethiopia" ∉ map main.normalize (get_default (geo_excluded geo_data) [])) /\
  ("ethiopia" ∈ map main.normalize (get_default (geo_eligible geo_data) []) \/
   (get_default (geo_eligible geo_data) [] <> [] /\
    Forall (fun g => main.normalize g ∈ main.general_scopes)
           (get_default (geo_eligible geo_data) []))).
Proof.
  unfold main.is_relevant_for_ethiopia.
  set (eligible := get_default (geo_eligible geo_data) []).
  set (excluded := get_default (geo_excluded geo_data) []).
  destruct (bool_decide ("ethiopia" ∈ map main.normalize excluded)) eqn:Hex.
  { apply bool_decide_eq_true in Hex. simpl. split; [discriminate | tauto]. }
  apply bool_decide_eq_false in Hex.
  destruct (bool_decide ("ethiopia" ∈ map main.normalize eligible)) eqn:Hel.
  { apply bool_decide_eq_true in Hel. simpl. tauto. }
  apply bool_decide_eq_false in Hel.
  destruct (filter (fun loc => loc ∉ main.general_scopes) (map main.normalize eligible))
    as [|loc locs] eqn:Hspec.
  - apply filter_nil_Forall in Hspec. rewrite Forall_map in Hspec.
    assert (Hall : Forall (fun g => main.normalize g ∈ main.general_scopes) eligible).
    { eapply Forall_impl; [exact Hspec|]. intros g Hg. now apply dec_stable. }
    destruct (filter (fun scope => scope ∈ main.general_scopes) (map main.normalize eligible))
      as [|s ss] eqn:Hgen; simpl.
    + split; [discriminate|]. intros [_ [Hin|[Hne _]]]; [contradiction|].
      apply filter_nil_Forall in Hgen. rewrite Forall_map in Hgen.
      destruct eligible as [|g rest]; [contradiction|].
      inversion Hgen; subst. inversion Hall; subst. contradiction.
    + split; [|reflexivity]. intros _. split; [exact Hex|]. right. split; [|exact Hall].
      intros Hnil. rewrite Hnil in Hgen. discriminate.
  - simpl. split; [discriminate|]. intros [_ [Hin|[_ Hall]]]; [contradiction|].
    assert (Hloc : loc ∈ filter (fun loc => loc ∉ main.general_scopes)
                     (map main.normalize eligible)) by (rewrite Hspec; now left).
    apply list_elem_of_filter in Hloc as [Hout Hloc].
    apply list_elem_of_In, in_map_iff in Hloc as (g & <- & Hg).
    rewrite Forall_forall in Hall. exfalso. apply Hout, Hall. now apply list_elem_of_In.
Qed.

Lemma same_members_map {A B : Type} (f : A -> B) (l k : list A) (y : B) :
  (forall x, x ∈ l <-> x ∈ k) -> y ∈ map f l -> y ∈ map f k.
Proof.
  intros Hsame Hy. apply list_elem_of_In, in_map_iff in Hy as (x & <- & Hx).
  apply list_elem_of_In, in_map. apply list_elem_of_In, Hsame. now apply list_elem_of_In.
Qed.

(** X19. The verdict of [is_relevant_for_ethiopia] depends on which
    locations the two lists name, not on their order or on repetitions. *)
Theorem verdict_reads_lists_as_sets (eligible eligible' excluded excluded' : list string) :
  (forall g, g ∈ eligible <-> g ∈ eligible') ->
  (forall g, g ∈ excluded <-> g ∈ excluded') ->
  fst (main.is_relevant_for_ethiopia (mk_geo (Some eligible) (Some excluded)))
  = fst (main.is_relevant_for_ethiopia (mk_geo (Some eligible') (Some excluded'))).
Proof.
  assert (Hone : forall el el' ex ex',
    (forall g, g ∈ el <-> g ∈ el') -> (forall g, g ∈ ex <-> g ∈ ex') ->
    fst (main.is_relevant_for_ethiopia (mk_geo (Some el) (Some ex))) = true ->
    fst (main.is_relevant_for_ethiopia (mk_geo (Some el') (Some ex'))) = true).
  { intros el el' ex ex' Hel Hex. rewrite !verdict_true_iff. simpl.
    intros [Hno Hyes]. split.
    - intros Hin. apply Hno. eapply same_members_map; [|exact Hin].
      intros g. symmetry. apply Hex.
    - destruct Hyes as [Hin|[Hne Hall]].
      + left. eapply same_members_map; [exact Hel | exact Hin].
      + right. split.
        * destruct el as [|g rest]; [contradiction|].
          intros ->. assert (Hg : g ∈ @nil string) by (apply Hel; now left). inversion Hg.
        * rewrite Forall_forall in Hall |- *. intros g Hg. apply Hall, Hel, Hg. }
  intros Hel Hex.
  destruct (fst (main.is_relevant_for_ethiopia (mk_geo (Some eligible) (Some excluded))))
    eqn:H1;
    destruct (fst (main.is_relevant_for_ethiopia (mk_geo (Some eligible') (Some excluded'))))
      eqn:H2; try reflexivity.
  - rewrite (Hone eligible eligible' excluded excluded' Hel Hex H1) in H2. discriminate.
  - assert (Hel' : forall g, g ∈ eligible' <-> g ∈ eligible) by (intros g; symmetry; apply Hel).
    assert (Hex' : forall g, g ∈ excluded' <-> g ∈ excluded) by (intros g; symmetry; apply Hex).
    rewrite (Hone eligible' eligible excluded' excluded Hel' Hex' H2) in H1. discriminate.
Qed.

(** ** The two repair scripts *)


Lemma update_keeps_links (link : string) (value : focus_value) (table : list FocusRow) :
  map fr_link (update_focus_areas link value table) = map fr_link table.
Proof.
  unfold update_focus_areas. induction table as [|row table IH]; [reflexivity|].
  simpl. rewrite IH. now destruct (String.eqb (fr_link row) link).
Qed.




(** What the trimming leaves of focus areas that are truthy afterwards. *)
Lemma trimmed_focus_areas (data trimmed : EnrichmentData) :
  ai_analyzer.trim_focus_areas data = Returns trimmed ->
  PyJson.truthy (get_default (enr_focus_areas trimmed) (JArray [])) = true ->
  exists answered n,
    enr_focus_areas data = Some answered /\
    PyJson.len (get_default (enr_focus_areas trimmed) (JArray [])) = Some n /\
    (1 <= n <= 3)%nat /\
    (forall items,
       answered = JArray items ->
       get_default (enr_focus_areas trimmed) (JArray []) = JArray (firstn 3 items)) /\
    (forall s,
       answered = JString s ->
       get_default (enr_focus_areas trimmed) (JArray []) = JString (PyStr.take 3 s)) /\
    (forall members,
       answered = JObject members ->
       get_default (enr_focus_areas trimmed) (JArray []) = answered).
Proof.
  unfold ai_analyzer.trim_focus_areas.
  destruct data as [[answered|] summary funding funder deadline];
    cbn [enr_focus_areas enr_summary enr_funding_amount enr_funder enr_deadline get_default].
  2: { cbn [PyJson.len length Nat.ltb Nat.leb]. intros [= <-]. discriminate. }
  destruct answered as [|b|nonzero literal|s|items|members]; cbn [PyJson.len PyJson.slice];
    try discriminate.
  - destruct (3 <? String.length s)%nat eqn:Hmany; intros [= <-];
      cbn [enr_focus_areas get_default PyJson.truthy PyJson.len]; intros Htruthy;
      exists (JString s); eexists; (split; [reflexivity|]); (split; [reflexivity|]).
    + split; [|split; [|split]]; try discriminate.
      * pose proof (length_take 3 s). destruct s as [|c s]; [discriminate|].
        simpl in *. lia.
      * now intros ? [= <-].
    + apply Nat.ltb_ge in Hmany. split; [|split; [|split]]; try discriminate.
      * destruct s as [|c s]; [discriminate|]. simpl in *. lia.
      * intros ? [= <-]. now rewrite take_all.
  - destruct (3 <? length items)%nat eqn:Hmany; intros [= <-];
      cbn [enr_focus_areas get_default PyJson.len]; intros Htruthy;
      exists (JArray items); eexists; (split; [reflexivity|]); (split; [reflexivity|]).
    + apply Nat.ltb_lt in Hmany. split; [|split; [|split]]; try discriminate.
      * rewrite length_firstn. lia.
      * now intros ? [= <-].
    + apply Nat.ltb_ge in Hmany. split; [|split; [|split]]; try discriminate.
      * destruct items as [|item items]; [discriminate|]. simpl in *. lia.
      * intros ? [= <-]. now rewrite firstn_all2.
  - destruct (3 <? length members)%nat eqn:Hmany; [discriminate|]. intros [= <-].
    cbn [enr_focus_areas get_default PyJson.len]. intros Htruthy.
    apply Nat.ltb_ge in Hmany.
    exists (JObject members); eexists; (split; [reflexivity|]); (split; [reflexivity|]).
    split; [|split; [|split]]; try discriminate.
    + destruct members as [|member members]; [discriminate|]. simpl in *. lia.
    + reflexivity.
Qed.

Section ExistingFocus.
Variable ai_model : bool.
Variable enrichment_model : string -> string -> nat -> ai_analyzer.attempt EnrichmentData.

Lemma existing_loop_updates (opps : list FocusRow) (updates : list (string * json))
    (link : string) (value : json) :
  (link, value) ∈ fix_existing_focus_areas.loop ai_model enrichment_model opps updates ->
  (link, value) ∈ updates \/
  exists row data answered n,
    row ∈ opps /\ fr_link row = link /\ ai_model = true /\
    ai_analyzer._call_gemini_with_retry
      (enrichment_model (fr_title row)
         (PyStr.take 4000 (get_default (fr_summary row) EmptyString)))
    = Some (ai_analyzer.JsonObject data) /\
    enr_focus_areas data = Some answered /\
    PyJson.len value = Some n /\ (1 <= n <= 3)%nat /\
    (forall items, answered = JArray items -> value = JArray (firstn 3 items)) /\
    (forall s, answered = JString s -> value = JString (PyStr.take 3 s)) /\
    (forall members, answered = JObject members -> value = answered).
Proof.
  revert updates. induction opps as [|opp rest IH]; intros updates;
    cbn [fix_existing_focus_areas.loop].
  - now left.
  - destruct (if ai_model then fr_summary opp else Some EmptyString) as [text|];
      [|now left].
    assert (Hrest : forall ups,
      (link, value) ∈ fix_existing_focus_areas.loop ai_model enrichment_model rest ups ->
      (link, value) ∈ ups \/
      exists row data answered n,
        row ∈ opp :: rest /\ fr_link row = link /\ ai_model = true /\
        ai_analyzer._call_gemini_with_retry
          (enrichment_model (fr_title row)
             (PyStr.take 4000 (get_default (fr_summary row) EmptyString)))
        = Some (ai_analyzer.JsonObject data) /\
        enr_focus_areas data = Some answered /\
        PyJson.len value = Some n /\ (1 <= n <= 3)%nat /\
        (forall items, answered = JArray items -> value = JArray (firstn 3 items)) /\
        (forall s, answered = JString s -> value = JString (PyStr.take 3 s)) /\
        (forall members, answered = JObject members -> value = answered)).
    { intros ups Hin.
      destruct (IH ups Hin) as [Hold|(row & data & answered & n & Hrow & Hnew)];
        [now left|]. right. exists row, data, answered, n.
      split; [now right | exact Hnew]. }
    destruct (ai_analyzer.get_enrichment_data ai_model enrichment_model (fr_title opp)
                (get_default (fr_summary opp) EmptyString)) as [enrichment|] eqn:Hcalled;
      [|now left].
    destruct (PyJson.truthy (get_default (enr_focus_areas enrichment) (JArray [])))
      eqn:Htruthy; [|apply Hrest].
    intros Hin. apply Hrest in Hin as [Hin|Hin]; [|now right].
    apply elem_of_app in Hin as [Hin|Hin]; [now left|].
    apply list_elem_of_singleton in Hin. injection Hin as -> ->. right.
    unfold ai_analyzer.get_enrichment_data in Hcalled.
    destruct ai_model; cbn [negb] in Hcalled.
    2: { injection Hcalled as <-. discriminate Htruthy. }
    destruct (ai_analyzer._call_gemini_with_retry
                (enrichment_model (fr_title opp)
                   (PyStr.take 4000 (get_default (fr_summary opp) EmptyString))))
      as [[| | |data]|] eqn:Hcall;
      try (injection Hcalled as <-; discriminate Htruthy).
    destruct (trimmed_focus_areas data enrichment Hcalled Htruthy)
      as (answered & n & Hanswered & Hlen & Hn & Hfacts).
    exists opp, data, answered, n. split; [now left|]. split; [reflexivity|].
    split; [reflexivity|]. split; [exact Hcall|]. split; [exact Hanswered|].
    split; [exact Hlen|]. split; [exact Hn | exact Hfacts].
Qed.

(** X21. Every update [fix_existing_focus_areas] sends is for a row of the
    table whose enrichment call answered an object with focus areas, with a
    model configured, and it writes between one and three of them: of a list
    the first three items, of a string the first three characters, an object
    as it is. A row whose call failed, or answered no focus area, gets no
    update. *)
Theorem existing_fix_writes_one_to_three (supabase : bool) (table : list FocusRow)
    (link : string) (value : json) :
  (link, value) ∈ fix_existing_focus_areas.fix_existing_focus_areas
                    ai_model enrichment_model supabase table ->
  exists row data answered n,
    row ∈ table /\ fr_link row = link /\ ai_model = true /\
    ai_analyzer._call_gemini_with_retry
      (enrichment_model (fr_title row)
         (PyStr.take 4000 (get_default (fr_summary row) EmptyString)))
    = Some (ai_analyzer.JsonObject data) /\
    enr_focus_areas data = Some answered /\
    PyJson.len value = Some n /\ (1 <= n <= 3)%nat /\
    (forall items, answered = JArray items -> value = JArray (firstn 3 items)) /\
    (forall s, answered = JString s -> value = JString (PyStr.take 3 s)) /\
    (forall members, answered = JObject members -> value = answered).
Proof.
  unfold fix_existing_focus_areas.fix_existing_focus_areas.
  destruct supabase; cbn [negb]; [|intros H; inversion H].
  intros Hin. apply existing_loop_updates in Hin as [Hin|Hin]; [inversion Hin | exact Hin].
Qed.

End ExistingFocus.

(** ** The properties above on the small world *)

Lemma backoff_is_bounded_witness :
  fst (backoff._call_gemini_with_retry sample_limited_model)
  = ai_analyzer._call_gemini_with_retry (fun k => backoff.forget (sample_limited_model k)) /\
  Forall (fun seconds => 1 <= seconds <= 20)
         (snd (backoff._call_gemini_with_retry sample_limited_model)) /\
  backoff.total (snd (backoff._call_gemini_with_retry sample_limited_model)) <= 38.
Proof.
  apply (backoff_is_bounded sample_limited_model).
  intros k seconds Hk [Hfail|Hfail];
    do 3 (destruct k as [|k]; [discriminate Hfail|]); lia.
Defined.

Lemma enrichment_answer_decides_witness :
  main.analyze_opportunity true true sample_geo_model sample_enrichment_model
    sample_parse_date sample_today (sample_opp "bad")
  = (main.Returned (Some false)
       (Some (mk_update (Some "https://example.org/bad") processed_ai_error)), []).
Proof.
  refine (proj2 (enrichment_answer_decides true true sample_geo_model sample_enrichment_model
                   sample_parse_date sample_today (sample_opp "bad") _) _).
  - vm_compute. reflexivity.
  - left. vm_compute. reflexivity.
Defined.

Lemma run_has_one_shape_witness :
  exists records updates,
    main.run_processor_stage true true sample_geo_model sample_enrichment_model
      sample_parse_date sample_today sample_as_completed sample_raw_table
    = (main.mk_state (length (db.get_pending_opportunities true sample_raw_table))
                     (length records) updates,
       (map processed_upsert records ++ bulk_call_for updates)%list) /\
    length records
    = length (filter (fun opp =>
                        accepted (fst (main.analyze_opportunity true true sample_geo_model
                                         sample_enrichment_model sample_parse_date
                                         sample_today opp)) = true)
                     (db.get_pending_opportunities true sample_raw_table)) /\
    updates ≡ₚ omap (fun opp =>
                       status_update_of
                         (fst (main.analyze_opportunity true true sample_geo_model
                                 sample_enrichment_model sample_parse_date sample_today opp)))
                    (db.get_pending_opportunities true sample_raw_table).
Proof.
  apply (run_has_one_shape true true sample_geo_model sample_enrichment_model
           sample_parse_date sample_today sample_as_completed sample_as_completed_perm
           sample_raw_table).
Defined.

Lemma batch_touches_only_pending_witness :
  exists opp,
    opp ∈ sample_raw_table /\ opp_status opp = Some pending_analysis /\
    upd_link (mk_update (Some "https://example.org/kenya") processed_irrelevant)
    = opp_link opp /\
    upd_status (mk_update (Some "https://example.org/kenya") processed_irrelevant)
    <> pending_analysis.
Proof.
  apply (batch_touches_only_pending true true sample_geo_model sample_enrichment_model
           sample_parse_date sample_today sample_as_completed sample_as_completed_perm
           sample_raw_table
           (mk_update (Some "https://example.org/kenya") processed_irrelevant)).
  vm_compute. repeat constructor.
Defined.

Lemma no_model_discards_the_queue_witness :
  exists updates,
    main.run_processor_stage true false sample_geo_model sample_enrichment_model
      sample_parse_date sample_today sample_as_completed sample_raw_table
    = (main.mk_state (length (db.get_pending_opportunities true sample_raw_table)) 0 updates,
       bulk_call_for updates) /\
    updates ≡ₚ map (fun opp => mk_update (opp_link opp) processed_irrelevant)
                   (db.get_pending_opportunities true sample_raw_table).
Proof.
  apply (no_model_discards_the_queue true sample_geo_model sample_enrichment_model
           sample_parse_date sample_today sample_as_completed sample_raw_table
           sample_as_completed_perm).
Defined.

Lemma reconcile_loses_no_link_witness :
  exists o, o ∈ main.reconcile sample_results /\ opp_link o = Some "https://c.org/1".
Proof.
  refine (proj2 (reconcile_loses_no_link sample_results "https://c.org/1" _) _).
  - discriminate.
  - exists (mk_opp "Second" (Some "https://c.org/1") "Opportunities For Youth" "Text." None).
    split; [vm_compute; repeat constructor | reflexivity].
Defined.

Lemma opportunity_desk_never_arrives_witness :
  od_scraper.scrape_od sample_title_from_slug sample_web sample_existing_links = None /\
  forall opps o,
    raw_upsert opps
      ∈ main.run_collector_stage true sample_as_completed sample_title_from_slug sample_web
          sample_existing_links ->
    o ∈ opps ->
    opp_source o = "Global South Opportunities" \/ opp_source o = "Opportunities For Youth".
Proof.
  apply (opportunity_desk_never_arrives true sample_as_completed sample_title_from_slug
           sample_web sample_existing_links sample_as_completed_perm).
Defined.

Lemma scan_returns_every_link_witness :
  link_scan.get_all_scraped_links true None 5 ["https://a.org/1"; "https://a.org/2"]
  = Some (list_to_set ["https://a.org/1"; "https://a.org/2"]) /\
  link_scan.get_all_scraped_links false None 5 ["https://a.org/1"; "https://a.org/2"]
  = Some ∅.
Proof.
  apply (scan_returns_every_link 5 ["https://a.org/1"; "https://a.org/2"]). simpl. lia.
Defined.

Lemma failed_page_gives_partial_set_witness :
  link_scan.get_all_scraped_links true (Some 1%nat) 5 ["https://a.org/1"; "https://a.org/2"]
  = Some (list_to_set (firstn (1 * link_scan.page_size)
                              ["https://a.org/1"; "https://a.org/2"])) /\
  forall known partial,
    link_scan.get_all_scraped_links true None 5 ["https://a.org/1"; "https://a.org/2"]
    = Some known ->
    link_scan.get_all_scraped_links true (Some 1%nat) 5 ["https://a.org/1"; "https://a.org/2"]
    = Some partial ->
    partial ⊆ known.
Proof.
  apply (failed_page_gives_partial_set 1 5 ["https://a.org/1"; "https://a.org/2"]).
  simpl. lia.
Defined.

Lemma maintenance_deletes_exactly_witness :
  main.run_maintenance_stage true sample_now sample_now sample_processed_table
  = (filter (fun row =>
               db.stale_filter (Dates.mk_datetime (Dates.mk_date 2024 9 15) 1000) row = false /\
               db.expired_filter (Dates.dt_date sample_now) row = false)
            sample_processed_table,
     (length (filter (fun row => db.expired_filter (Dates.dt_date sample_now) row = true)
                     sample_processed_table),
      length (filter (fun row =>
                        db.stale_filter (Dates.mk_datetime (Dates.mk_date 2024 9 15) 1000) row
                        = true)
                     sample_processed_table))).
Proof.
  apply (maintenance_deletes_exactly sample_now sample_now
           (Dates.mk_datetime (Dates.mk_date 2024 9 15) 1000) sample_processed_table).
  vm_compute. reflexivity.
Defined.


Lemma verdict_reads_lists_as_sets_witness :
  fst (main.is_relevant_for_ethiopia
         (mk_geo (Some ["Global"; "East Africa"]) (Some ["Somalia"])))
  = fst (main.is_relevant_for_ethiopia
           (mk_geo (Some ["East Africa"; "Global"; "East Africa"])
                   (Some ["Somalia"; "Somalia"]))).
Proof.
  apply (verdict_reads_lists_as_sets ["Global"; "East Africa"]
           ["East Africa"; "Global"; "East Africa"] ["Somalia"] ["Somalia"; "Somalia"]);
    intros g; rewrite !elem_of_cons; tauto.
Defined.

Lemma existing_fix_writes_one_to_three_witness :
  exists row data answered n,
    row ∈ sample_focus_table /\ fr_link row = "https://a.org/2" /\ true = true /\
    ai_analyzer._call_gemini_with_retry
      (sample_enrichment_model (fr_title row)
         (PyStr.take 4000 (get_default (fr_summary row) EmptyString)))
    = Some (ai_analyzer.JsonObject data) /\
    enr_focus_areas data = Some answered /\
    PyJson.len (PyJson.of_strings ["Health"; "Education"; "Research"]) = Some n /\
    (1 <= n <= 3)%nat /\
    (forall items,
       answered = JArray items ->
       PyJson.of_strings ["Health"; "Education"; "Research"] = JArray (firstn 3 items)) /\
    (forall s,
       answered = JString s ->
       PyJson.of_strings ["Health"; "Education"; "Research"] = JString (PyStr.take 3 s)) /\
    (forall members,
       answered = JObject members ->
       PyJson.of_strings ["Health"; "Education"; "Research"] = answered).
Proof.
  apply (existing_fix_writes_one_to_three true sample_enrichment_model true
           sample_focus_table "https://a.org/2"
           (PyJson.of_strings ["Health"; "Education"; "Research"])).
  vm_compute. repeat constructor.
Defined.
